(** * AWS resource monitor: a shallow embedding of [server.js]

    The server polls EC2, EBS, S3, RDS and Lambda, labels every resource
    with a usage status, estimates a monthly cost and mails a report on
    resources idle for more than thirty days.

    Modelling choices.
    - JavaScript numbers are IEEE doubles in the source; here they are exact
      rationals ([Q]).  Rounding, infinities and NaN are not represented; the
      text [toFixed] makes of a number is therefore kept as the call that
      makes it, without its digits.
    - An object literal used as a table answers for its own keys and for the
      names it inherits from [Object.prototype]; both are modelled.
    - The cloud provider, the mail transport and the clock are the
      environment: a record [World] of answers, one field per remote call.
    - An [async] function is a computation in [M]: it emits the remote calls
      it performs, in order, and ends with a value, a thrown error, or never
      ends (pagination that is never exhausted).
    - [console.log]/[console.error] output is not modelled. *)

From Stdlib Require Import ZArith QArith Qabs List String Ascii Bool Lia Lqa.
From Stdlib Require Import Sorted Permutation.
Import ListNotations.

Local Open Scope string_scope.
Local Open Scope Z_scope.
Local Open Scope Q_scope.

(** ** JavaScript values *)

(** An [Error] object: its [name] and its [message]. *)
Record JsError : Type := mkError {
  err_name : string;
  err_message : string
}.

Definition TypeError (msg : string) : JsError := mkError "TypeError" msg.
Definition Error (msg : string) : JsError := mkError "Error" msg.

(** A settled promise of the environment. *)
Inductive Result (A : Type) : Type :=
| Resolved (a : A)
| Rejected (e : JsError).
Arguments Resolved {A} a.
Arguments Rejected {A} e.

(** Truthiness of a possibly-undefined string: [undefined] and [''] are falsy. *)
Definition truthy (s : option string) : bool :=
  match s with
  | Some s' => negb (s' =? "")%string
  | None => false
  end.

(** [a || b] on possibly-undefined strings. *)
Definition or_else (a : option string) (b : string) : string :=
  match a with
  | Some s => if (s =? "")%string then b else s
  | None => b
  end.

(** [x < y] on numbers. *)
Definition Qlt_bool (x y : Q) : bool := negb (Qle_bool y x).

(** [values.reduce((a, b) => a + b, 0)] *)
Definition sum_values (values : list Q) : Q :=
  fold_left (fun a b => a + b) values 0.

(** [a || b] on a possibly-undefined number: [undefined] and [0] are falsy. *)
Definition num_or_else (a : option Q) (b : Q) : Q :=
  match a with
  | Some q => if Qeq_bool q 0 then b else q
  | None => b
  end.

(** Reading a numeric field of a record whose kind always sets it. *)
Definition num (o : option Q) : Q :=
  match o with
  | Some q => q
  | None => 0
  end.

(** A string read off a possibly-undefined field inside a template. *)
Definition str (o : option string) : string :=
  match o with
  | Some s => s
  | None => "undefined"
  end.

(** What a property read or a variable holds where the source expects a
    [V]: such a value, [undefined], or a member that every object inherits
    from [Object.prototype] (a function, or the prototype itself under
    [__proto__]); an inherited member is truthy. *)
Inductive Js (V : Type) : Type :=
| Val (v : V)
| Undefined
| Builtin (key : string).
Arguments Val {V} v.
Arguments Undefined {V}.
Arguments Builtin {V} key.

(** The names an object literal inherits from [Object.prototype]. *)
Definition Object_prototype : list string :=
  [ "constructor"; "__defineGetter__"; "__defineSetter__"; "hasOwnProperty";
    "__lookupGetter__"; "__lookupSetter__"; "isPrototypeOf";
    "propertyIsEnumerable"; "toString"; "valueOf"; "__proto__";
    "toLocaleString" ].

(** The entry an object literal itself has under [key]. *)
Fixpoint own {V : Type} (key : string) (table : list (string * V)) : option V :=
  match table with
  | [] => None
  | (k, v) :: rest => if (k =? key)%string then Some v else own key rest
  end.

(** [table[key]] on an object literal used as a table: its own entry, else
    the member inherited under that name, else [undefined]. *)
Definition lookup {V : Type} (key : string) (table : list (string * V)) : Js V :=
  match own key table with
  | Some v => Val v
  | None =>
      if existsb (String.eqb key) Object_prototype then Builtin key
      else Undefined
  end.

(** [a || b] where [a] may be a string, [undefined] or an inherited member
    and [b] is a string. *)
Definition js_or_else (a : Js string) (b : string) : Js string :=
  match a with
  | Val s => if (s =? "")%string then Val b else Val s
  | Undefined => Val b
  | Builtin key => Builtin key
  end.

(** [if (a)] on such a value. *)
Definition js_truthy (a : Js string) : bool :=
  match a with
  | Val s => negb (s =? "")%string
  | Undefined => false
  | Builtin _ => true
  end.

(** A possibly-undefined field as a value. *)
Definition js_of_option {V : Type} (o : option V) : Js V :=
  match o with
  | Some v => Val v
  | None => Undefined
  end.

(** [c.toUpperCase()] on an ASCII character. *)
Definition upper_ascii (c : ascii) : ascii :=
  let n := nat_of_ascii c in
  if (97 <=? n)%nat && (n <=? 122)%nat then ascii_of_nat (n - 32) else c.

(** [s.toUpperCase()] *)
Fixpoint toUpperCase (s : string) : string :=
  match s with
  | EmptyString => EmptyString
  | String c s' => String (upper_ascii c) (toUpperCase s')
  end.

(** [s.charAt(0).toUpperCase() + s.slice(1)] *)
Definition capitalize (s : string) : string :=
  match s with
  | EmptyString => EmptyString
  | String c s' => String (upper_ascii c) s'
  end.

(** [x.toFixed(digits)], a text.  Its digits are those of the double behind
    [x]: a total whose exact value is 0.475 may be held as
    0.47499999999999997 and shown as 0.47.  Numbers are exact rationals here,
    so the text is kept as the call that makes it and its digits are not
    computed. *)
Inductive FixedText : Type :=
| toFixed (x : Q) (digits : Z).

(** A text built by a template: the literal parts, and the places filled by
    [toFixed]. *)
Inductive Piece : Type :=
| Lit (s : string)
| Fixed (t : FixedText).

Definition Text : Type := list Piece.

(** [lines.join('\n')] *)
Fixpoint join_lines (lines : list Text) : Text :=
  match lines with
  | [] => []
  | [l] => l
  | l :: rest =>
      (l ++ Lit (String (ascii_of_nat 10) "") :: join_lines rest)%list
  end.

(** [names.sort()]: ascending by code units. *)
Fixpoint insert_sorted (s : string) (l : list string) : list string :=
  match l with
  | [] => [s]
  | x :: rest => if String.leb s x then s :: l else x :: insert_sorted s rest
  end.

Definition sort_strings (l : list string) : list string :=
  fold_right insert_sorted [] l.

(** ** Remote calls *)

Record Dimension : Type := mkDimension {
  dim_Name : string;
  dim_Value : option string
}.

Record MetricStat : Type := mkMetricStat {
  Namespace : string;
  MetricName : string;
  Dimensions : list Dimension;
  Period : Z;
  Stat : string
}.

Record MetricDataQuery : Type := mkMetricDataQuery {
  query_Id : string;
  query_MetricStat : MetricStat
}.

(** The parameters of [GetMetricDataCommand]; times in milliseconds. *)
Record GetMetricDataInput : Type := mkGetMetricDataInput {
  StartTime : Z;
  EndTime : Z;
  MetricDataQueries : list MetricDataQuery
}.

Record MetricDataResult : Type := mkMetricDataResult {
  Values : option (list Q)
}.

Record GetMetricDataOutput : Type := mkGetMetricDataOutput {
  MetricDataResults : list MetricDataResult
}.

Record PriceFilter : Type := mkFilter {
  filter_Type : string;
  filter_Field : string;
  filter_Value : Js string
}.

(** The parameters of [GetProductsCommand]. *)
Record GetProductsInput : Type := mkGetProductsInput {
  ServiceCode : string;
  Filters : list PriceFilter;
  MaxResults : Z;
  FormatVersion : string
}.

(** One entry of [PriceList], seen through the decoding of [getHourlyPrice]:
    [JSON.parse], the walk to the first on-demand price dimension and
    [parseFloat] either throw or yield the price in USD. *)
Inductive PriceListEntry : Type :=
| UndecodableEntry (e : JsError)
| PricedEntry (usd : Q).

Record GetProductsOutput : Type := mkGetProductsOutput {
  PriceList : option (list PriceListEntry)
}.

Record MailOptions : Type := mkMailOptions {
  mail_from : string;
  mail_to : string;
  mail_subject : string;
  mail_text : Text
}.

(** ** Provider records *)

Record Instance : Type := mkInstance {
  InstanceId : string;
  InstanceType : string;
  State_Name : string;
  LaunchTime : Z
}.

Record Reservation : Type := mkReservation {
  Instances : option (list Instance)
}.

(** The volume types of the EC2 API.  [VolumeType] is read as a key of the
    price table, and no volume type is a name of [Object.prototype]. *)
Inductive VolumeTypeName : Type :=
| standard | io1 | io2 | gp2 | sc1 | st1 | gp3.

Definition VolumeTypeName_eqb (a b : VolumeTypeName) : bool :=
  match a, b with
  | standard, standard | io1, io1 | io2, io2 | gp2, gp2
  | sc1, sc1 | st1, st1 | gp3, gp3 => true
  | _, _ => false
  end.

(** The string the provider sends for a volume type. *)
Definition volume_type_name (t : VolumeTypeName) : string :=
  match t with
  | standard => "standard"
  | io1 => "io1"
  | io2 => "io2"
  | gp2 => "gp2"
  | sc1 => "sc1"
  | st1 => "st1"
  | gp3 => "gp3"
  end.

Record Volume : Type := mkVolume {
  VolumeId : string;
  VolumeType : VolumeTypeName;
  vol_State : string;
  vol_Size : Q;
  CreateTime : Z
}.

Record Bucket : Type := mkBucket {
  bucket_Name : string;
  CreationDate : Z
}.

Record DBInstance : Type := mkDBInstance {
  DBInstanceIdentifier : string;
  DBInstanceClass : string;
  Engine : string;
  DBInstanceStatus : string;
  InstanceCreateTime : Z
}.

Record LambdaFunction : Type := mkLambdaFunction {
  FunctionName : string;
  Runtime : string;
  MemorySize : Q;
  LastModified : string
}.

(** One page of a paginated describe call: the list under [resultKey] and
    the two continuation fields the helper looks at. *)
Record Page (X : Type) : Type := mkPage {
  page_items : option (list X);
  page_NextToken : option string;
  page_Marker : option string
}.
Arguments mkPage {X} _ _ _.
Arguments page_items {X} _.
Arguments page_NextToken {X} _.
Arguments page_Marker {X} _.

(** ** The resource record built by the server

    One JavaScript object per resource; a field a kind does not set is
    [None].  [creation] is a [Date]: [None] is an invalid date, which
    compares false with everything. *)
Record Resource : Type := mkResource {
  service : string;
  region : string;
  id : option string;
  name : option string;
  type : option string;
  engine : option string;
  runtime : option string;
  memory : option Q;
  state : option string;
  size : option Q;
  created : option Z;
  creation : option Z;
  avgCpu : option Q;
  numObjects : option Q;
  sizeGB : option Q;
  invocations : option Q;
  usageStatus : string;
  monthlyCost : Q
}.

Definition set_avgCpu (v : Q) (r : Resource) : Resource :=
  mkResource (service r) (region r) (id r) (name r) (type r) (engine r)
    (runtime r) (memory r) (state r) (size r) (created r) (creation r)
    (Some v) (numObjects r) (sizeGB r) (invocations r)
    (usageStatus r) (monthlyCost r).

Definition set_invocations (v : Q) (r : Resource) : Resource :=
  mkResource (service r) (region r) (id r) (name r) (type r) (engine r)
    (runtime r) (memory r) (state r) (size r) (created r) (creation r)
    (avgCpu r) (numObjects r) (sizeGB r) (Some v)
    (usageStatus r) (monthlyCost r).

Definition set_usageStatus (v : string) (r : Resource) : Resource :=
  mkResource (service r) (region r) (id r) (name r) (type r) (engine r)
    (runtime r) (memory r) (state r) (size r) (created r) (creation r)
    (avgCpu r) (numObjects r) (sizeGB r) (invocations r)
    v (monthlyCost r).

Definition set_monthlyCost (v : Q) (r : Resource) : Resource :=
  mkResource (service r) (region r) (id r) (name r) (type r) (engine r)
    (runtime r) (memory r) (state r) (size r) (created r) (creation r)
    (avgCpu r) (numObjects r) (sizeGB r) (invocations r)
    (usageStatus r) v.

(** [{ service, region, ...r }]: a fresh copy of [r].  The spread comes
    last, so the [service] and [region] of [r] itself (always present, and
    equal to the two given) are the ones kept. *)
Definition spread (svc rgn : string) (r : Resource) : Resource := r.

(** [r.state === s] *)
Definition state_is (r : Resource) (s : string) : bool :=
  match state r with
  | Some s' => (s' =? s)%string
  | None => false
  end.

(** [r.creation < bound], both read as milliseconds. *)
Definition created_before (r : Resource) (bound : Z) : bool :=
  match creation r with
  | Some t => (t <? bound)%Z
  | None => false
  end.

(** ** The environment *)

Record World : Type := mkWorld {
  (** [Date.now()] *)
  now : Z;
  (** [new Date(s).getTime()], [None] for an invalid date *)
  Date_parse : string -> option Z;
  (** [process.env.EMAIL_USER], [EMAIL_PASS], [RECEIVER_EMAIL] *)
  emailUser : option string;
  emailPass : option string;
  receiverEmail : option string;
  (** region names of [DescribeRegionsCommand], in the provider's order *)
  ec2_DescribeRegions : Result (list string);
  ec2_DescribeInstances : string -> option string -> Result (Page Reservation);
  ec2_DescribeVolumes : string -> option string -> Result (Page Volume);
  s3_ListBuckets : Result (option (list Bucket));
  (** [LocationConstraint] of [GetBucketLocationCommand] *)
  s3_GetBucketLocation : string -> Result (option string);
  rds_DescribeDBInstances : string -> option string -> Result (Page DBInstance);
  lambda_ListFunctions : string -> option string -> Result (Page LambdaFunction);
  (** the CloudWatch client of a region *)
  cw_GetMetricData : string -> GetMetricDataInput -> Result GetMetricDataOutput;
  pricing_GetProducts : GetProductsInput -> Result GetProductsOutput;
  transporter_sendMail : MailOptions -> Result unit
}.

(** ** Computations *)

(** The remote calls and notifications a computation performs, in order
    (the describe and list calls are not recorded). *)
Inductive Event : Type :=
| EvGetMetricData (cwRegion : string) (params : GetMetricDataInput)
| EvGetProducts (params : GetProductsInput)
| EvSendNotification (resources : list Resource) (isManual : bool)
| EvSendMail (options : MailOptions).

Inductive Outcome (A : Type) : Type :=
| Ok (a : A)
| Throw (e : JsError)
| Diverge.
Arguments Ok {A} a.
Arguments Throw {A} e.
Arguments Diverge {A}.

Definition M (A : Type) : Type := (list Event * Outcome A)%type.

Definition ret {A} (a : A) : M A := ([], Ok a).
Definition throw {A} (e : JsError) : M A := ([], Throw e).
Definition emit (ev : Event) : M unit := ([ev], Ok tt).

Definition bind {A B} (m : M A) (k : A -> M B) : M B :=
  match m with
  | (t, Ok a) => let (t', r) := k a in ((t ++ t')%list, r)
  | (t, Throw e) => (t, Throw e)
  | (t, Diverge) => (t, Diverge)
  end.

(** [try { m } catch (err) { h err }] *)
Definition try_catch {A} (m : M A) (h : JsError -> M A) : M A :=
  match m with
  | (t, Throw e) => let (t', r) := h e in ((t ++ t')%list, r)
  | other => other
  end.

(** [await p] for a promise settled by the environment. *)
Definition await {A} (p : Result A) : M A :=
  match p with
  | Resolved a => ret a
  | Rejected e => throw e
  end.

Declare Scope monad_scope.
Delimit Scope monad_scope with monad.
Notation "x <- m ;; k" := (bind m (fun x => k))
  (at level 100, m at next level, right associativity) : monad_scope.
Notation "m ;;; k" := (bind m (fun _ => k))
  (at level 100, right associativity) : monad_scope.
Local Open Scope monad_scope.

Definition trace {A} (m : M A) : list Event := fst m.
Definition outcome {A} (m : M A) : Outcome A := snd m.

Section Server.

Variable w : World.

(** Pages a describe helper may request before the model gives up. *)
Variable fuel : nat.

(** ** Metric gateway: [getMetric] *)

(** The [params] object of [getMetric]. *)
Definition metric_params (namespace metricName : string)
    (dimensions : list Dimension) (stat : string) (days : Z)
    : GetMetricDataInput :=
  let period := if (days <=? 1)%Z then 3600%Z else 86400%Z in
  mkGetMetricDataInput
    (now w - days * 24 * 60 * 60 * 1000)%Z
    (now w)
    [ mkMetricDataQuery "m1"
        (mkMetricStat namespace metricName dimensions period stat) ].

(** [data.MetricDataResults[0].Values || []] once [data] has a first result. *)
Definition samples (r0 : MetricDataResult) : list Q :=
  match Values r0 with
  | Some vs => vs
  | None => []
  end.

Definition getMetric (cwRegion : string) (namespace metricName : string)
    (dimensions : list Dimension) (stat : string) (days : Z) : M Q :=
  let params := metric_params namespace metricName dimensions stat days in
  emit (EvGetMetricData cwRegion params) ;;;
  data <- await (cw_GetMetricData w cwRegion params) ;;
  match MetricDataResults data with
  | [] => throw (TypeError "Cannot read properties of undefined (reading 'Values')")
  | r0 :: _ =>
      let values := samples r0 in
      if (stat =? "Sum")%string then ret (sum_values values)
      else
        ret (if (0 <? Z.of_nat (List.length values))%Z
             then sum_values values / inject_Z (Z.of_nat (List.length values))
             else 0)
  end.

(** ** Price gateway: [getHourlyPrice] *)

(** The body of the [try] block: [Some price] when it returns, [None] when
    control falls out of it. *)
Definition getHourlyPrice_try (params : GetProductsInput) : M (option Q) :=
  emit (EvGetProducts params) ;;;
  data <- await (pricing_GetProducts w params) ;;
  match PriceList data with
  | None => throw (TypeError "Cannot read properties of undefined (reading 'length')")
  | Some [] => ret None
  | Some (UndecodableEntry e :: _) => throw e
  | Some (PricedEntry usd :: _) => ret (Some usd)
  end.

Definition price_params (serviceCode : string) (filters : list PriceFilter)
    : GetProductsInput :=
  mkGetProductsInput serviceCode filters 1 "aws_v1".

Definition getHourlyPrice (serviceCode : string) (filters : list PriceFilter) : M Q :=
  let params := price_params serviceCode filters in
  r <- try_catch (getHourlyPrice_try params) (fun _ => ret None) ;;
  match r with
  | Some price => ret price
  | None => ret 0
  end.

(** ** Pagination: [paginateDescribe]

    [send tok] is [client.send(new CommandClass({ ...params, NextToken: tok }))].
    The [do ... while (nextToken)] loop runs at most [n] times here. *)
Fixpoint paginate_loop {X : Type} (n : nat)
    (send : option string -> Result (Page X))
    (results : list X) (nextToken : option string) : M (list X) :=
  match n with
  | O => ([], Diverge)
  | S n' =>
      data <- await (send nextToken) ;;
      let results' :=
        match page_items data with
        | Some xs => (results ++ xs)%list
        | None => results
        end in
      let nextToken' :=
        if truthy (page_NextToken data) then page_NextToken data
        else page_Marker data in
      if truthy nextToken' then paginate_loop n' send results' nextToken'
      else ret results'
  end.

Definition paginateDescribe {X : Type}
    (send : option string -> Result (Page X)) : M (list X) :=
  paginate_loop fuel send [] None.

(** ** [getAllRegions] *)
Definition getAllRegions : M (list string) :=
  names <- await (ec2_DescribeRegions w) ;;
  ret (sort_strings names).

(** ** Notifier: [sendNotification] *)

Definition notification_line (r : Resource) : Text :=
  [ Lit (toUpperCase (service r) ++ " in " ++ region r ++ ": "
         ++ (if truthy (id r) then str (id r) else str (name r))
         ++ " (" ++ usageStatus r ++ ", Cost: $");
    Fixed (toFixed (monthlyCost r) 2);
    Lit ")" ].

Definition sendNotification (resources : list Resource) (isManual : bool)
    : M string :=
  emit (EvSendNotification resources isManual) ;;;
  if negb (truthy (emailUser w)) || negb (truthy (emailPass w))
     || negb (truthy (receiverEmail w))
  then throw (Error "Missing email configuration in .env")
  else
    let subject :=
      if isManual then "Manual AWS Resources Notification"
      else "AWS Unused Resources Notification (>30 days)" in
    let body :=
      if (0 <? Z.of_nat (List.length resources))%Z
      then Lit ("The following AWS resources were identified:"
                ++ String (ascii_of_nat 10) (String (ascii_of_nat 10) ""))
           :: join_lines (map notification_line resources)
      else [Lit "No unused resources found. This is a test email."] in
    let mailOptions :=
      mkMailOptions ("AWS Resource Monitor <" ++ str (emailUser w) ++ ">")
        (str (receiverEmail w)) subject body in
    try_catch
      (emit (EvSendMail mailOptions) ;;;
       await (transporter_sendMail w mailOptions) ;;;
       ret "Email sent successfully")
      (fun err => throw err).

(** ** Loops *)

(** [for (let x of xs) { acc = body x acc }], left to right; a throw ends it. *)
Fixpoint for_each {A S : Type} (body : A -> S -> M S) (xs : list A) (acc : S)
    : M S :=
  match xs with
  | [] => ret acc
  | x :: rest => acc' <- body x acc ;; for_each body rest acc'
  end.

(** A loop that also updates the objects it walks over: the first component
    of the accumulator collects them as they are left by the body. *)
Definition for_each_update {S : Type}
    (body : Resource -> S -> M (Resource * S))
    (xs : list Resource) (acc : S) : M (list Resource * S) :=
  for_each
    (fun x (st : list Resource * S) =>
       r <- body x (snd st) ;;
       ret ((fst st ++ [fst r])%list, snd r))
    xs ([], acc).

(** ** Classifier and cost estimator *)

Definition regionToLocation : list (string * string) :=
  [ ("us-east-1", "US East (N. Virginia)");
    ("us-east-2", "US East (Ohio)");
    ("us-west-1", "US West (N. California)");
    ("us-west-2", "US West (Oregon)");
    ("eu-west-1", "EU (Ireland)") ].

Definition typePrices : list (VolumeTypeName * Q) :=
  [ (gp2, 0.10); (gp3, 0.08); (io1, 0.125); (st1, 0.045); (sc1, 0.025) ].

(** [typePrices[t]] for a volume type [t]. *)
Fixpoint price_of (t : VolumeTypeName) (table : list (VolumeTypeName * Q))
    : option Q :=
  match table with
  | [] => None
  | (k, v) :: rest => if VolumeTypeName_eqb k t then Some v else price_of t rest
  end.

(** The three-way branch on a CPU average, as written for instances and
    databases alike. *)
Definition cpuUsageStatus (avgCpu : Q) : string :=
  if Qlt_bool avgCpu 1 then "idle"
  else if Qlt_bool avgCpu 10 then "underutilized"
  else "used".

Definition term_match (field : string) (value : Js string) : PriceFilter :=
  mkFilter "TERM_MATCH" field value.

Definition ec2_filters (inst : Resource) (location : Js string)
    : list PriceFilter :=
  [ term_match "instanceType" (js_of_option (type inst));
    term_match "operatingSystem" (Val "Linux");
    term_match "tenancy" (Val "Shared");
    term_match "capacitystatus" (Val "Used");
    term_match "preInstalledSw" (Val "NA");
    term_match "location" location ].

Definition rds_filters (db : Resource) (engineName : string)
    (location : Js string) : list PriceFilter :=
  [ term_match "instanceType" (js_of_option (type db));
    term_match "databaseEngine" (Val engineName);
    term_match "deploymentOption" (Val "Single-AZ");
    term_match "location" location ].

(** [db.engine.charAt(0).toUpperCase() + db.engine.slice(1)]; reading
    [charAt] of [undefined] throws. *)
Definition engine_name (db : Resource) : M string :=
  match engine db with
  | Some e => ret (capitalize e)
  | None => throw (TypeError "Cannot read properties of undefined (reading 'charAt')")
  end.

Definition resource_of_instance (svc rgn : string) (inst : Instance) : Resource :=
  mkResource svc rgn (Some (InstanceId inst)) None (Some (InstanceType inst))
    None None None (Some (State_Name inst)) None None (Some (LaunchTime inst))
    (Some 0) None None None (State_Name inst) 0.

Definition resource_of_volume (svc rgn : string) (vol : Volume) : Resource :=
  let pricePerGb := num_or_else (price_of (VolumeType vol) typePrices) 0.10 in
  let monthlyCost := vol_Size vol * pricePerGb in
  mkResource svc rgn (Some (VolumeId vol)) None
    (Some (volume_type_name (VolumeType vol)))
    None None None (Some (vol_State vol)) (Some (vol_Size vol)) None
    (Some (CreateTime vol)) None None None None
    (if (vol_State vol =? "in-use")%string then "used" else "idle")
    monthlyCost.

Definition resource_of_db (svc rgn : string) (db : DBInstance) : Resource :=
  mkResource svc rgn (Some (DBInstanceIdentifier db)) None
    (Some (DBInstanceClass db)) (Some (Engine db)) None None
    (Some (DBInstanceStatus db)) None None (Some (InstanceCreateTime db))
    (Some 0) None None None (DBInstanceStatus db) 0.

Definition resource_of_function (svc rgn : string) (fn : LambdaFunction)
    : Resource :=
  mkResource svc rgn None (Some (FunctionName fn)) None None
    (Some (Runtime fn)) (Some (MemorySize fn)) None None None
    (Date_parse w (LastModified fn)) None None None (Some 0) "idle" 0.

(** [reservations.flatMap(res => res.Instances || [])] *)
Definition instances_of (reservations : list Reservation) : list Instance :=
  flat_map (fun res => match Instances res with Some l => l | None => [] end)
    reservations.

(** The lambda cost written out in the loop body. *)
Definition lambda_cost (invocations avgDuration memory : Q) : Q :=
  let totalDurationS := (avgDuration / 1000) * invocations in
  let gbS := totalDurationS * (memory / 1024) in
  let reqCost := invocations * 0.0000002 in
  let computeCost := gbS * 0.0000166667 in
  (reqCost + computeCost) * 30.

(** [GetBucketLocationCommand] inside its own [try]: [None] is the
    [continue] of the [catch]. *)
Definition bucket_location (bucket : Bucket) : M (option (option string)) :=
  try_catch
    (locRes <- await (s3_GetBucketLocation w (bucket_Name bucket)) ;;
     ret (Some locRes))
    (fun _ => ret None).

Definition s3_dimensions (bucket : Bucket) (storageType : string)
    : list Dimension :=
  [ mkDimension "BucketName" (Some (bucket_Name bucket));
    mkDimension "StorageType" (Some storageType) ].

(** *** On-demand fetch: [fetchServiceResources]

    Each loop body takes the object it visits and the running
    [totalCostEstimate], and gives back both as the body leaves them. *)

Definition fetch_ec2_body (cwRegion rgn : string) (inst : Resource)
    (totalCostEstimate : Q) : M (Resource * Q) :=
  if state_is inst "running" then
    avg <- getMetric cwRegion "AWS/EC2" "CPUUtilization"
             [mkDimension "InstanceId" (id inst)] "Average" 1 ;;
    let inst := set_usageStatus (cpuUsageStatus avg) (set_avgCpu avg inst) in
    let location := js_or_else (lookup rgn regionToLocation) "" in
    if js_truthy location then
      hourly <- getHourlyPrice "AmazonEC2" (ec2_filters inst location) ;;
      let inst := set_monthlyCost (hourly * 730) inst in
      ret (inst, totalCostEstimate + monthlyCost inst)
    else ret (inst, totalCostEstimate)
  else if state_is inst "stopped" then
    ret (set_monthlyCost 0 (set_usageStatus "stopped" inst), totalCostEstimate)
  else ret (inst, totalCostEstimate).

Definition fetch_s3_body (cwRegion svc rgn : string) (bucket : Bucket)
    (acc : list Resource * Q) : M (list Resource * Q) :=
  loc <- bucket_location bucket ;;
  match loc with
  | None => ret acc
  | Some locRes =>
      let bucketRegion := or_else locRes "us-east-1" in
      if negb (bucketRegion =? rgn)%string then ret acc
      else
        numObjects <- getMetric cwRegion "AWS/S3" "NumberOfObjects"
                        (s3_dimensions bucket "AllStorageTypes") "Average" 1 ;;
        sizeBytes <- getMetric cwRegion "AWS/S3" "BucketSizeBytes"
                       (s3_dimensions bucket "StandardStorage") "Average" 1 ;;
        let sizeGB := sizeBytes / 1073741824 in
        let usageStatus := if Qlt_bool 0 numObjects then "used" else "idle" in
        let monthlyCost := sizeGB * 0.023 in
        let resource :=
          mkResource svc rgn None (Some (bucket_Name bucket)) None None None
            None None None (Some (CreationDate bucket))
            (Some (CreationDate bucket)) None (Some numObjects) (Some sizeGB)
            None usageStatus monthlyCost in
        ret ((fst acc ++ [resource])%list, snd acc + monthlyCost)
  end.

Definition fetch_rds_body (cwRegion rgn : string) (db : Resource)
    (totalCostEstimate : Q) : M (Resource * Q) :=
  if state_is db "available" then
    avg <- getMetric cwRegion "AWS/RDS" "CPUUtilization"
             [mkDimension "DBInstanceIdentifier" (id db)] "Average" 1 ;;
    let db := set_usageStatus (cpuUsageStatus avg) (set_avgCpu avg db) in
    let location := js_or_else (lookup rgn regionToLocation) "" in
    if js_truthy location then
      engineName <- engine_name db ;;
      hourly <- getHourlyPrice "AmazonRDS" (rds_filters db engineName location) ;;
      let db := set_monthlyCost (hourly * 730) db in
      ret (db, totalCostEstimate + monthlyCost db)
    else ret (db, totalCostEstimate)
  else if state_is db "stopped" then
    ret (set_monthlyCost 0 (set_usageStatus "stopped" db), totalCostEstimate)
  else ret (db, totalCostEstimate).

Definition fetch_lambda_body (cwRegion : string) (fn : Resource)
    (totalCostEstimate : Q) : M (Resource * Q) :=
  invocations <- getMetric cwRegion "AWS/Lambda" "Invocations"
                   [mkDimension "FunctionName" (name fn)] "Sum" 1 ;;
  let fn := set_invocations invocations fn in
  let fn := set_usageStatus (if Qlt_bool 0 invocations then "used" else "idle") fn in
  if Qlt_bool 0 invocations then
    avgDuration <- getMetric cwRegion "AWS/Lambda" "Duration"
                     [mkDimension "FunctionName" (name fn)] "Average" 1 ;;
    let fn := set_monthlyCost
                (lambda_cost invocations avgDuration (num (memory fn))) fn in
    ret (fn, totalCostEstimate + monthlyCost fn)
  else ret (fn, totalCostEstimate).

(** [volumes.map(vol => { ...; totalCostEstimate += monthlyCost; ... })]:
    the records in order, and the total the callback has added up. *)
Definition fetch_ebs_volumes (svc rgn : string) (volumes : list Volume)
    : list Resource * Q :=
  fold_left
    (fun (acc : list Resource * Q) vol =>
       let r := resource_of_volume svc rgn vol in
       ((fst acc ++ [r])%list, snd acc + monthlyCost r))
    volumes ([], 0).

Definition fetchServiceResources (svc rgn : string) : M (list Resource * Q) :=
  let cwRegion := if (svc =? "s3")%string then "us-east-1" else rgn in
  if (svc =? "ec2")%string then
    reservations <- paginateDescribe (ec2_DescribeInstances w rgn) ;;
    let resources :=
      map (resource_of_instance svc rgn) (instances_of reservations) in
    for_each_update (fetch_ec2_body cwRegion rgn) resources 0
  else if (svc =? "ebs")%string then
    volumes <- paginateDescribe (ec2_DescribeVolumes w rgn) ;;
    ret (fetch_ebs_volumes svc rgn volumes)
  else if (svc =? "s3")%string then
    listed <- await (s3_ListBuckets w) ;;
    let buckets := match listed with Some l => l | None => [] end in
    for_each (fetch_s3_body cwRegion svc rgn) buckets ([], 0)
  else if (svc =? "rds")%string then
    dbInstances <- paginateDescribe (rds_DescribeDBInstances w rgn) ;;
    let resources := map (resource_of_db svc rgn) dbInstances in
    for_each_update (fetch_rds_body cwRegion rgn) resources 0
  else if (svc =? "lambda")%string then
    functions <- paginateDescribe (lambda_ListFunctions w rgn) ;;
    let resources := map (resource_of_function svc rgn) functions in
    for_each_update (fetch_lambda_body cwRegion) resources 0
  else throw (Error "Invalid service").

(** *** The scan: the loops shared, line for line, by [GET /api/scan] and
    the scheduled job

    The accumulator of every loop is the pair
    [(unusedResources, longIdleResources)]. *)

Definition Lists : Type := (list Resource * list Resource)%type.

Definition thirtyDaysAgo : Z := (now w - 30 * 24 * 60 * 60 * 1000)%Z.

Definition push_if (cond : bool) (r : Resource) (l : list Resource)
    : list Resource :=
  if cond then (l ++ [r])%list else l.

(** The first half of the body for an instance: status, cost and the
    30-day metric ([longMetric], initially 0). *)
Definition scan_ec2_classify (cwRegion rgn : string) (inst : Resource)
    : M (Resource * Q) :=
  if state_is inst "running" then
    avg <- getMetric cwRegion "AWS/EC2" "CPUUtilization"
             [mkDimension "InstanceId" (id inst)] "Average" 1 ;;
    let inst := set_usageStatus (cpuUsageStatus avg) (set_avgCpu avg inst) in
    let location := js_or_else (lookup rgn regionToLocation) "" in
    inst <- (if js_truthy location
                && negb (usageStatus inst =? "stopped")%string
             then
               hourly <- getHourlyPrice "AmazonEC2"
                           (ec2_filters inst location) ;;
               ret (set_monthlyCost (hourly * 730) inst)
             else ret inst) ;;
    longMetric <- getMetric cwRegion "AWS/EC2" "CPUUtilization"
                    [mkDimension "InstanceId" (id inst)] "Average" 30 ;;
    ret (inst, longMetric)
  else if state_is inst "stopped" then
    ret (set_monthlyCost 0 (set_usageStatus "stopped" inst), 0)
  else ret (inst, 0).

Definition scan_ec2_body (cwRegion svc rgn : string) (inst : Resource)
    (acc : Lists) : M Lists :=
  r <- scan_ec2_classify cwRegion rgn inst ;;
  let inst := fst r in
  let longMetric := snd r in
  let unused :=
    push_if (negb (usageStatus inst =? "used")%string)
      (spread svc rgn inst) (fst acc) in
  let longIdle :=
    push_if (created_before inst thirtyDaysAgo
             && (state_is inst "stopped"
                 || (state_is inst "running" && Qlt_bool longMetric 1)))
      (spread svc rgn inst) (snd acc) in
  ret (unused, longIdle).

Definition scan_ebs_body (svc rgn : string) (vol : Resource) (acc : Lists)
    : Lists :=
  let unused :=
    push_if (negb (usageStatus vol =? "used")%string)
      (spread svc rgn vol) (fst acc) in
  let longIdle :=
    push_if (created_before vol thirtyDaysAgo && state_is vol "available")
      (spread svc rgn vol) (snd acc) in
  (unused, longIdle).

Definition scan_s3_body (cwRegion svc rgn : string) (bucket : Bucket)
    (acc : Lists) : M Lists :=
  loc <- bucket_location bucket ;;
  match loc with
  | None => ret acc
  | Some locRes =>
      let bucketRegion := or_else locRes "us-east-1" in
      if negb (bucketRegion =? rgn)%string then ret acc
      else
        numObjects <- getMetric cwRegion "AWS/S3" "NumberOfObjects"
                        (s3_dimensions bucket "AllStorageTypes") "Average" 1 ;;
        sizeBytes <- getMetric cwRegion "AWS/S3" "BucketSizeBytes"
                       (s3_dimensions bucket "StandardStorage") "Average" 1 ;;
        let sizeGB := sizeBytes / 1073741824 in
        let usageStatus := if Qlt_bool 0 numObjects then "used" else "idle" in
        let monthlyCost := sizeGB * 0.023 in
        let resource :=
          mkResource svc rgn None (Some (bucket_Name bucket)) None None None
            None None None None (Some (CreationDate bucket)) None
            (Some numObjects) (Some sizeGB) None usageStatus monthlyCost in
        let unused :=
          push_if (negb (usageStatus =? "used")%string)
            (spread svc rgn resource) (fst acc) in
        longNumObjects <- getMetric cwRegion "AWS/S3" "NumberOfObjects"
                            (s3_dimensions bucket "AllStorageTypes")
                            "Average" 30 ;;
        let longIdle :=
          push_if (created_before resource thirtyDaysAgo
                   && Qeq_bool longNumObjects 0)
            (spread svc rgn resource) (snd acc) in
        ret (unused, longIdle)
  end.

Definition scan_rds_classify (cwRegion rgn : string) (db : Resource)
    : M (Resource * Q) :=
  if state_is db "available" then
    avg <- getMetric cwRegion "AWS/RDS" "CPUUtilization"
             [mkDimension "DBInstanceIdentifier" (id db)] "Average" 1 ;;
    let db := set_usageStatus (cpuUsageStatus avg) (set_avgCpu avg db) in
    let location := js_or_else (lookup rgn regionToLocation) "" in
    db <- (if js_truthy location then
             engineName <- engine_name db ;;
             hourly <- getHourlyPrice "AmazonRDS"
                         (rds_filters db engineName location) ;;
             ret (set_monthlyCost (hourly * 730) db)
           else ret db) ;;
    longMetric <- getMetric cwRegion "AWS/RDS" "CPUUtilization"
                    [mkDimension "DBInstanceIdentifier" (id db)]
                    "Average" 30 ;;
    ret (db, longMetric)
  else if state_is db "stopped" then
    ret (set_monthlyCost 0 (set_usageStatus "stopped" db), 0)
  else ret (db, 0).

Definition scan_rds_body (cwRegion svc rgn : string) (db : Resource)
    (acc : Lists) : M Lists :=
  r <- scan_rds_classify cwRegion rgn db ;;
  let db := fst r in
  let longMetric := snd r in
  let unused :=
    push_if (negb (usageStatus db =? "used")%string)
      (spread svc rgn db) (fst acc) in
  let longIdle :=
    push_if (created_before db thirtyDaysAgo
             && (state_is db "stopped"
                 || (state_is db "available" && Qlt_bool longMetric 1)))
      (spread svc rgn db) (snd acc) in
  ret (unused, longIdle).

(** The first half of the body for a function: invocations, status, cost. *)
Definition scan_lambda_classify (cwRegion : string) (fn : Resource)
    : M Resource :=
  invocations <- getMetric cwRegion "AWS/Lambda" "Invocations"
                   [mkDimension "FunctionName" (name fn)] "Sum" 1 ;;
  let fn := set_invocations invocations fn in
  let fn := set_usageStatus (if Qlt_bool 0 invocations then "used" else "idle") fn in
  if Qlt_bool 0 invocations then
    avgDuration <- getMetric cwRegion "AWS/Lambda" "Duration"
                     [mkDimension "FunctionName" (name fn)] "Average" 1 ;;
    ret (set_monthlyCost
           (lambda_cost invocations avgDuration (num (memory fn))) fn)
  else ret fn.

Definition scan_lambda_body (cwRegion svc rgn : string) (fn : Resource)
    (acc : Lists) : M Lists :=
  fn <- scan_lambda_classify cwRegion fn ;;
  let unused :=
    push_if (negb (usageStatus fn =? "used")%string)
      (spread svc rgn fn) (fst acc) in
  longInvocations <- getMetric cwRegion "AWS/Lambda" "Invocations"
                       [mkDimension "FunctionName" (name fn)] "Sum" 30 ;;
  let longIdle :=
    push_if (created_before fn thirtyDaysAgo && Qeq_bool longInvocations 0)
      (spread svc rgn fn) (snd acc) in
  ret (unused, longIdle).

(** The [switch (service)] of the scan; it has no [default]. *)
Definition scan_service (rgn svc : string) (acc : Lists) : M Lists :=
  let cwRegion := if (svc =? "s3")%string then "us-east-1" else rgn in
  if (svc =? "ec2")%string then
    reservations <- paginateDescribe (ec2_DescribeInstances w rgn) ;;
    let resources :=
      map (resource_of_instance svc rgn) (instances_of reservations) in
    for_each (scan_ec2_body cwRegion svc rgn) resources acc
  else if (svc =? "ebs")%string then
    volumes <- paginateDescribe (ec2_DescribeVolumes w rgn) ;;
    let resources := map (resource_of_volume svc rgn) volumes in
    for_each (fun vol a => ret (scan_ebs_body svc rgn vol a)) resources acc
  else if (svc =? "s3")%string then
    listed <- await (s3_ListBuckets w) ;;
    let buckets := match listed with Some l => l | None => [] end in
    for_each (scan_s3_body cwRegion svc rgn) buckets acc
  else if (svc =? "rds")%string then
    dbInstances <- paginateDescribe (rds_DescribeDBInstances w rgn) ;;
    let resources := map (resource_of_db svc rgn) dbInstances in
    for_each (scan_rds_body cwRegion svc rgn) resources acc
  else if (svc =? "lambda")%string then
    functions <- paginateDescribe (lambda_ListFunctions w rgn) ;;
    let resources := map (resource_of_function svc rgn) functions in
    for_each (scan_lambda_body cwRegion svc rgn) resources acc
  else ret acc.

Definition services : list string := ["ec2"; "ebs"; "s3"; "rds"; "lambda"].

(** The inner loop: every service of one region, in the fixed order. *)
Definition scan_region (rgn : string) (acc : Lists) : M Lists :=
  for_each (scan_service rgn) services acc.

(** From [getAllRegions()] to the end of the two nested loops. *)
Definition scan_collect : M Lists :=
  regions <- getAllRegions ;;
  for_each scan_region regions ([], []).

End Server.

(** ** HTTP surface and scheduler

    A handler also reads and writes the module-level variable
    [lastUnusedResources]; an assignment made before a throw stays. *)

Definition Handler (A : Type) : Type :=
  list Resource -> (list Event * Outcome A * list Resource)%type.

Definition hret {A} (a : A) : Handler A :=
  fun last => ([], Ok a, last).

Definition hbind {A B} (m : Handler A) (k : A -> Handler B) : Handler B :=
  fun last =>
    match m last with
    | (t, Ok a, last') =>
        match k a last' with
        | (t', r, last'') => ((t ++ t')%list, r, last'')
        end
    | (t, Throw e, last') => (t, Throw e, last')
    | (t, Diverge, last') => (t, Diverge, last')
    end.

Definition htry_catch {A} (m : Handler A) (h : JsError -> Handler A) : Handler A :=
  fun last =>
    match m last with
    | (t, Throw e, last') =>
        match h e last' with
        | (t', r, last'') => ((t ++ t')%list, r, last'')
        end
    | other => other
    end.

(** An [await] of a computation that does not touch the variable. *)
Definition lift {A} (m : M A) : Handler A :=
  fun last => (fst m, snd m, last).

(** [lastUnusedResources = v] *)
Definition set_lastUnusedResources (v : list Resource) : Handler unit :=
  fun _ => ([], Ok tt, v).

(** reading [lastUnusedResources] *)
Definition get_lastUnusedResources : Handler (list Resource) :=
  fun last => ([], Ok last, last).

Notation "x <~ m ;; k" := (hbind m (fun x => k))
  (at level 100, m at next level, right associativity) : monad_scope.
Notation "m ~;; k" := (hbind m (fun _ => k))
  (at level 100, right associativity) : monad_scope.

Inductive ResponseBody : Type :=
| JsonRegions (regions : list string)
| JsonResources (resources : list Resource) (totalCostEstimate : FixedText)
| JsonScan (unusedResources : list Resource)
| JsonMessage (message : string)
| JsonError (error : string).

Record Response : Type := mkResponse {
  status : Z;
  body : ResponseBody
}.

(** [res.json(b)] and [res.status(500).json({ error })] *)
Definition json (b : ResponseBody) : Response := mkResponse 200 b.
Definition error500 (err : JsError) (fallback : string) : Response :=
  mkResponse 500 (JsonError (or_else (Some (err_message err)) fallback)).

Section Handlers.

Variable w : World.
Variable fuel : nat.


(** [GET /api/resources/:service/:region] *)
Definition api_resources (svc rgn : string) : M Response :=
  try_catch
    (r <- (if (svc =? "all")%string then
             regions <- (if (rgn =? "all")%string then getAllRegions w
                         else ret [rgn]) ;;
             for_each
               (fun r acc =>
                  for_each
                    (fun s (acc : list Resource * Q) =>
                       fetched <- fetchServiceResources w fuel s r ;;
                       ret ((fst acc ++ fst fetched)%list, snd acc + snd fetched))
                    services acc)
               regions ([], 0)
           else fetchServiceResources w fuel svc rgn) ;;
     ret (json (JsonResources (fst r) (toFixed (snd r) 2))))
    (fun err => ret (error500 err "Failed to fetch resources")).

(** What both scans do once the loops are over. *)
Definition store_and_notify (lists : Lists) : Handler unit :=
  set_lastUnusedResources (fst lists) ~;;
  if (0 <? Z.of_nat (List.length (snd lists)))%Z
  then lift (sendNotification w (snd lists) false) ~;; hret tt
  else hret tt.

(** [GET /api/scan] *)
Definition api_scan : Handler Response :=
  htry_catch
    (lists <~ lift (scan_collect w fuel) ;;
     store_and_notify lists ~;;
     hret (json (JsonScan (fst lists))))
    (fun err => hret (error500 err "Failed to scan resources")).

(** [GET /api/send-email] *)
Definition api_send_email : Handler Response :=
  htry_catch
    (last <~ get_lastUnusedResources ;;
     message <~ lift (sendNotification w last true) ;;
     hret (json (JsonMessage message)))
    (fun err => hret (error500 err "Failed to send email")).

(** The job of [cron.schedule('0 0 * * *', ...)]: errors are only logged. *)
Definition scheduled_scan : Handler unit :=
  htry_catch
    (lists <~ lift (scan_collect w fuel) ;;
     store_and_notify lists)
    (fun _ => hret tt).

End Handlers.

(** The calls of [sendNotification] in a trace, in order. *)
Definition notifications (t : list Event) : list (list Resource * bool) :=
  flat_map
    (fun ev =>
       match ev with
       | EvSendNotification rs manual => [(rs, manual)]
       | _ => []
       end)
    t.

(** [resources.reduce((s, r) => s + r.monthlyCost, 0)] *)
Definition sum_monthlyCost (resources : list Resource) : Q :=
  fold_left (fun total r => total + monthlyCost r) resources 0.

(** ** Sample environments

    One region, [us-east-1]; the scan runs on day 100 (in milliseconds since
    the epoch) and every sample resource was created on day 0 unless said
    otherwise.  CloudWatch answers by metric name: CPU 5% and 7% over the
    hourly samples of a day and 0.5% over the daily samples of a month,
    600 + 400 invocations, 200 ms of duration, no object and no byte. *)

Definition day : Z := (24 * 60 * 60 * 1000)%Z.

Definition sample_metrics (params : GetMetricDataInput)
    : Result GetMetricDataOutput :=
  match MetricDataQueries params with
  | q :: _ =>
      let m := query_MetricStat q in
      let values :=
        if (MetricName m =? "CPUUtilization")%string then
          if (Period m =? 3600)%Z then [5; 7] else [0.5]
        else if (MetricName m =? "Invocations")%string then [600; 400]
        else if (MetricName m =? "Duration")%string then [200]
        else [0] in
      Resolved (mkGetMetricDataOutput [mkMetricDataResult (Some values)])
  | [] => Rejected (Error "ValidationError")
  end.

Definition one_page {X : Type} (items : list X) (_ : option string)
    : Result (Page X) :=
  Resolved (mkPage (Some items) None None).

Definition sample_world (email : option string) (instances : list Instance)
    (volumes : list Volume) (dbs : list DBInstance)
    (functions : list LambdaFunction) : World :=
  mkWorld (100 * day)%Z
    (fun _ => Some 0%Z)
    email email email
    (Resolved ["us-east-1"])
    (fun _ => one_page [mkReservation (Some instances)])
    (fun _ => one_page volumes)
    (Resolved (Some []))
    (fun _ => Resolved None)
    (fun _ => one_page dbs)
    (fun _ => one_page functions)
    (fun _ => sample_metrics)
    (fun _ => Resolved (mkGetProductsOutput (Some [PricedEntry 0.0116])))
    (fun _ => Resolved tt).

Definition stopped_instance : Instance :=
  mkInstance "i-stopped" "t2.micro" "stopped" 0.

Definition pending_instance : Instance :=
  mkInstance "i-pending" "t2.micro" "pending" (95 * day).

Definition running_instance : Instance :=
  mkInstance "i-running" "t2.micro" "running" 0.

Definition recent_instance : Instance :=
  mkInstance "i-recent" "t2.micro" "stopped" (95 * day).

Definition detached_volume : Volume :=
  mkVolume "vol-1" gp3 "available" 100 0.

Definition stopped_db : DBInstance :=
  mkDBInstance "db-stopped" "db.t3.micro" "postgres" "stopped" 0.

Definition available_db : DBInstance :=
  mkDBInstance "db-1" "db.t3.micro" "postgres" "available" 0.

Definition busy_function : LambdaFunction :=
  mkLambdaFunction "fn-1" "nodejs18.x" 512 "2024-01-01T00:00:00.000+0000".

(** The same environment with CloudWatch out of reach. *)
Definition without_metrics (w : World) : World :=
  mkWorld (now w) (Date_parse w) (emailUser w) (emailPass w) (receiverEmail w)
    (ec2_DescribeRegions w) (ec2_DescribeInstances w) (ec2_DescribeVolumes w)
    (s3_ListBuckets w) (s3_GetBucketLocation w) (rds_DescribeDBInstances w)
    (lambda_ListFunctions w)
    (fun _ _ => Rejected (Error "Throttling"))
    (pricing_GetProducts w) (transporter_sendMail w).

(** The same environment with the pricing service out of reach. *)
Definition without_pricing (w : World) : World :=
  mkWorld (now w) (Date_parse w) (emailUser w) (emailPass w) (receiverEmail w)
    (ec2_DescribeRegions w) (ec2_DescribeInstances w) (ec2_DescribeVolumes w)
    (s3_ListBuckets w) (s3_GetBucketLocation w) (rds_DescribeDBInstances w)
    (lambda_ListFunctions w) (cw_GetMetricData w)
    (fun _ => Rejected (Error "AccessDenied"))
    (transporter_sendMail w).

(** ** Specification-side notions *)

(** The arithmetic sum of a list of samples. *)
Fixpoint total (l : list Q) : Q :=
  match l with
  | [] => 0
  | x :: rest => x + total rest
  end.

(** The arithmetic mean of a list of samples, 0 when there is none. *)
Definition mean (l : list Q) : Q :=
  match l with
  | [] => 0
  | _ => total l / inject_Z (Z.of_nat (List.length l))
  end.

(** The three usage tiers by CPU percentage. *)
Definition tier_of (p : Q) (label : string) : Prop :=
  (p < 1 -> label = "idle")
  /\ (1 <= p /\ p < 10 -> label = "underutilized")
  /\ (10 <= p -> label = "used").

(** The four derived usage labels. *)
Definition derived_status (s : string) : Prop :=
  s = "used" \/ s = "idle" \/ s = "underutilized" \/ s = "stopped".

(** The labels the CPU branch can give. *)
Definition cpu_label (s : string) : Prop :=
  s = "idle" \/ s = "underutilized" \/ s = "used".

(** What the instance and database bodies leave in [r] when they started
    from [inst]; [active] is the state in which the CPU is measured
    ([running], [available]). *)
Definition classified_from (active : string) (inst r : Resource) : Prop :=
  service r = service inst /\ region r = region inst /\ id r = id inst
  /\ state r = state inst /\ creation r = creation inst
  /\ (if state_is inst active then
        exists p, avgCpu r = Some p /\ usageStatus r = cpuUsageStatus p
      else if state_is inst "stopped" then
        usageStatus r = "stopped" /\ monthlyCost r = 0
      else usageStatus r = usageStatus inst
           /\ monthlyCost r = monthlyCost inst).

(** What the function bodies leave in [r] when they started from [fn]. *)
Definition measured_from (fn r : Resource) : Prop :=
  service r = service fn /\ region r = region fn /\ name r = name fn
  /\ state r = state fn /\ creation r = creation fn
  /\ (usageStatus r = "used" \/ usageStatus r = "idle").

(** The usage status of a record is one of the four derived labels, or the
    record is an instance or a database in a state other than the measured
    one and [stopped], and carries that state as its status. *)
Definition status_ok (r : Resource) : Prop :=
  derived_status (usageStatus r)
  \/ (service r = "ec2" /\ state r = Some (usageStatus r)
      /\ usageStatus r <> "running" /\ usageStatus r <> "stopped")
  \/ (service r = "rds" /\ state r = Some (usageStatus r)
      /\ usageStatus r <> "available" /\ usageStatus r <> "stopped").

(** A stopped instance or database is labelled [stopped] and costs 0. *)
Definition stopped_is_free (r : Resource) : Prop :=
  (service r = "ec2" \/ service r = "rds") ->
  state r = Some "stopped" ->
  usageStatus r = "stopped" /\ monthlyCost r = 0.

(** A measured instance or database carries its CPU average and the label
    of that average's tier. *)
Definition tiered (r : Resource) : Prop :=
  (service r = "ec2" /\ state r = Some "running")
  \/ (service r = "rds" /\ state r = Some "available") ->
  exists p, avgCpu r = Some p /\ tier_of p (usageStatus r).

(** An instance that is neither [running] nor [stopped], and a database
    that is neither [available] nor [stopped], has the provider's state
    string as its usage status. *)
Definition state_passed_through (r : Resource) : Prop :=
  forall s,
    state r = Some s ->
    s <> "stopped" ->
    (service r = "ec2" /\ s <> "running")
    \/ (service r = "rds" /\ s <> "available") ->
    usageStatus r = s.

(** A record as the fetch and the scan hand it out. *)
Definition record_ok (r : Resource) : Prop :=
  status_ok r /\ stopped_is_free r /\ tiered r /\ state_passed_through r.

(** What [fetchServiceResources] hands out: sound records of the asked
    service and region, and their summed cost. *)
Definition fetched_ok (svc rgn : string) (res : list Resource * Q) : Prop :=
  Forall (fun r => record_ok r /\ service r = svc /\ region r = rgn) (fst res)
  /\ snd res == sum_monthlyCost (fst res).

(** The 30-day aggregate of a record's kind shows no meaningful activity:
    CPU average below 1 for instances and databases, no invocation for
    functions, no object for buckets.  Volumes have no such aggregate. *)
Definition no_activity_30d (w : World) (r : Resource) : Prop :=
  (service r = "ec2"
   /\ exists m,
        outcome (getMetric w (region r) "AWS/EC2" "CPUUtilization"
                   [mkDimension "InstanceId" (id r)] "Average" 30) = Ok m
        /\ m < 1)
  \/ (service r = "rds"
      /\ exists m,
           outcome (getMetric w (region r) "AWS/RDS" "CPUUtilization"
                      [mkDimension "DBInstanceIdentifier" (id r)]
                      "Average" 30) = Ok m
           /\ m < 1)
  \/ (service r = "lambda"
      /\ exists m,
           outcome (getMetric w (region r) "AWS/Lambda" "Invocations"
                      [mkDimension "FunctionName" (name r)] "Sum" 30) = Ok m
           /\ m == 0)
  \/ (service r = "s3"
      /\ exists m,
           outcome (getMetric w "us-east-1" "AWS/S3" "NumberOfObjects"
                      [mkDimension "BucketName" (name r);
                       mkDimension "StorageType" (Some "AllStorageTypes")]
                      "Average" 30) = Ok m
           /\ m == 0).

(** The long-idle rule as the claim words it. *)
Definition long_idle_rule (w : World) (r : Resource) : Prop :=
  created_before r (thirtyDaysAgo w) = true
  /\ (state r = Some "stopped" \/ no_activity_30d w r).

(** The same aggregates, read only in the state in which the scan reads
    them: the CPU average of a [running] instance and of an [available]
    database. *)
Definition no_activity_30d_in_state (w : World) (r : Resource) : Prop :=
  no_activity_30d w r
  /\ (service r = "ec2" -> state r = Some "running")
  /\ (service r = "rds" -> state r = Some "available").

(** The long-idle rule with the case of volumes: an [available] volume.
    Only instances and databases are looked at for [stopped]. *)
Definition long_idle_rule_with_volumes (w : World) (r : Resource) : Prop :=
  created_before r (thirtyDaysAgo w) = true
  /\ (((service r = "ec2" \/ service r = "rds") /\ state r = Some "stopped")
      \/ no_activity_30d_in_state w r
      \/ (service r = "ebs" /\ state r = Some "available")).

(** What the scan accumulates: sound records in both lists, and in the
    long-idle list only records that the long-idle rule allows. *)
Definition scanned_ok (w : World) (lists : Lists) : Prop :=
  Forall record_ok (fst lists)
  /\ Forall (fun r => record_ok r /\ long_idle_rule_with_volumes w r)
       (snd lists).

(** [m] never calls the notifier. *)
Definition quiet {A} (m : M A) : Prop := notifications (trace m) = [].


(** What [GET /api/resources] answers: sound records with their summed cost
    rendered to two decimals, or an error. *)
Definition resources_response_ok (resp : Response) : Prop :=
  match body resp with
  | JsonResources rs rendered =>
      status resp = 200%Z /\ Forall record_ok rs
      /\ exists total, rendered = toFixed total 2 /\ total == sum_monthlyCost rs
  | JsonError _ => status resp = 500%Z
  | _ => False
  end.

(** An HTTP 500 answer carrying an error message. *)
Definition is_error (r : Outcome Response) : Prop :=
  exists msg, r = Ok (mkResponse 500 (JsonError msg)).

(** What the endpoint has gathered when its loops end. *)
Definition gathered_ok (res : list Resource * Q) : Prop :=
  Forall record_ok (fst res) /\ snd res == sum_monthlyCost (fst res).

(** Every value [m] can end with satisfies [P]. *)
Definition returns {A} (m : M A) (P : A -> Prop) : Prop :=
  forall a, outcome m = Ok a -> P a.

(** ** Dashboard: [exportToCSV] of [public/script.js]

    The table [#resourcesTable] is seen as its rows, each the text of its
    cells; the export is the text put in the downloaded file. *)

Definition dquote : ascii := ascii_of_nat 34.
Definition comma : ascii := ascii_of_nat 44.
Definition newline : ascii := ascii_of_nat 10.

(** [text.replace] of every double quote by two of them. *)
Fixpoint escape_quotes (text : string) : string :=
  match text with
  | EmptyString => EmptyString
  | String c rest =>
      if Ascii.eqb c dquote
      then String dquote (String dquote (escape_quotes rest))
      else String c (escape_quotes rest)
  end.

(** The template around a cell: a quote, the escaped text, a quote. *)
Definition csv_cell (text : string) : string :=
  String dquote (escape_quotes text ++ String dquote EmptyString).

(** [parts.join(sep)] for a one-character separator. *)
Fixpoint join (sep : ascii) (parts : list string) : string :=
  match parts with
  | [] => EmptyString
  | [part] => part
  | part :: rest => part ++ String sep (join sep rest)
  end.

Definition csv_row (cells : list string) : string :=
  join comma (map csv_cell cells).

Definition csv_header : string :=
  "Service,Region,ID/Name,Type,State,Usage Status,Avg CPU (%),Monthly Cost ($)".

Definition exportToCSV (table : list (list string)) : string :=
  join newline (csv_header :: map csv_row table).

(** ** Dashboard: [sendEmail] and [scanUnused] of [public/script.js]

    [answer] is what [fetch] settles with: the server's response, or a
    rejection when the request itself fails.  The loading spinner is not
    modelled. *)

(** [result.message], [undefined] on a payload without that key. *)
Definition payload_message (b : ResponseBody) : option string :=
  match b with
  | JsonMessage message => Some message
  | _ => None
  end.

(** [data.unusedResources], [undefined] on a payload without that key. *)
Definition payload_unusedResources (b : ResponseBody)
    : option (list Resource) :=
  match b with
  | JsonScan unusedResources => Some unusedResources
  | _ => None
  end.

(** The text [sendEmail] shows in its [alert]. *)
Definition sendEmail (answer : Result Response) : string :=
  match answer with
  | Resolved response =>
      or_else (payload_message (body response)) "Email sent successfully"
  | Rejected err => "Error sending email: " ++ err_message err
  end.

(** The dashboard's own [lastUnusedResources] after [scanUnused], from its
    value before: [data.unusedResources || []] when the request settles,
    unchanged when it fails. *)
Definition scanUnused (answer : Result Response) (shown : list Resource)
    : list Resource :=
  match answer with
  | Resolved response =>
      match payload_unusedResources (body response) with
      | Some unusedResources => unusedResources
      | None => []
      end
  | Rejected _ => shown
  end.

(** ** Further sample environments *)

(** The same environment with another CloudWatch. *)
Definition with_metrics
    (metrics : string -> GetMetricDataInput -> Result GetMetricDataOutput)
    (w : World) : World :=
  mkWorld (now w) (Date_parse w) (emailUser w) (emailPass w) (receiverEmail w)
    (ec2_DescribeRegions w) (ec2_DescribeInstances w) (ec2_DescribeVolumes w)
    (s3_ListBuckets w) (s3_GetBucketLocation w) (rds_DescribeDBInstances w)
    (lambda_ListFunctions w) metrics
    (pricing_GetProducts w) (transporter_sendMail w).

(** The same environment with buckets and a location service. *)
Definition with_buckets (buckets : list Bucket)
    (location : string -> Result (option string)) (w : World) : World :=
  mkWorld (now w) (Date_parse w) (emailUser w) (emailPass w) (receiverEmail w)
    (ec2_DescribeRegions w) (ec2_DescribeInstances w) (ec2_DescribeVolumes w)
    (Resolved (Some buckets)) location (rds_DescribeDBInstances w)
    (lambda_ListFunctions w) (cw_GetMetricData w)
    (pricing_GetProducts w) (transporter_sendMail w).

(** The same environment with another mail transport. *)
Definition with_transport (transport : MailOptions -> Result unit) (w : World)
    : World :=
  mkWorld (now w) (Date_parse w) (emailUser w) (emailPass w) (receiverEmail w)
    (ec2_DescribeRegions w) (ec2_DescribeInstances w) (ec2_DescribeVolumes w)
    (s3_ListBuckets w) (s3_GetBucketLocation w) (rds_DescribeDBInstances w)
    (lambda_ListFunctions w) (cw_GetMetricData w)
    (pricing_GetProducts w) transport.

(** The same environment with another list of regions. *)
Definition with_regions (regions : Result (list string)) (w : World) : World :=
  mkWorld (now w) (Date_parse w) (emailUser w) (emailPass w) (receiverEmail w)
    regions (ec2_DescribeInstances w) (ec2_DescribeVolumes w)
    (s3_ListBuckets w) (s3_GetBucketLocation w) (rds_DescribeDBInstances w)
    (lambda_ListFunctions w) (cw_GetMetricData w)
    (pricing_GetProducts w) (transporter_sendMail w).

(** A CloudWatch that saw a burst today after a quiet month: CPU 50% over the
    hourly samples, 0.5% over the daily ones. *)
Definition bursty_metrics (_ : string) (params : GetMetricDataInput)
    : Result GetMetricDataOutput :=
  match MetricDataQueries params with
  | q :: _ =>
      let values :=
        if (Period (query_MetricStat q) =? 3600)%Z then [50] else [0.5] in
      Resolved (mkGetMetricDataOutput [mkMetricDataResult (Some values)])
  | [] => Rejected (Error "ValidationError")
  end.

(** Three pages of names chained by [NextToken], then by [Marker]. *)
Definition three_pages (tok : option string) : Result (Page string) :=
  match tok with
  | None => Resolved (mkPage (Some ["a"; "b"]) (Some "t1") None)
  | Some t =>
      if (t =? "t1")%string then Resolved (mkPage None None (Some "t2"))
      else if (t =? "t2")%string then Resolved (mkPage (Some ["c"]) None None)
      else Rejected (Error "InvalidToken")
  end.

(** A first page, then a rejection. *)
Definition broken_pages (tok : option string) : Result (Page string) :=
  match tok with
  | None => Resolved (mkPage (Some ["a"]) (Some "t1") None)
  | Some _ => Rejected (Error "Throttling")
  end.

(** A provider that announces a [Marker] with every page. *)
Definition endless_pages (_ : option string) : Result (Page string) :=
  Resolved (mkPage (Some ["a"]) None (Some "m")).

Definition sample_bucket : Bucket := mkBucket "logs" 0.

(** ** Further specification-side notions *)

(** The continuation a page announces: [data.NextToken || data.Marker]. *)
Definition continuation {X : Type} (p : Page X) : option string :=
  if truthy (page_NextToken p) then page_NextToken p else page_Marker p.

(** The items of a page, none when the key is missing. *)
Definition items_of {X : Type} (p : Page X) : list X :=
  match page_items p with
  | Some xs => xs
  | None => []
  end.

(** From the continuation [tok] on, [send] serves the pages [pages], each
    announcing the continuation of the next, and then answers [last]. *)
Fixpoint chain {X : Type} (send : option string -> Result (Page X))
    (tok : option string) (pages : list (Page X)) (last : Result (Page X))
    : Prop :=
  match pages with
  | [] => send tok = last
  | p :: rest =>
      send tok = Resolved p /\ truthy (continuation p) = true
      /\ chain send (continuation p) rest last
  end.

(** An answer is HTTP 200 with a payload, or HTTP 500 with a message that is
    not empty. *)
Definition well_formed_response (resp : Response) : Prop :=
  (status resp = 200%Z /\ forall msg, body resp <> JsonError msg)
  \/ (status resp = 500%Z
      /\ exists msg, body resp = JsonError msg /\ msg <> "").


(** The mail configuration is complete. *)
Definition mail_configured (w : World) : Prop :=
  truthy (emailUser w) = true /\ truthy (emailPass w) = true
  /\ truthy (receiverEmail w) = true.

(** The unused list holds no record labelled [used]. *)
Definition unused_only (lists : Lists) : Prop :=
  Forall (fun r => usageStatus r <> "used") (fst lists).

(** Every call [m] performs satisfies [P]. *)
Definition all_events {A} (P : Event -> Prop) (m : M A) : Prop :=
  Forall P (trace m).

(** A metric query sent to the CloudWatch of [cwRegion], or a price query;
    not a notification, not a mail. *)
Definition lookup_in (cwRegion : string) (ev : Event) : Prop :=
  match ev with
  | EvGetMetricData r _ => r = cwRegion
  | EvGetProducts p => MaxResults p = 1%Z
  | EvSendNotification _ _ => False
  | EvSendMail _ => False
  end.

(** The per-GB monthly rate of a volume type. *)
Definition ebs_rate (volumeType : VolumeTypeName) : Q :=
  match volumeType with
  | gp2 => 0.10
  | gp3 => 0.08
  | io1 => 0.125
  | st1 => 0.045
  | sc1 => 0.025
  | io2 | standard => 0.10
  end.

(** Ascending order of strings by character codes. *)
Definition ascending (l : list string) : Prop :=
  Sorted (fun a b => String.leb a b = true) l.

(** Reading back a CSV file whose first line is a header and whose records
    have every field quoted, a quote inside a field being doubled. *)
Inductive CsvState : Type :=
| RowStart
| FieldStart
| InField (text : string)
| QuoteSeen (text : string).

Definition snoc_char (text : string) (c : ascii) : string :=
  text ++ String c EmptyString.

Fixpoint read_records (input : string) (st : CsvState)
    (fields : list string) (rows : list (list string))
    : option (list (list string)) :=
  match input with
  | EmptyString =>
      match st with
      | RowStart => Some (rows ++ [[]])%list
      | QuoteSeen text => Some (rows ++ [fields ++ [text]])%list
      | _ => None
      end
  | String c rest =>
      match st with
      | RowStart =>
          if Ascii.eqb c dquote then read_records rest (InField "") [] rows
          else if Ascii.eqb c newline
               then read_records rest RowStart [] (rows ++ [[]])%list
               else None
      | FieldStart =>
          if Ascii.eqb c dquote then read_records rest (InField "") fields rows
          else None
      | InField text =>
          if Ascii.eqb c dquote then read_records rest (QuoteSeen text) fields rows
          else read_records rest (InField (snoc_char text c)) fields rows
      | QuoteSeen text =>
          if Ascii.eqb c dquote
          then read_records rest (InField (snoc_char text dquote)) fields rows
          else if Ascii.eqb c comma
               then read_records rest FieldStart (fields ++ [text])%list rows
               else if Ascii.eqb c newline
                    then read_records rest RowStart []
                           (rows ++ [fields ++ [text]])%list
                    else None
      end
  end.

(** The first line, and what follows its line break if there is one. *)
Fixpoint split_first_line (input : string) : string * option string :=
  match input with
  | EmptyString => (EmptyString, None)
  | String c rest =>
      if Ascii.eqb c newline then (EmptyString, Some rest)
      else let (line, more) := split_first_line rest in (String c line, more)
  end.

Definition read_csv (input : string) : option (string * list (list string)) :=
  match split_first_line input with
  | (header, None) => Some (header, [])
  | (header, Some body) =>
      match read_records body RowStart [] [] with
      | Some rows => Some (header, rows)
      | None => None
      end
  end.

(** * Properties *)

Local Open Scope list_scope.

(** ** Numbers *)

Lemma Qlt_bool_iff (x y : Q) : Qlt_bool x y = true <-> x < y.
Proof.
  unfold Qlt_bool. rewrite negb_true_iff.
  split; intro H.
  - apply Qnot_le_lt. intro Hle. apply Qle_bool_iff in Hle. congruence.
  - destruct (Qle_bool y x) eqn:E; [|reflexivity].
    apply Qle_bool_iff in E. exfalso. apply (Qlt_not_le _ _ H E).
Qed.

Lemma Qlt_bool_false_iff (x y : Q) : Qlt_bool x y = false <-> y <= x.
Proof.
  unfold Qlt_bool. rewrite negb_false_iff. apply Qle_bool_iff.
Qed.

Lemma fold_plus_compat (f : Resource -> Q) (l : list Resource) (a b : Q) :
  a == b ->
  fold_left (fun t r => t + f r) l a == fold_left (fun t r => t + f r) l b.
Proof.
  revert a b. induction l as [|r l IH]; intros a b Hab; simpl.
  - exact Hab.
  - apply IH. rewrite Hab. reflexivity.
Qed.

Lemma fold_plus_shift (f : Resource -> Q) (l : list Resource) (a b : Q) :
  fold_left (fun t r => t + f r) l (a + b)
  == a + fold_left (fun t r => t + f r) l b.
Proof.
  revert b. induction l as [|r l IH]; intro b; simpl.
  - reflexivity.
  - rewrite <- IH. apply fold_plus_compat. ring.
Qed.

Lemma sum_values_shift (l : list Q) (a : Q) :
  fold_left (fun x y => x + y) l a == a + total l.
Proof.
  revert a. induction l as [|x l IH]; intro a; simpl.
  - ring.
  - rewrite IH. ring.
Qed.

Lemma sum_values_total (l : list Q) : sum_values l == total l.
Proof.
  unfold sum_values. rewrite sum_values_shift. ring.
Qed.

Lemma sum_monthlyCost_app (l1 l2 : list Resource) :
  sum_monthlyCost (l1 ++ l2) == sum_monthlyCost l1 + sum_monthlyCost l2.
Proof.
  unfold sum_monthlyCost. rewrite fold_left_app.
  rewrite <- fold_plus_shift.
  apply fold_plus_compat. ring.
Qed.

(** ** Computations *)

Lemma outcome_bind_Ok {A B} (m : M A) (k : A -> M B) (b : B) :
  outcome (bind m k) = Ok b ->
  exists a, outcome m = Ok a /\ outcome (k a) = Ok b.
Proof.
  destruct m as [t [a|e|]]; simpl; try discriminate.
  unfold outcome, bind. destruct (k a) as [t' r] eqn:E; simpl.
  intros ->. exists a. rewrite E. auto.
Qed.

Lemma outcome_bind_eq {A B} (m : M A) (k : A -> M B) (a : A) :
  outcome m = Ok a -> outcome (bind m k) = outcome (k a).
Proof.
  destruct m as [t [a'|e|]]; simpl; try discriminate.
  intros [= ->]. unfold outcome, bind. destruct (k a); reflexivity.
Qed.

Lemma bind_ret_l {A B} (a : A) (k : A -> M B) : bind (ret a) k = k a.
Proof. unfold bind, ret. destruct (k a). reflexivity. Qed.

Lemma bind_assoc {A B C} (m : M A) (k1 : A -> M B) (k2 : B -> M C) :
  bind (bind m k1) k2 = bind m (fun a => bind (k1 a) k2).
Proof.
  destruct m as [t [a|e|]]; simpl; try reflexivity.
  destruct (k1 a) as [t1 [b|e|]]; simpl; try reflexivity.
  destruct (k2 b) as [t2 r]. rewrite app_assoc. reflexivity.
Qed.

Lemma returns_ret {A} (a : A) (P : A -> Prop) : P a -> returns (ret a) P.
Proof. intros H b [= <-]. exact H. Qed.

Lemma returns_bind {A B} (m : M A) (k : A -> M B) (P : A -> Prop)
    (R : B -> Prop) :
  returns m P -> (forall a, P a -> returns (k a) R) -> returns (bind m k) R.
Proof.
  intros Hm Hk b Hb.
  apply outcome_bind_Ok in Hb as (a & Ha & Hb).
  exact (Hk a (Hm a Ha) b Hb).
Qed.

Lemma returns_weaken {A} (m : M A) (P R : A -> Prop) :
  returns m P -> (forall a, P a -> R a) -> returns m R.
Proof. intros H HPR a Ha. auto. Qed.

Lemma returns_any {A} (m : M A) : returns m (fun _ => True).
Proof. intros a _. exact I. Qed.

(** A loop keeps what each run of its body keeps. *)
Lemma returns_for_each {A S} (body : A -> S -> M S) (Inv : S -> Prop)
    (xs : list A) :
  (forall x acc, In x xs -> Inv acc -> returns (body x acc) Inv) ->
  forall acc, Inv acc -> returns (for_each body xs acc) Inv.
Proof.
  induction xs as [|x xs IH]; intros Hbody acc Hacc; simpl.
  - apply returns_ret. exact Hacc.
  - apply returns_bind with (P := Inv).
    + apply Hbody; [left; reflexivity | exact Hacc].
    + intros acc' Hacc'. apply IH; [|exact Hacc'].
      intros y a Hy. apply Hbody. right. exact Hy.
Qed.

Lemma outcome_bind_Throw {A B} (m : M A) (k : A -> M B) (e : JsError) :
  outcome m = Throw e -> outcome (bind m k) = Throw e.
Proof.
  destruct m as [t [a|e'|]]; simpl; try discriminate.
  intros [= ->]. reflexivity.
Qed.

(** A loop ends where its body first throws. *)
Lemma for_each_aborts {A S} (body : A -> S -> M S) (before : list A) (x : A)
    (after : list A) (acc acc' : S) (e : JsError) :
  outcome (for_each body before acc) = Ok acc' ->
  outcome (body x acc') = Throw e ->
  outcome (for_each body (before ++ x :: after) acc) = Throw e.
Proof.
  revert acc. induction before as [|y before IH]; intros acc Hbefore Hx.
  - injection Hbefore as ->. simpl. apply outcome_bind_Throw. exact Hx.
  - simpl in *. apply outcome_bind_Ok in Hbefore as (a & Hy & Hrest).
    rewrite (outcome_bind_eq _ _ _ Hy). apply IH; assumption.
Qed.

(** ** Metric gateway *)

Lemma mean_of_samples (l : list Q) :
  (if (0 <? Z.of_nat (List.length l))%Z
   then sum_values l / inject_Z (Z.of_nat (List.length l))
   else 0) == mean l.
Proof.
  destruct l as [|x l].
  - reflexivity.
  - replace (0 <? Z.of_nat (List.length (x :: l)))%Z with true
      by (symmetry; apply Z.ltb_lt; simpl List.length; lia).
    unfold mean. rewrite sum_values_total. reflexivity.
Qed.

(** ** Price gateway *)

Lemma getHourlyPrice_runs (w : World) (serviceCode : string)
    (filters : list PriceFilter) :
  exists price,
    getHourlyPrice w serviceCode filters
    = ([EvGetProducts (price_params serviceCode filters)], Ok price).
Proof.
  unfold getHourlyPrice, getHourlyPrice_try, try_catch, bind, emit, await.
  destruct (pricing_GetProducts w (price_params serviceCode filters))
    as [data|e]; simpl.
  - destruct (PriceList data) as [[|[e|usd] l]|]; simpl; eexists; reflexivity.
  - eexists; reflexivity.
Qed.

Lemma getHourlyPrice_outcome (w : World) (serviceCode : string)
    (filters : list PriceFilter) :
  exists price, outcome (getHourlyPrice w serviceCode filters) = Ok price.
Proof.
  destruct (getHourlyPrice_runs w serviceCode filters) as [price H].
  exists price. rewrite H. reflexivity.
Qed.

(** ** Usage tiers *)

Lemma tier_of_cpuUsageStatus (p : Q) : tier_of p (cpuUsageStatus p).
Proof.
  unfold tier_of, cpuUsageStatus.
  destruct (Qlt_bool p 1) eqn:H1.
  - apply Qlt_bool_iff in H1.
    repeat split; try reflexivity; intros; exfalso; lra.
  - apply Qlt_bool_false_iff in H1.
    destruct (Qlt_bool p 10) eqn:H10.
    + apply Qlt_bool_iff in H10.
      repeat split; try reflexivity; intros; exfalso; lra.
    + apply Qlt_bool_false_iff in H10.
      repeat split; try reflexivity; intros; exfalso; lra.
Qed.

Ltac run_bind H := rewrite (outcome_bind_eq _ _ _ H); cbn beta iota.

Lemma fetch_ec2_running (w : World) (cwRegion svc rgn : string)
    (inst : Instance) (p total0 : Q) :
  State_Name inst = "running" ->
  outcome (getMetric w cwRegion "AWS/EC2" "CPUUtilization"
             [mkDimension "InstanceId" (Some (InstanceId inst))] "Average" 1)
    = Ok p ->
  exists r t,
    outcome (fetch_ec2_body w cwRegion rgn
               (resource_of_instance svc rgn inst) total0) = Ok (r, t)
    /\ avgCpu r = Some p
    /\ usageStatus r = cpuUsageStatus p.
Proof.
  intros Hstate Hp.
  unfold fetch_ec2_body, state_is. simpl state. rewrite Hstate.
  rewrite String.eqb_refl. simpl id.
  run_bind Hp.
  destruct (js_truthy (js_or_else (lookup rgn regionToLocation) "")).
  - match goal with
    | |- context [getHourlyPrice w ?c ?f] =>
        destruct (getHourlyPrice_outcome w c f) as [price Hprice]
    end.
    run_bind Hprice.
    eexists; eexists; split; [reflexivity|]. split; reflexivity.
  - eexists; eexists; split; [reflexivity|]. split; reflexivity.
Qed.

Lemma scan_ec2_running (w : World) (cwRegion svc rgn : string)
    (inst : Instance) (p longMetric : Q) :
  State_Name inst = "running" ->
  outcome (getMetric w cwRegion "AWS/EC2" "CPUUtilization"
             [mkDimension "InstanceId" (Some (InstanceId inst))] "Average" 1)
    = Ok p ->
  outcome (getMetric w cwRegion "AWS/EC2" "CPUUtilization"
             [mkDimension "InstanceId" (Some (InstanceId inst))] "Average" 30)
    = Ok longMetric ->
  exists r,
    outcome (scan_ec2_classify w cwRegion rgn
               (resource_of_instance svc rgn inst)) = Ok (r, longMetric)
    /\ avgCpu r = Some p
    /\ usageStatus r = cpuUsageStatus p.
Proof.
  intros Hstate Hp Hlong.
  unfold scan_ec2_classify, state_is. simpl state. rewrite Hstate.
  rewrite String.eqb_refl. simpl id.
  run_bind Hp.
  match goal with
  | |- context [if ?c then _ else _] => destruct c
  end.
  - match goal with
    | |- context [getHourlyPrice w ?c ?f] =>
        destruct (getHourlyPrice_outcome w c f) as [price Hprice]
    end.
    rewrite bind_assoc. run_bind Hprice. rewrite bind_ret_l.
    simpl id. run_bind Hlong.
    eexists; split; [reflexivity|]. split; reflexivity.
  - rewrite bind_ret_l. simpl id. run_bind Hlong.
    eexists; split; [reflexivity|]. split; reflexivity.
Qed.

Lemma fetch_rds_available (w : World) (cwRegion svc rgn : string)
    (db : DBInstance) (p total0 : Q) :
  DBInstanceStatus db = "available" ->
  outcome (getMetric w cwRegion "AWS/RDS" "CPUUtilization"
             [mkDimension "DBInstanceIdentifier"
                (Some (DBInstanceIdentifier db))] "Average" 1)
    = Ok p ->
  exists r t,
    outcome (fetch_rds_body w cwRegion rgn
               (resource_of_db svc rgn db) total0) = Ok (r, t)
    /\ avgCpu r = Some p
    /\ usageStatus r = cpuUsageStatus p.
Proof.
  intros Hstate Hp.
  unfold fetch_rds_body, state_is. simpl state. rewrite Hstate.
  rewrite String.eqb_refl. simpl id.
  run_bind Hp.
  destruct (js_truthy (js_or_else (lookup rgn regionToLocation) "")).
  - unfold engine_name.
    cbn [engine set_usageStatus set_avgCpu resource_of_db]. rewrite bind_ret_l.
    match goal with
    | |- context [getHourlyPrice w ?c ?f] =>
        destruct (getHourlyPrice_outcome w c f) as [price Hprice]
    end.
    run_bind Hprice.
    eexists; eexists; split; [reflexivity|]. split; reflexivity.
  - eexists; eexists; split; [reflexivity|]. split; reflexivity.
Qed.

Lemma scan_rds_available (w : World) (cwRegion svc rgn : string)
    (db : DBInstance) (p longMetric : Q) :
  DBInstanceStatus db = "available" ->
  outcome (getMetric w cwRegion "AWS/RDS" "CPUUtilization"
             [mkDimension "DBInstanceIdentifier"
                (Some (DBInstanceIdentifier db))] "Average" 1)
    = Ok p ->
  outcome (getMetric w cwRegion "AWS/RDS" "CPUUtilization"
             [mkDimension "DBInstanceIdentifier"
                (Some (DBInstanceIdentifier db))] "Average" 30)
    = Ok longMetric ->
  exists r,
    outcome (scan_rds_classify w cwRegion rgn (resource_of_db svc rgn db))
      = Ok (r, longMetric)
    /\ avgCpu r = Some p
    /\ usageStatus r = cpuUsageStatus p.
Proof.
  intros Hstate Hp Hlong.
  unfold scan_rds_classify, state_is. simpl state. rewrite Hstate.
  rewrite String.eqb_refl. simpl id.
  run_bind Hp.
  destruct (js_truthy (js_or_else (lookup rgn regionToLocation) "")).
  - unfold engine_name.
    cbn [engine set_usageStatus set_avgCpu resource_of_db].
    rewrite !bind_assoc, bind_ret_l.
    match goal with
    | |- context [getHourlyPrice w ?c ?f] =>
        destruct (getHourlyPrice_outcome w c f) as [price Hprice]
    end.
    rewrite bind_assoc. run_bind Hprice. rewrite bind_ret_l.
    simpl id. run_bind Hlong.
    eexists; split; [reflexivity|]. split; reflexivity.
  - rewrite bind_ret_l. simpl id. run_bind Hlong.
    eexists; split; [reflexivity|]. split; reflexivity.
Qed.

Lemma scan_ec2_classified (w : World) (cwRegion svc rgn : string)
    (inst : Instance) (p longMetric : Q) (r : Resource) :
  State_Name inst = "running" ->
  outcome (getMetric w cwRegion "AWS/EC2" "CPUUtilization"
             [mkDimension "InstanceId" (Some (InstanceId inst))] "Average" 1)
    = Ok p ->
  outcome (scan_ec2_classify w cwRegion rgn
             (resource_of_instance svc rgn inst)) = Ok (r, longMetric) ->
  avgCpu r = Some p /\ usageStatus r = cpuUsageStatus p.
Proof.
  intros Hstate Hp H.
  unfold scan_ec2_classify, state_is in H. simpl state in H.
  rewrite Hstate, String.eqb_refl in H. simpl id in H.
  rewrite (outcome_bind_eq _ _ _ Hp) in H. cbn beta iota in H.
  apply outcome_bind_Ok in H as (r' & Hr' & H).
  apply outcome_bind_Ok in H as (m & _ & H).
  cbn [outcome ret snd] in H. injection H as <- <-.
  match type of Hr' with
  | outcome (if ?c then _ else _) = _ => destruct c
  end.
  - apply outcome_bind_Ok in Hr' as (price & _ & Hr').
    cbn [outcome ret snd] in Hr'. injection Hr' as <-.
    split; reflexivity.
  - cbn [outcome ret snd] in Hr'. injection Hr' as <-.
    split; reflexivity.
Qed.

Lemma scan_rds_classified (w : World) (cwRegion svc rgn : string)
    (db : DBInstance) (p longMetric : Q) (r : Resource) :
  DBInstanceStatus db = "available" ->
  outcome (getMetric w cwRegion "AWS/RDS" "CPUUtilization"
             [mkDimension "DBInstanceIdentifier"
                (Some (DBInstanceIdentifier db))] "Average" 1)
    = Ok p ->
  outcome (scan_rds_classify w cwRegion rgn (resource_of_db svc rgn db))
    = Ok (r, longMetric) ->
  avgCpu r = Some p /\ usageStatus r = cpuUsageStatus p.
Proof.
  intros Hstate Hp H.
  unfold scan_rds_classify, state_is in H. simpl state in H.
  rewrite Hstate, String.eqb_refl in H. simpl id in H.
  rewrite (outcome_bind_eq _ _ _ Hp) in H. cbn beta iota in H.
  apply outcome_bind_Ok in H as (r' & Hr' & H).
  apply outcome_bind_Ok in H as (m & _ & H).
  cbn [outcome ret snd] in H. injection H as <- <-.
  match type of Hr' with
  | outcome (if ?c then _ else _) = _ => destruct c
  end.
  - apply outcome_bind_Ok in Hr' as (engineName & _ & Hr').
    apply outcome_bind_Ok in Hr' as (price & _ & Hr').
    cbn [outcome ret snd] in Hr'. injection Hr' as <-.
    split; reflexivity.
  - cbn [outcome ret snd] in Hr'. injection Hr' as <-.
    split; reflexivity.
Qed.

(** ** Function cost *)

Lemma lambda_cost_pos (i d mem : Q) :
  0 < i -> 0 <= d -> 0 <= mem -> 0 < lambda_cost i d mem.
Proof.
  intros Hi Hd Hmem. unfold lambda_cost.
  assert (Hgb : 0 <= d / 1000 * i * (mem / 1024)).
  { apply Qmult_le_0_compat; [apply Qmult_le_0_compat|].
    - apply Qle_shift_div_l; [reflexivity|]. lra.
    - lra.
    - apply Qle_shift_div_l; [reflexivity|]. lra. }
  assert (Hc : 0 <= d / 1000 * i * (mem / 1024) * 0.0000166667).
  { apply Qmult_le_0_compat; [exact Hgb|]. discriminate. }
  assert (Hr : 0 < i * 0.0000002).
  { apply Qmult_lt_0_compat; [exact Hi|reflexivity]. }
  apply Qmult_lt_0_compat; [|reflexivity].
  lra.
Qed.

Lemma fetch_lambda_runs (w : World) (cwRegion svc rgn : string)
    (fn : LambdaFunction) (i d total0 : Q) :
  outcome (getMetric w cwRegion "AWS/Lambda" "Invocations"
             [mkDimension "FunctionName" (Some (FunctionName fn))] "Sum" 1)
    = Ok i ->
  (0 < i ->
   outcome (getMetric w cwRegion "AWS/Lambda" "Duration"
              [mkDimension "FunctionName" (Some (FunctionName fn))]
              "Average" 1)
   = Ok d) ->
  exists r t,
    outcome (fetch_lambda_body w cwRegion
               (resource_of_function w svc rgn fn) total0) = Ok (r, t)
    /\ invocations r = Some i
    /\ monthlyCost r
       = if Qlt_bool 0 i then lambda_cost i d (MemorySize fn) else 0.
Proof.
  intros Hi Hd.
  unfold fetch_lambda_body. cbn [name resource_of_function].
  run_bind Hi. cbn [name set_usageStatus set_invocations].
  destruct (Qlt_bool 0 i) eqn:E.
  - apply Qlt_bool_iff in E. run_bind (Hd E). eexists; eexists; split; [reflexivity|].
    split; reflexivity.
  - eexists; eexists; split; [reflexivity|]. split; reflexivity.
Qed.

Lemma scan_lambda_runs (w : World) (cwRegion svc rgn : string)
    (fn : LambdaFunction) (i d : Q) :
  outcome (getMetric w cwRegion "AWS/Lambda" "Invocations"
             [mkDimension "FunctionName" (Some (FunctionName fn))] "Sum" 1)
    = Ok i ->
  (0 < i ->
   outcome (getMetric w cwRegion "AWS/Lambda" "Duration"
              [mkDimension "FunctionName" (Some (FunctionName fn))]
              "Average" 1)
   = Ok d) ->
  exists r,
    outcome (scan_lambda_classify w cwRegion
               (resource_of_function w svc rgn fn)) = Ok r
    /\ invocations r = Some i
    /\ monthlyCost r
       = if Qlt_bool 0 i then lambda_cost i d (MemorySize fn) else 0.
Proof.
  intros Hi Hd.
  unfold scan_lambda_classify. cbn [name resource_of_function].
  run_bind Hi. cbn [name set_usageStatus set_invocations].
  destruct (Qlt_bool 0 i) eqn:E.
  - apply Qlt_bool_iff in E. run_bind (Hd E). eexists; split; [reflexivity|]. split; reflexivity.
  - eexists; split; [reflexivity|]. split; reflexivity.
Qed.

Lemma lambda_cost_cases (i d mem c : Q) :
  0 <= i ->
  c = (if Qlt_bool 0 i then lambda_cost i d mem else 0) ->
  (i == 0 -> c = 0)
  /\ (0 < i ->
      c == (i * 0.0000002
            + ((d / 1000) * i * (mem / 1024)) * 0.0000166667) * 30)
  /\ (0 <= d -> 0 <= mem -> (c == 0 <-> i == 0)).
Proof.
  intros Hi ->.
  destruct (Qlt_bool 0 i) eqn:E.
  - apply Qlt_bool_iff in E.
    split; [intro H0; exfalso; lra|].
    split; [intros _; unfold lambda_cost; reflexivity|].
    intros Hd Hmem.
    pose proof (lambda_cost_pos i d mem E Hd Hmem) as Hpos.
    split; intro H0; exfalso; lra.
  - apply Qlt_bool_false_iff in E.
    split; [reflexivity|].
    split; [intro H0; exfalso; lra|].
    intros _ _. split; intro H0; [lra|reflexivity].
Qed.

(** ** What the loop bodies leave behind *)

Ltac inv_bind H :=
  let a := fresh "a" in
  let Ha := fresh "Ha" in
  apply outcome_bind_Ok in H as (a & Ha & H).

Tactic Notation "unbind" hyp(H) "as" ident(a) ident(Ha) :=
  apply outcome_bind_Ok in H as (a & Ha & H).

Ltac inv_ret H := cbn [outcome ret snd] in H; injection H as <-.

Lemma state_is_true (r : Resource) (s : string) :
  state_is r s = true <-> state r = Some s.
Proof.
  unfold state_is. destruct (state r) as [s'|].
  - rewrite String.eqb_eq. split; [intros ->; reflexivity|congruence].
  - split; discriminate.
Qed.

Lemma fetch_ec2_body_spec (w : World) (cwRegion rgn : string)
    (inst : Resource) (t0 : Q) :
  monthlyCost inst = 0 ->
  returns (fetch_ec2_body w cwRegion rgn inst t0)
    (fun res => classified_from "running" inst (fst res)
                /\ snd res == t0 + monthlyCost (fst res)).
Proof.
  intros Hcost res H. unfold fetch_ec2_body in H. unfold classified_from.
  destruct (state_is inst "running") eqn:Erun.
  - inv_bind H.
    destruct (js_truthy (js_or_else (lookup rgn regionToLocation) "")).
    + inv_bind H. inv_ret H. cbn.
      repeat split; try reflexivity. exists a. split; reflexivity.
    + inv_ret H. cbn.
      repeat split; try reflexivity.
      * exists a. split; reflexivity.
      * rewrite Hcost. ring.
  - destruct (state_is inst "stopped") eqn:Estop.
    + inv_ret H. cbn. repeat split; try reflexivity. ring.
    + inv_ret H. cbn. repeat split; try reflexivity. rewrite Hcost. ring.
Qed.

Lemma fetch_rds_body_spec (w : World) (cwRegion rgn : string)
    (db : Resource) (t0 : Q) :
  monthlyCost db = 0 ->
  returns (fetch_rds_body w cwRegion rgn db t0)
    (fun res => classified_from "available" db (fst res)
                /\ snd res == t0 + monthlyCost (fst res)).
Proof.
  intros Hcost res H. unfold fetch_rds_body in H. unfold classified_from.
  destruct (state_is db "available") eqn:Erun.
  - inv_bind H.
    destruct (js_truthy (js_or_else (lookup rgn regionToLocation) "")).
    + inv_bind H. inv_bind H. inv_ret H. cbn.
      repeat split; try reflexivity. exists a. split; reflexivity.
    + inv_ret H. cbn.
      repeat split; try reflexivity.
      * exists a. split; reflexivity.
      * rewrite Hcost. ring.
  - destruct (state_is db "stopped") eqn:Estop.
    + inv_ret H. cbn. repeat split; try reflexivity. ring.
    + inv_ret H. cbn. repeat split; try reflexivity. rewrite Hcost. ring.
Qed.

Lemma fetch_lambda_body_spec (w : World) (cwRegion : string)
    (fn : Resource) (t0 : Q) :
  monthlyCost fn = 0 ->
  returns (fetch_lambda_body w cwRegion fn t0)
    (fun res => measured_from fn (fst res)
                /\ snd res == t0 + monthlyCost (fst res)).
Proof.
  intros Hcost res H. unfold fetch_lambda_body in H. unfold measured_from.
  inv_bind H.
  destruct (Qlt_bool 0 a).
  - inv_bind H. inv_ret H. cbn. repeat split; try reflexivity.
    left; reflexivity.
  - inv_ret H. cbn. repeat split; try reflexivity.
    + right; reflexivity.
    + rewrite Hcost. ring.
Qed.

Lemma scan_ec2_classify_spec (w : World) (cwRegion rgn : string)
    (inst : Resource) :
  returns (scan_ec2_classify w cwRegion rgn inst)
    (fun res =>
       classified_from "running" inst (fst res)
       /\ if state_is inst "running"
          then outcome (getMetric w cwRegion "AWS/EC2" "CPUUtilization"
                          [mkDimension "InstanceId" (id inst)] "Average" 30)
               = Ok (snd res)
          else snd res = 0).
Proof.
  intros res H. unfold scan_ec2_classify in H. unfold classified_from.
  destruct (state_is inst "running") eqn:Erun.
  - inv_bind H. inv_bind H.
    match type of Ha0 with
    | outcome (if ?c then _ else _) = _ => destruct c
    end.
    + inv_bind Ha0. inv_ret Ha0. cbn [id set_monthlyCost] in H.
      inv_bind H. inv_ret H. cbn.
      repeat split; try reflexivity; [|exact Ha0].
      exists a. split; reflexivity.
    + inv_ret Ha0. inv_bind H. inv_ret H. cbn.
      repeat split; try reflexivity; [|exact Ha0].
      exists a. split; reflexivity.
  - destruct (state_is inst "stopped") eqn:Estop.
    + inv_ret H. cbn. repeat split; reflexivity.
    + inv_ret H. cbn. repeat split; reflexivity.
Qed.

Lemma scan_rds_classify_spec (w : World) (cwRegion rgn : string)
    (db : Resource) :
  returns (scan_rds_classify w cwRegion rgn db)
    (fun res =>
       classified_from "available" db (fst res)
       /\ if state_is db "available"
          then outcome (getMetric w cwRegion "AWS/RDS" "CPUUtilization"
                          [mkDimension "DBInstanceIdentifier" (id db)]
                          "Average" 30)
               = Ok (snd res)
          else snd res = 0).
Proof.
  intros res H. unfold scan_rds_classify in H. unfold classified_from.
  destruct (state_is db "available") eqn:Erun.
  - inv_bind H. inv_bind H.
    match type of Ha0 with
    | outcome (if ?c then _ else _) = _ => destruct c
    end.
    + inv_bind Ha0. inv_bind Ha0. inv_ret Ha0. cbn [id set_monthlyCost] in H.
      inv_bind H. inv_ret H. cbn.
      repeat split; try reflexivity; [|exact Ha0].
      exists a. split; reflexivity.
    + inv_ret Ha0. inv_bind H. inv_ret H. cbn.
      repeat split; try reflexivity; [|exact Ha0].
      exists a. split; reflexivity.
  - destruct (state_is db "stopped") eqn:Estop.
    + inv_ret H. cbn. repeat split; reflexivity.
    + inv_ret H. cbn. repeat split; reflexivity.
Qed.

Lemma scan_lambda_classify_spec (w : World) (cwRegion : string)
    (fn : Resource) :
  returns (scan_lambda_classify w cwRegion fn) (measured_from fn).
Proof.
  intros r H. unfold scan_lambda_classify in H. unfold measured_from.
  inv_bind H.
  destruct (Qlt_bool 0 a).
  - inv_bind H. inv_ret H. cbn. repeat split; try reflexivity.
    left; reflexivity.
  - inv_ret H. cbn. repeat split; try reflexivity. right; reflexivity.
Qed.

(** ** From the bodies to the records *)

Lemma cpu_label_cpuUsageStatus (p : Q) : cpu_label (cpuUsageStatus p).
Proof.
  unfold cpu_label, cpuUsageStatus.
  destruct (Qlt_bool p 1); [auto|]. destruct (Qlt_bool p 10); auto.
Qed.

Lemma cpu_label_derived (s : string) : cpu_label s -> derived_status s.
Proof. unfold cpu_label, derived_status. tauto. Qed.

Lemma state_is_false (r : Resource) (s : string) :
  state_is r s = false -> state r <> Some s.
Proof.
  intros H Hs. apply state_is_true in Hs. congruence.
Qed.

Lemma classified_record_ok (active : string) (inst r : Resource) :
  (service inst = "ec2" /\ active = "running")
  \/ (service inst = "rds" /\ active = "available") ->
  state inst = Some (usageStatus inst) ->
  classified_from active inst r ->
  record_ok r.
Proof.
  intros Hkind Hfresh (Hsvc & _ & _ & Hstate & _ & Hcase).
  assert (Hactive : active <> "stopped").
  { destruct Hkind as [[_ ->]|[_ ->]]; discriminate. }
  assert (Hmeasured :
            (service r = "ec2" /\ state r = Some "running")
            \/ (service r = "rds" /\ state r = Some "available") ->
            state inst = Some active).
  { rewrite Hsvc, Hstate.
    destruct Hkind as [[-> ->]|[-> ->]];
      intros [[E1 E2]|[E1 E2]]; try discriminate E1; exact E2. }
  unfold record_ok, status_ok, stopped_is_free, tiered, state_passed_through.
  destruct (state_is inst active) eqn:Eact.
  - destruct Hcase as (p & Hcpu & Hst).
    split; [|split; [|split]].
    + left. rewrite Hst. apply cpu_label_derived, cpu_label_cpuUsageStatus.
    + intros _ Hstop. apply state_is_true in Eact.
      rewrite Hstate, Eact in Hstop. congruence.
    + intros _. exists p. split; [exact Hcpu|].
      rewrite Hst. apply tier_of_cpuUsageStatus.
    + intros s Hs _ Hother. exfalso. apply state_is_true in Eact.
      rewrite Hstate, Eact in Hs. injection Hs as <-.
      rewrite Hsvc in Hother.
      destruct Hkind as [[Hk ->]|[Hk ->]]; rewrite Hk in Hother;
        destruct Hother as [[E1 E2]|[E1 E2]];
        try discriminate E1; apply E2; reflexivity.
  - assert (Hnot : state inst <> Some active)
      by (apply state_is_false; exact Eact).
    destruct (state_is inst "stopped") eqn:Estop.
    + destruct Hcase as [Hst Hcost]. split; [|split; [|split]].
      * left. unfold derived_status. rewrite Hst. tauto.
      * auto.
      * intro Hm. exfalso. auto.
      * intros s Hs Hns _. exfalso. apply state_is_true in Estop.
        rewrite Hstate, Estop in Hs. injection Hs as <-.
        apply Hns. reflexivity.
    + destruct Hcase as [Hst Hcost].
      assert (Hr : state r = Some (usageStatus r))
        by (rewrite Hstate, Hst; exact Hfresh).
      split; [|split; [|split]].
      * right.
        assert (Hna : usageStatus r <> active).
        { intro E. apply Hnot. rewrite <- Hstate, Hr, E. reflexivity. }
        assert (Hns : usageStatus r <> "stopped").
        { intro E. apply (state_is_false _ _ Estop).
          rewrite <- Hstate, Hr, E. reflexivity. }
        destruct Hkind as [[Hk ->]|[Hk ->]]; [left|right];
          rewrite Hsvc; auto.
      * intros _ Hstop. exfalso. apply (state_is_false _ _ Estop).
        rewrite <- Hstate. exact Hstop.
      * intro Hm. exfalso. auto.
      * intros s Hs _ _. rewrite Hr in Hs. injection Hs as <-. reflexivity.
Qed.

Lemma other_kind_record_ok (r : Resource) :
  service r <> "ec2" -> service r <> "rds" ->
  derived_status (usageStatus r) -> record_ok r.
Proof.
  intros Hne1 Hne2 Hst.
  unfold record_ok, status_ok, stopped_is_free, tiered, state_passed_through.
  split; [left; exact Hst|]. split; [|split].
  - intros [E|E]; contradiction.
  - intros [[E _]|[E _]]; contradiction.
  - intros s _ _ [[E _]|[E _]]; contradiction.
Qed.

Lemma measured_record_ok (fn r : Resource) :
  service fn = "lambda" -> measured_from fn r -> record_ok r.
Proof.
  intros Hk (Hsvc & _ & _ & _ & _ & Hst).
  apply other_kind_record_ok.
  - rewrite Hsvc, Hk. discriminate.
  - rewrite Hsvc, Hk. discriminate.
  - unfold derived_status. tauto.
Qed.

Lemma volume_record_ok (svc rgn : string) (vol : Volume) :
  svc = "ebs" -> record_ok (resource_of_volume svc rgn vol).
Proof.
  intros ->. apply other_kind_record_ok; try discriminate.
  unfold derived_status. cbn.
  destruct (vol_State vol =? "in-use")%string; tauto.
Qed.

Lemma Forall_push_if (P : Resource -> Prop) (c : bool) (r : Resource)
    (l : list Resource) :
  Forall P l -> (c = true -> P r) -> Forall P (push_if c r l).
Proof.
  intros Hl Hr. unfold push_if. destruct c; [|exact Hl].
  apply Forall_app. split; [exact Hl|]. constructor; auto.
Qed.

Lemma Forall_snoc (P : Resource -> Prop) (r : Resource) (l : list Resource) :
  Forall P l -> P r -> Forall P (l ++ [r]).
Proof.
  intros Hl Hr. apply Forall_app. split; [exact Hl|]. constructor; auto.
Qed.

(** A loop that updates the objects it visits. *)
Lemma returns_for_each_update {S : Type}
    (body : Resource -> S -> M (Resource * S))
    (Inv : list Resource -> S -> Prop) (xs : list Resource) (acc : S) :
  Inv [] acc ->
  (forall x l s, In x xs -> Inv l s ->
     returns (body x s) (fun r => Inv (l ++ [fst r]) (snd r))) ->
  returns (for_each_update body xs acc) (fun res => Inv (fst res) (snd res)).
Proof.
  intros H0 Hbody. unfold for_each_update.
  apply returns_for_each with (Inv := fun st => Inv (fst st) (snd st)).
  - intros x st Hx Hst. eapply returns_bind.
    + apply (Hbody x (fst st) (snd st) Hx Hst).
    + intros r Hr. apply returns_ret. exact Hr.
  - exact H0.
Qed.

Lemma sum_monthlyCost_snoc (l : list Resource) (r : Resource) :
  sum_monthlyCost (l ++ [r]) == sum_monthlyCost l + monthlyCost r.
Proof.
  rewrite sum_monthlyCost_app. unfold sum_monthlyCost at 2. simpl. ring.
Qed.

(** ** The on-demand fetch as a whole *)

Lemma fetch_s3_body_spec (w : World) (cwRegion rgn : string) (bucket : Bucket)
    (acc : list Resource * Q) :
  fetched_ok "s3" rgn acc ->
  returns (fetch_s3_body w cwRegion "s3" rgn bucket acc) (fetched_ok "s3" rgn).
Proof.
  intros [Hall Hsum] res H. unfold fetch_s3_body in H.
  inv_bind H. destruct a as [locRes|].
  - destruct (negb (or_else locRes "us-east-1" =? rgn)%string).
    + inv_ret H. split; assumption.
    + inv_bind H. inv_bind H. inv_ret H. split; cbn [fst snd].
      * apply Forall_app. split; [exact Hall|]. constructor; [|constructor].
        split; [|split; reflexivity].
        apply other_kind_record_ok; try discriminate.
        unfold derived_status. cbn. destruct (Qlt_bool 0 a); tauto.
      * rewrite sum_monthlyCost_snoc, Hsum. reflexivity.
  - inv_ret H. split; assumption.
Qed.

Lemma fetch_ebs_volumes_spec (rgn : string) (volumes : list Volume) :
  fetched_ok "ebs" rgn (fetch_ebs_volumes "ebs" rgn volumes).
Proof.
  unfold fetch_ebs_volumes.
  assert (H0 : fetched_ok "ebs" rgn ([], 0))
    by (split; [constructor|reflexivity]).
  revert H0. generalize (@nil Resource, 0).
  induction volumes as [|vol volumes IH]; intros acc Hacc; simpl.
  - exact Hacc.
  - apply IH. destruct Hacc as [Hall Hsum]. split; cbn [fst snd].
    + apply Forall_snoc; [exact Hall|].
      split; [apply volume_record_ok; reflexivity|split; reflexivity].
    + rewrite sum_monthlyCost_snoc, Hsum. reflexivity.
Qed.

Lemma fetchServiceResources_spec (w : World) (fuel : nat) (svc rgn : string) :
  returns (fetchServiceResources w fuel svc rgn) (fetched_ok svc rgn).
Proof.
  unfold fetchServiceResources.
  destruct (svc =? "ec2")%string eqn:Eec2.
  { apply String.eqb_eq in Eec2. subst svc.
    eapply returns_bind; [apply returns_any|]. intros reservations _.
    apply (returns_for_each_update _
             (fun l t => fetched_ok "ec2" rgn (l, t))).
    - split; [constructor|reflexivity].
    - intros x l t Hx [Hall Hsum].
      apply in_map_iff in Hx as (raw & <- & _).
      eapply returns_weaken; [apply fetch_ec2_body_spec; reflexivity|].
      intros [r t'] [Hcl Ht]. cbn [fst snd] in *. split; cbn [fst snd].
      + apply Forall_snoc; [exact Hall|].
        split.
        * eapply classified_record_ok; [| |exact Hcl]; auto.
        * destruct Hcl as (Hs & Hr & _). rewrite Hs, Hr. split; reflexivity.
      + rewrite sum_monthlyCost_snoc, Ht, Hsum. reflexivity. }
  destruct (svc =? "ebs")%string eqn:Eebs.
  { apply String.eqb_eq in Eebs. subst svc.
    eapply returns_bind; [apply returns_any|]. intros volumes _.
    apply returns_ret. apply fetch_ebs_volumes_spec. }
  destruct (svc =? "s3")%string eqn:Es3.
  { apply String.eqb_eq in Es3. subst svc.
    eapply returns_bind; [apply returns_any|]. intros listed _.
    apply returns_for_each.
    - intros bucket acc _ Hacc. apply fetch_s3_body_spec. exact Hacc.
    - split; [constructor|reflexivity]. }
  destruct (svc =? "rds")%string eqn:Erds.
  { apply String.eqb_eq in Erds. subst svc.
    eapply returns_bind; [apply returns_any|]. intros dbs _.
    apply (returns_for_each_update _
             (fun l t => fetched_ok "rds" rgn (l, t))).
    - split; [constructor|reflexivity].
    - intros x l t Hx [Hall Hsum].
      apply in_map_iff in Hx as (raw & <- & _).
      eapply returns_weaken; [apply fetch_rds_body_spec; reflexivity|].
      intros [r t'] [Hcl Ht]. cbn [fst snd] in *. split; cbn [fst snd].
      + apply Forall_snoc; [exact Hall|].
        split.
        * eapply classified_record_ok; [| |exact Hcl]; auto.
        * destruct Hcl as (Hs & Hr & _). rewrite Hs, Hr. split; reflexivity.
      + rewrite sum_monthlyCost_snoc, Ht, Hsum. reflexivity. }
  destruct (svc =? "lambda")%string eqn:Elam.
  { apply String.eqb_eq in Elam. subst svc.
    eapply returns_bind; [apply returns_any|]. intros functions _.
    apply (returns_for_each_update _
             (fun l t => fetched_ok "lambda" rgn (l, t))).
    - split; [constructor|reflexivity].
    - intros x l t Hx [Hall Hsum].
      apply in_map_iff in Hx as (raw & <- & _).
      eapply returns_weaken; [apply fetch_lambda_body_spec; reflexivity|].
      intros [r t'] [Hm Ht]. cbn [fst snd] in *. split; cbn [fst snd].
      + apply Forall_snoc; [exact Hall|].
        split.
        * apply (measured_record_ok _ r) in Hm; [exact Hm|reflexivity].
        * destruct Hm as (Hs & Hr & _). rewrite Hs, Hr. split; reflexivity.
      + rewrite sum_monthlyCost_snoc, Ht, Hsum. reflexivity. }
  intros res H. discriminate H.
Qed.

(** ** The scan as a whole *)

Lemma state_is_same (a b : Resource) (s : string) :
  state a = state b -> state_is a s = state_is b s.
Proof. unfold state_is. intros ->. reflexivity. Qed.

Lemma scan_ec2_body_inv (w : World) (rgn : string) (raw : Instance)
    (acc : Lists) :
  scanned_ok w acc ->
  returns (scan_ec2_body w rgn "ec2" rgn (resource_of_instance "ec2" rgn raw) acc)
    (scanned_ok w).
Proof.
  intros [Hu Hl] acc' H. unfold scan_ec2_body in H.
  inv_bind H. inv_ret H. destruct a as [r longMetric].
  apply scan_ec2_classify_spec in Ha as [Hcl Hlong]. cbn [fst snd] in *.
  assert (Hok : record_ok r)
    by (eapply classified_record_ok; [| |exact Hcl]; auto).
  destruct Hcl as (Hsvc & Hrgn & Hid & Hstate & Hcreation & _).
  unfold spread. split; cbn [fst snd]; apply Forall_push_if; auto.
  intro Hc. split; [exact Hok|].
  apply andb_true_iff in Hc as [Hold Hc].
  split; [exact Hold|].
  apply orb_true_iff in Hc as [Hstop|Hc].
  - left. split; [left; exact Hsvc|]. apply state_is_true. exact Hstop.
  - right. left. apply andb_true_iff in Hc as [Hrun Hlt].
    split; [|split].
    + left. rewrite (state_is_same r _ _ Hstate) in Hrun.
      rewrite Hrun in Hlong.
      split; [exact Hsvc|]. exists longMetric.
      rewrite Hrgn, Hid. split; [exact Hlong|].
      apply Qlt_bool_iff. exact Hlt.
    + intros _. apply state_is_true. exact Hrun.
    + rewrite Hsvc. discriminate.
Qed.

Lemma scan_rds_body_inv (w : World) (rgn : string) (raw : DBInstance)
    (acc : Lists) :
  scanned_ok w acc ->
  returns (scan_rds_body w rgn "rds" rgn (resource_of_db "rds" rgn raw) acc)
    (scanned_ok w).
Proof.
  intros [Hu Hl] acc' H. unfold scan_rds_body in H.
  inv_bind H. inv_ret H. destruct a as [r longMetric].
  apply scan_rds_classify_spec in Ha as [Hcl Hlong]. cbn [fst snd] in *.
  assert (Hok : record_ok r)
    by (eapply classified_record_ok; [| |exact Hcl]; auto).
  destruct Hcl as (Hsvc & Hrgn & Hid & Hstate & Hcreation & _).
  unfold spread. split; cbn [fst snd]; apply Forall_push_if; auto.
  intro Hc. split; [exact Hok|].
  apply andb_true_iff in Hc as [Hold Hc].
  split; [exact Hold|].
  apply orb_true_iff in Hc as [Hstop|Hc].
  - left. split; [right; exact Hsvc|]. apply state_is_true. exact Hstop.
  - right. left. apply andb_true_iff in Hc as [Hrun Hlt].
    split; [|split].
    + right. left. rewrite (state_is_same r _ _ Hstate) in Hrun.
      rewrite Hrun in Hlong.
      split; [exact Hsvc|]. exists longMetric.
      rewrite Hrgn, Hid. split; [exact Hlong|].
      apply Qlt_bool_iff. exact Hlt.
    + rewrite Hsvc. discriminate.
    + intros _. apply state_is_true. exact Hrun.
Qed.

Lemma scan_ebs_body_inv (w : World) (rgn : string) (raw : Volume)
    (acc : Lists) :
  scanned_ok w acc ->
  scanned_ok w (scan_ebs_body w "ebs" rgn (resource_of_volume "ebs" rgn raw) acc).
Proof.
  intros [Hu Hl]. unfold scan_ebs_body, spread.
  assert (Hok : record_ok (resource_of_volume "ebs" rgn raw))
    by (apply volume_record_ok; reflexivity).
  split; cbn [fst snd]; apply Forall_push_if; auto.
  intro Hc. split; [exact Hok|].
  apply andb_true_iff in Hc as [Hold Hav].
  split; [exact Hold|].
  right. right. split; [reflexivity|]. apply state_is_true. exact Hav.
Qed.

Lemma scan_s3_body_inv (w : World) (rgn : string) (bucket : Bucket)
    (acc : Lists) :
  scanned_ok w acc ->
  returns (scan_s3_body w "us-east-1" "s3" rgn bucket acc) (scanned_ok w).
Proof.
  intros [Hu Hl] acc' H. unfold scan_s3_body in H.
  inv_bind H. destruct a as [locRes|].
  - destruct (negb (or_else locRes "us-east-1" =? rgn)%string).
    + inv_ret H. split; assumption.
    + unbind H as numObjects Hnum. unbind H as sizeBytes Hsize.
      unbind H as longNumObjects Hlong. inv_ret H.
      match goal with
      | |- scanned_ok w (push_if _ (spread _ _ ?r) _, _) =>
          assert (Hok : record_ok r)
      end.
      { apply other_kind_record_ok; try discriminate.
        unfold derived_status. cbn. destruct (Qlt_bool 0 numObjects); tauto. }
      unfold spread. split; cbn [fst snd]; apply Forall_push_if; auto.
      intro Hc. split; [exact Hok|].
      apply andb_true_iff in Hc as [Hold Hzero].
      split; [exact Hold|].
      right. left. split; [|split; cbn [service]; discriminate].
      right. right. right. split; [reflexivity|].
      exists longNumObjects. split; [cbn [name]; exact Hlong|].
      apply Qeq_bool_iff. exact Hzero.
  - inv_ret H. split; assumption.
Qed.

Lemma scan_lambda_body_inv (w : World) (rgn : string) (raw : LambdaFunction)
    (acc : Lists) :
  scanned_ok w acc ->
  returns (scan_lambda_body w rgn "lambda" rgn
             (resource_of_function w "lambda" rgn raw) acc)
    (scanned_ok w).
Proof.
  intros [Hu Hl] acc' H. unfold scan_lambda_body in H.
  unbind H as r Hr. unbind H as longInvocations Hlong. inv_ret H.
  apply scan_lambda_classify_spec in Hr as Hm.
  assert (Hok : record_ok r)
    by (apply (measured_record_ok _ r) in Hm; [exact Hm|reflexivity]).
  destruct Hm as (Hsvc & Hrgn & Hname & _).
  unfold spread. split; cbn [fst snd]; apply Forall_push_if; auto.
  intro Hc. split; [exact Hok|].
  apply andb_true_iff in Hc as [Hold Hzero].
  split; [exact Hold|].
  right. left. split; [|split; rewrite Hsvc; discriminate].
  right. right. left. split; [exact Hsvc|].
  exists longInvocations. rewrite Hrgn. split; [exact Hlong|].
  apply Qeq_bool_iff. exact Hzero.
Qed.

Lemma scan_service_inv (w : World) (fuel : nat) (rgn svc : string)
    (acc : Lists) :
  scanned_ok w acc ->
  returns (scan_service w fuel rgn svc acc) (scanned_ok w).
Proof.
  intro Hacc. unfold scan_service.
  destruct (svc =? "ec2")%string eqn:Eec2.
  { apply String.eqb_eq in Eec2. subst svc. cbn [String.eqb Ascii.eqb Bool.eqb].
    eapply returns_bind; [apply returns_any|]. intros reservations _.
    apply returns_for_each; [|exact Hacc].
    intros x a Hx Ha. apply in_map_iff in Hx as (raw & <- & _).
    apply scan_ec2_body_inv. exact Ha. }
  destruct (svc =? "ebs")%string eqn:Eebs.
  { apply String.eqb_eq in Eebs. subst svc.
    eapply returns_bind; [apply returns_any|]. intros volumes _.
    apply returns_for_each; [|exact Hacc].
    intros x a Hx Ha. apply in_map_iff in Hx as (raw & <- & _).
    apply returns_ret. apply scan_ebs_body_inv. exact Ha. }
  destruct (svc =? "s3")%string eqn:Es3.
  { apply String.eqb_eq in Es3. subst svc. cbn [String.eqb Ascii.eqb Bool.eqb].
    eapply returns_bind; [apply returns_any|]. intros listed _.
    apply returns_for_each; [|exact Hacc].
    intros x a Hx Ha. apply scan_s3_body_inv. exact Ha. }
  destruct (svc =? "rds")%string eqn:Erds.
  { apply String.eqb_eq in Erds. subst svc. cbn [String.eqb Ascii.eqb Bool.eqb].
    eapply returns_bind; [apply returns_any|]. intros dbs _.
    apply returns_for_each; [|exact Hacc].
    intros x a Hx Ha. apply in_map_iff in Hx as (raw & <- & _).
    apply scan_rds_body_inv. exact Ha. }
  destruct (svc =? "lambda")%string eqn:Elam.
  { apply String.eqb_eq in Elam. subst svc. cbn [String.eqb Ascii.eqb Bool.eqb].
    eapply returns_bind; [apply returns_any|]. intros functions _.
    apply returns_for_each; [|exact Hacc].
    intros x a Hx Ha. apply in_map_iff in Hx as (raw & <- & _).
    apply scan_lambda_body_inv. exact Ha. }
  apply returns_ret. exact Hacc.
Qed.

Lemma scan_collect_spec (w : World) (fuel : nat) :
  returns (scan_collect w fuel) (scanned_ok w).
Proof.
  unfold scan_collect.
  eapply returns_bind; [apply returns_any|]. intros regions _.
  apply returns_for_each.
  - intros rgn acc _ Hacc. apply returns_for_each; [|exact Hacc].
    intros svc a _ Ha. apply scan_service_inv. exact Ha.
  - split; constructor.
Qed.

(** ** Who calls the notifier *)

Lemma notifications_app (t1 t2 : list Event) :
  notifications (t1 ++ t2) = notifications t1 ++ notifications t2.
Proof. unfold notifications. apply flat_map_app. Qed.

Lemma quiet_ret {A} (a : A) : quiet (ret a).
Proof. reflexivity. Qed.

Lemma quiet_throw {A} (e : JsError) : quiet (@throw A e).
Proof. reflexivity. Qed.

Lemma quiet_await {A} (p : Result A) : quiet (await p).
Proof. destruct p; reflexivity. Qed.

Lemma quiet_bind {A B} (m : M A) (k : A -> M B) :
  quiet m -> (forall a, quiet (k a)) -> quiet (bind m k).
Proof.
  unfold quiet. intros Hm Hk.
  destruct m as [t [a|e|]]; cbn [bind trace fst] in *; try exact Hm.
  specialize (Hk a). destruct (k a) as [t' r]. cbn [trace fst] in *.
  rewrite notifications_app, Hm, Hk. reflexivity.
Qed.

Lemma quiet_try_catch {A} (m : M A) (h : JsError -> M A) :
  quiet m -> (forall e, quiet (h e)) -> quiet (try_catch m h).
Proof.
  unfold quiet. intros Hm Hh.
  destruct m as [t [a|e|]]; cbn [try_catch trace fst] in *; try exact Hm.
  specialize (Hh e). destruct (h e) as [t' r]. cbn [trace fst] in *.
  rewrite notifications_app, Hm, Hh. reflexivity.
Qed.

Lemma quiet_for_each {A S} (body : A -> S -> M S) (xs : list A) (acc : S) :
  (forall x a, quiet (body x a)) -> quiet (for_each body xs acc).
Proof.
  intro Hbody. revert acc.
  induction xs as [|x xs IH]; intro acc; simpl.
  - apply quiet_ret.
  - apply quiet_bind; [apply Hbody|]. intro a. apply IH.
Qed.

Lemma quiet_paginate {X} (n : nat) (send : option string -> Result (Page X))
    (results : list X) (tok : option string) :
  quiet (paginate_loop n send results tok).
Proof.
  revert results tok. induction n as [|n IH]; intros results tok; simpl.
  - reflexivity.
  - apply quiet_bind; [apply quiet_await|]. intro data.
    destruct (truthy _); [apply IH|apply quiet_ret].
Qed.

Lemma quiet_getMetric (w : World) (cwRegion ns mn : string)
    (dims : list Dimension) (stat : string) (days : Z) :
  quiet (getMetric w cwRegion ns mn dims stat days).
Proof.
  unfold getMetric.
  apply quiet_bind; [reflexivity|]. intros _.
  apply quiet_bind; [apply quiet_await|]. intro data.
  destruct (MetricDataResults data); [apply quiet_throw|].
  destruct (stat =? "Sum")%string; apply quiet_ret.
Qed.

Lemma quiet_getHourlyPrice (w : World) (serviceCode : string)
    (filters : list PriceFilter) :
  quiet (getHourlyPrice w serviceCode filters).
Proof.
  destruct (getHourlyPrice_runs w serviceCode filters) as [price ->].
  reflexivity.
Qed.

Ltac quiet_step :=
  match goal with
  | |- quiet (bind _ _) => apply quiet_bind; [|intro]
  | |- quiet (ret _) => apply quiet_ret
  | |- quiet (throw _) => apply quiet_throw
  | |- quiet (await _) => apply quiet_await
  | |- quiet (try_catch _ _) => apply quiet_try_catch; [|intro]
  | |- quiet (getMetric _ _ _ _ _ _ _) => apply quiet_getMetric
  | |- quiet (getHourlyPrice _ _ _) => apply quiet_getHourlyPrice
  | |- quiet (paginateDescribe _ _) => apply quiet_paginate
  | |- quiet (for_each _ _ _) => apply quiet_for_each; intros
  | |- quiet (if ?c then _ else _) => destruct c
  | |- quiet (match ?x with _ => _ end) => destruct x
  end.

Lemma quiet_scan_service (w : World) (fuel : nat) (rgn svc : string)
    (acc : Lists) :
  quiet (scan_service w fuel rgn svc acc).
Proof.
  unfold scan_service, scan_ec2_body, scan_ec2_classify, scan_s3_body,
    scan_rds_body, scan_rds_classify, scan_lambda_body, scan_lambda_classify,
    bucket_location, engine_name.
  repeat quiet_step.
Qed.

Lemma quiet_scan_collect (w : World) (fuel : nat) :
  quiet (scan_collect w fuel).
Proof.
  unfold scan_collect, scan_region, getAllRegions.
  repeat quiet_step. apply quiet_scan_service.
Qed.

Lemma sendNotification_notifies (w : World) (resources : list Resource)
    (isManual : bool) :
  notifications (trace (sendNotification w resources isManual))
  = [(resources, isManual)].
Proof.
  unfold sendNotification, bind, emit, try_catch, await, throw, ret.
  destruct (negb (truthy (emailUser w)) || negb (truthy (emailPass w))
            || negb (truthy (receiverEmail w))); [reflexivity|].
  destruct (transporter_sendMail w _); reflexivity.
Qed.

(** ** The resources endpoint *)

Lemma Forall_record_ok_of_fetched (svc rgn : string) (res : list Resource * Q) :
  fetched_ok svc rgn res -> Forall record_ok (fst res).
Proof.
  intros [Hall _]. eapply Forall_impl; [|exact Hall].
  intros r [Hr _]. exact Hr.
Qed.

Lemma returns_try_catch {A} (m : M A) (h : JsError -> M A) (P : A -> Prop) :
  returns m P -> (forall e, returns (h e) P) -> returns (try_catch m h) P.
Proof.
  intros Hm Hh a H.
  destruct m as [t [a'|e|]]; cbn [try_catch] in H.
  - apply Hm. exact H.
  - apply (Hh e a). unfold outcome in *. destruct (h e). exact H.
  - discriminate H.
Qed.

Lemma api_resources_spec (w : World) (fuel : nat) (svc rgn : string) :
  returns (api_resources w fuel svc rgn) resources_response_ok.
Proof.
  unfold api_resources.
  apply returns_try_catch.
  - apply returns_bind with (P := gathered_ok).
    + destruct (svc =? "all")%string.
      * eapply returns_bind; [apply returns_any|]. intros regions _.
        apply returns_for_each; [|split; [constructor|reflexivity]].
        intros r acc _ Hacc.
        apply returns_for_each; [|exact Hacc].
        intros s [l t] _ [Hl Ht].
        eapply returns_bind; [apply fetchServiceResources_spec|].
        intros fetched Hf. apply returns_ret. cbn [fst snd] in *.
        split; cbn [fst snd].
        -- apply Forall_app. split; [exact Hl|].
           exact (Forall_record_ok_of_fetched _ _ _ Hf).
        -- destruct Hf as [_ Hsum].
           rewrite sum_monthlyCost_app, Ht, Hsum. reflexivity.
      * eapply returns_weaken; [apply fetchServiceResources_spec|].
        intros res Hf. split.
        -- exact (Forall_record_ok_of_fetched _ _ _ Hf).
        -- destruct Hf as [_ Hsum]. exact Hsum.
    + intros res [Hl Ht]. apply returns_ret.
      unfold resources_response_ok. cbn.
      split; [reflexivity|]. split; [exact Hl|].
      exists (snd res). split; [reflexivity|exact Ht].
  - intro e. apply returns_ret. reflexivity.
Qed.

(** ** Projections of the invariants *)

Lemma created_before_bound (r : Resource) (bound : Z) :
  created_before r bound = true ->
  exists t, creation r = Some t /\ (t < bound)%Z.
Proof.
  unfold created_before. destruct (creation r) as [t|]; [|discriminate].
  intro H. exists t. split; [reflexivity|]. apply Z.ltb_lt. exact H.
Qed.

Lemma Forall_record_ok_status (l : list Resource) :
  Forall record_ok l ->
  Forall (fun r => status_ok r /\ state_passed_through r) l.
Proof.
  intro H. eapply Forall_impl; [|exact H].
  intros r (Hs & _ & _ & Hp). split; assumption.
Qed.

Lemma Forall_fst {P Q : Resource -> Prop} (l : list Resource) :
  Forall (fun r => P r /\ Q r) l -> Forall P l.
Proof.
  intro H. eapply Forall_impl; [|exact H]. intros r [Hr _]. exact Hr.
Qed.

(** ** The scan handlers, step by step *)

Lemma nonempty_length (l : list Resource) :
  (0 <? Z.of_nat (List.length l))%Z = match l with [] => false | _ => true end.
Proof.
  destruct l as [|r l]; [reflexivity|].
  apply Z.ltb_lt. simpl List.length. lia.
Qed.

Lemma api_scan_unfold (w : World) (fuel : nat) (last : list Resource) :
  api_scan w fuel last
  = match scan_collect w fuel with
    | (t, Ok lists) =>
        match snd lists with
        | [] => (t, Ok (json (JsonScan (fst lists))), fst lists)
        | _ :: _ =>
            match sendNotification w (snd lists) false with
            | (t', Ok _) =>
                (t ++ t', Ok (json (JsonScan (fst lists))), fst lists)
            | (t', Throw e) =>
                (t ++ t', Ok (error500 e "Failed to scan resources"),
                 fst lists)
            | (t', Diverge) => (t ++ t', Diverge, fst lists)
            end
        end
    | (t, Throw e) =>
        (t, Ok (error500 e "Failed to scan resources"), last)
    | (t, Diverge) => (t, Diverge, last)
    end.
Proof.
  cbv beta delta [api_scan htry_catch hbind lift store_and_notify
                     set_lastUnusedResources hret].
  destruct (scan_collect w fuel) as [t [lists|e|]]; cbn [fst snd].
  - rewrite nonempty_length.
    destruct (snd lists) as [|r l]; cbn [fst snd app].
    + rewrite ?app_nil_r. reflexivity.
    + destruct (sendNotification w (r :: l) false) as [t' [msg|e|]];
        cbn [fst snd app]; rewrite ?app_nil_r; reflexivity.
  - rewrite ?app_nil_r. reflexivity.
  - reflexivity.
Qed.

Lemma scheduled_scan_unfold (w : World) (fuel : nat) (last : list Resource) :
  scheduled_scan w fuel last
  = match scan_collect w fuel with
    | (t, Ok lists) =>
        match snd lists with
        | [] => (t, Ok tt, fst lists)
        | _ :: _ =>
            match sendNotification w (snd lists) false with
            | (t', Ok _) => (t ++ t', Ok tt, fst lists)
            | (t', Throw e) => (t ++ t', Ok tt, fst lists)
            | (t', Diverge) => (t ++ t', Diverge, fst lists)
            end
        end
    | (t, Throw e) => (t, Ok tt, last)
    | (t, Diverge) => (t, Diverge, last)
    end.
Proof.
  cbv beta delta [scheduled_scan htry_catch hbind lift store_and_notify
                     set_lastUnusedResources hret].
  destruct (scan_collect w fuel) as [t [lists|e|]]; cbn [fst snd].
  - rewrite nonempty_length.
    destruct (snd lists) as [|r l]; cbn [fst snd app].
    + rewrite ?app_nil_r. reflexivity.
    + destruct (sendNotification w (r :: l) false) as [t' [msg|e|]];
        cbn [fst snd app]; rewrite ?app_nil_r; reflexivity.
  - rewrite ?app_nil_r. reflexivity.
  - reflexivity.
Qed.

Lemma Forall_record_ok_stopped (l : list Resource) :
  Forall record_ok l -> Forall stopped_is_free l.
Proof.
  intro H. eapply Forall_impl; [|exact H]. intros r (_ & Hr & _). exact Hr.
Qed.

Lemma Forall_record_ok_tiered (l : list Resource) :
  Forall record_ok l -> Forall tiered l.
Proof.
  intro H. eapply Forall_impl; [|exact H]. intros r (_ & _ & Hr & _). exact Hr.
Qed.

(** * The claims *)

(** ** Usage tiers (C1) *)

(** C1: the CPU branch labels an average [p] as [idle] when [p < 1],
    [underutilized] when [1 <= p < 10] and [used] when [10 <= p]; the
    boundaries 1 and 10 fall in the higher tier.  A running instance whose
    1-day average is measured as [p] leaves the on-demand fetch with [p]
    recorded and with the label of its tier, whatever the pricing service
    and any other query answer; so does an available database.  In the scan
    the same record is built; it is handed on when the 30-day query of that
    resource returns as well, and whatever the scan hands on carries [p] and
    the label of its tier.  Every running instance and available database in
    the result of a fetch, and in either list of a scan, carries such an
    average and the label of its tier. *)
Theorem cpu_tiers (w : World) (fuel : nat) (cwRegion svc rgn : string) :
  (forall p, tier_of p (cpuUsageStatus p))
  /\ cpuUsageStatus 1 = "underutilized"
  /\ cpuUsageStatus 10 = "used"
  /\ (forall (inst : Instance) (p total0 : Q),
        State_Name inst = "running" ->
        outcome (getMetric w cwRegion "AWS/EC2" "CPUUtilization"
                   [mkDimension "InstanceId" (Some (InstanceId inst))]
                   "Average" 1)
        = Ok p ->
        exists r t,
          outcome (fetch_ec2_body w cwRegion rgn
                     (resource_of_instance svc rgn inst) total0) = Ok (r, t)
          /\ avgCpu r = Some p /\ tier_of p (usageStatus r))
  /\ (forall (db : DBInstance) (q total0 : Q),
        DBInstanceStatus db = "available" ->
        outcome (getMetric w cwRegion "AWS/RDS" "CPUUtilization"
                   [mkDimension "DBInstanceIdentifier"
                      (Some (DBInstanceIdentifier db))] "Average" 1)
        = Ok q ->
        exists r t,
          outcome (fetch_rds_body w cwRegion rgn
                     (resource_of_db svc rgn db) total0) = Ok (r, t)
          /\ avgCpu r = Some q /\ tier_of q (usageStatus r))
  /\ (forall (inst : Instance) (p : Q),
        State_Name inst = "running" ->
        outcome (getMetric w cwRegion "AWS/EC2" "CPUUtilization"
                   [mkDimension "InstanceId" (Some (InstanceId inst))]
                   "Average" 1)
        = Ok p ->
        (forall r longMetric,
           outcome (scan_ec2_classify w cwRegion rgn
                      (resource_of_instance svc rgn inst)) = Ok (r, longMetric) ->
           avgCpu r = Some p /\ tier_of p (usageStatus r))
        /\ (forall long_p,
              outcome (getMetric w cwRegion "AWS/EC2" "CPUUtilization"
                         [mkDimension "InstanceId" (Some (InstanceId inst))]
                         "Average" 30)
              = Ok long_p ->
              exists r,
                outcome (scan_ec2_classify w cwRegion rgn
                           (resource_of_instance svc rgn inst))
                = Ok (r, long_p)))
  /\ (forall (db : DBInstance) (q : Q),
        DBInstanceStatus db = "available" ->
        outcome (getMetric w cwRegion "AWS/RDS" "CPUUtilization"
                   [mkDimension "DBInstanceIdentifier"
                      (Some (DBInstanceIdentifier db))] "Average" 1)
        = Ok q ->
        (forall r longMetric,
           outcome (scan_rds_classify w cwRegion rgn
                      (resource_of_db svc rgn db)) = Ok (r, longMetric) ->
           avgCpu r = Some q /\ tier_of q (usageStatus r))
        /\ (forall long_q,
              outcome (getMetric w cwRegion "AWS/RDS" "CPUUtilization"
                         [mkDimension "DBInstanceIdentifier"
                            (Some (DBInstanceIdentifier db))] "Average" 30)
              = Ok long_q ->
              exists r,
                outcome (scan_rds_classify w cwRegion rgn
                           (resource_of_db svc rgn db))
                = Ok (r, long_q)))
  /\ (forall resources total,
        outcome (fetchServiceResources w fuel svc rgn) = Ok (resources, total) ->
        Forall tiered resources)
  /\ (forall unused longIdle,
        outcome (scan_collect w fuel) = Ok (unused, longIdle) ->
        Forall tiered unused /\ Forall tiered longIdle).
Proof.
  split; [exact tier_of_cpuUsageStatus|].
  split; [reflexivity|]. split; [reflexivity|].
  split; [|split; [|split; [|split; [|split]]]].
  - intros inst p total0 Hrun Hp.
    destruct (fetch_ec2_running w cwRegion svc rgn inst p total0 Hrun Hp)
      as (r & t & Hr & Hcpu & Hst).
    exists r, t. rewrite Hst. auto using tier_of_cpuUsageStatus.
  - intros db q total0 Havail Hq.
    destruct (fetch_rds_available w cwRegion svc rgn db q total0 Havail Hq)
      as (r & t & Hr & Hcpu & Hst).
    exists r, t. rewrite Hst. auto using tier_of_cpuUsageStatus.
  - intros inst p Hrun Hp. split.
    + intros r longMetric H.
      destruct (scan_ec2_classified w cwRegion svc rgn inst p longMetric r
                  Hrun Hp H) as [Hcpu Hst].
      rewrite Hst. auto using tier_of_cpuUsageStatus.
    + intros long_p Hlp.
      destruct (scan_ec2_running w cwRegion svc rgn inst p long_p Hrun Hp Hlp)
        as (r & Hr & _).
      exists r. exact Hr.
  - intros db q Havail Hq. split.
    + intros r longMetric H.
      destruct (scan_rds_classified w cwRegion svc rgn db q longMetric r
                  Havail Hq H) as [Hcpu Hst].
      rewrite Hst. auto using tier_of_cpuUsageStatus.
    + intros long_q Hlq.
      destruct (scan_rds_available w cwRegion svc rgn db q long_q Havail Hq Hlq)
        as (r & Hr & _).
      exists r. exact Hr.
  - intros resources total H.
    apply fetchServiceResources_spec in H.
    apply Forall_record_ok_tiered.
    exact (Forall_record_ok_of_fetched _ _ _ H).
  - intros unused longIdle H.
    apply scan_collect_spec in H. destruct H as [Hu Hl]. cbn [fst snd] in *.
    split; apply Forall_record_ok_tiered; [exact Hu|].
    exact (Forall_fst _ Hl).
Qed.

Lemma cpu_tiers_witness :
  State_Name running_instance = "running"
  /\ outcome (getMetric
                (without_pricing
                   (sample_world None [running_instance] [] [] []))
                "us-east-1" "AWS/EC2" "CPUUtilization"
                [mkDimension "InstanceId" (Some (InstanceId running_instance))]
                "Average" 1)
     = Ok (12 # 2)
  /\ exists r t,
       outcome (fetch_ec2_body
                  (without_pricing
                     (sample_world None [running_instance] [] [] []))
                  "us-east-1" "us-east-1"
                  (resource_of_instance "ec2" "us-east-1" running_instance) 0)
       = Ok (r, t)
       /\ avgCpu r = Some (12 # 2)
       /\ usageStatus r = "underutilized".
Proof.
  split; [reflexivity|]. split; [vm_compute; reflexivity|].
  destruct (cpu_tiers
              (without_pricing (sample_world None [running_instance] [] [] []))
              1 "us-east-1" "ec2" "us-east-1")
    as (_ & _ & _ & Hfetch & _).
  destruct (Hfetch running_instance (12 # 2) 0)
    as (r & t & Hr & Hcpu & Htier);
    try (vm_compute; reflexivity).
  exists r, t. split; [exact Hr|]. split; [exact Hcpu|].
  destruct Htier as (_ & Hmid & _). apply Hmid.
  unfold Qle, Qlt. simpl. lia.
Defined.

(** ** Long-idle resources (C2) *)

(** C2 fails as worded: a detached volume created 100 days before the scan
    is put in [longIdleResources] although it is not stopped and no 30-day
    aggregate is looked at for volumes. *)
Lemma long_idle_volume_without_aggregate :
  exists r,
    outcome (scan_collect (sample_world None [] [detached_volume] [] []) 1)
    = Ok ([r], [r])
    /\ service r = "ebs" /\ state r = Some "available"
    /\ ~ long_idle_rule (sample_world None [] [detached_volume] [] []) r.
Proof.
  eexists. split; [vm_compute; reflexivity|].
  split; [reflexivity|]. split; [reflexivity|].
  intros [_ [Hstop|Hquiet]].
  - discriminate Hstop.
  - destruct Hquiet as [[E _]|[[E _]|[[E _]|[E _]]]]; discriminate E.
Qed.

(** C2, amended: whatever the scan puts in [longIdleResources] was created
    before [now - 30 days] and is a stopped instance or database, or shows no
    activity in the 30-day aggregate of its kind (CPU average < 1 for an
    instance that is [running] and for a database that is [available],
    invocation sum = 0 for functions, object-count average = 0 for
    buckets), or is a volume in state [available]; a resource created 5 days
    before the scan is never in it. *)
Theorem long_idle_only_if_old_and_idle (w : World) (fuel : nat)
    (unused longIdle : list Resource) (r : Resource) :
  outcome (scan_collect w fuel) = Ok (unused, longIdle) ->
  In r longIdle ->
  long_idle_rule_with_volumes w r
  /\ (exists t, creation r = Some t /\ (t < now w - 30 * day)%Z)
  /\ creation r <> Some (now w - 5 * day)%Z.
Proof.
  intros Hscan Hin.
  destruct (scan_collect_spec w fuel _ Hscan) as [_ Hlong].
  cbn [snd] in Hlong. rewrite Forall_forall in Hlong.
  destruct (Hlong r Hin) as [_ Hrule].
  split; [exact Hrule|].
  destruct Hrule as [Hold _].
  apply created_before_bound in Hold as (t & Ht & Hlt).
  unfold thirtyDaysAgo in Hlt. unfold day.
  split.
  - exists t. split; [exact Ht|]. lia.
  - rewrite Ht. intros [= E]. lia.
Qed.

Lemma long_idle_only_if_old_and_idle_witness :
  outcome (scan_collect
             (sample_world None [stopped_instance; recent_instance] [] [] []) 1)
  = Ok ([spread "ec2" "us-east-1"
           (set_monthlyCost 0 (set_usageStatus "stopped"
              (resource_of_instance "ec2" "us-east-1" stopped_instance)));
         spread "ec2" "us-east-1"
           (set_monthlyCost 0 (set_usageStatus "stopped"
              (resource_of_instance "ec2" "us-east-1" recent_instance)))],
        [spread "ec2" "us-east-1"
           (set_monthlyCost 0 (set_usageStatus "stopped"
              (resource_of_instance "ec2" "us-east-1" stopped_instance)))])
  /\ long_idle_rule_with_volumes
       (sample_world None [stopped_instance; recent_instance] [] [] [])
       (set_monthlyCost 0 (set_usageStatus "stopped"
          (resource_of_instance "ec2" "us-east-1" stopped_instance))).
Proof.
  split; [vm_compute; reflexivity|].
  eapply (long_idle_only_if_old_and_idle
            (sample_world None [stopped_instance; recent_instance] [] [] []) 1).
  - vm_compute. reflexivity.
  - left. reflexivity.
Defined.

(** ** Usage status (C3) *)

(** C3 fails as worded: an instance the provider reports as [pending] is
    handed out with [usageStatus = 'pending'], the provider's state string. *)
Lemma pending_instance_keeps_provider_state :
  exists r total,
    outcome (fetchServiceResources
               (sample_world None [pending_instance] [] [] []) 1
               "ec2" "us-east-1")
    = Ok ([r], total)
    /\ usageStatus r = State_Name pending_instance
    /\ ~ derived_status (usageStatus r).
Proof.
  eexists. eexists. split; [vm_compute; reflexivity|].
  split; [reflexivity|].
  intros [H|[H|[H|H]]]; discriminate H.
Qed.

(** C3, amended: every record handed out by the fetch, by
    [GET /api/resources] and by the scan (in either list) has a usage status
    among [used], [idle], [underutilized], [stopped], except an instance that
    is neither [running] nor [stopped] and a database that is neither
    [available] nor [stopped]: the usage status of those is the provider's
    state string, whatever that string is. *)
Theorem usage_status_derived_or_passthrough (w : World) (fuel : nat)
    (svc rgn : string) :
  (forall resources total,
     outcome (fetchServiceResources w fuel svc rgn) = Ok (resources, total) ->
     Forall (fun r => status_ok r /\ state_passed_through r) resources)
  /\ (forall resp resources rendered,
        outcome (api_resources w fuel svc rgn) = Ok resp ->
        body resp = JsonResources resources rendered ->
        Forall (fun r => status_ok r /\ state_passed_through r) resources)
  /\ (forall unused longIdle,
        outcome (scan_collect w fuel) = Ok (unused, longIdle) ->
        Forall (fun r => status_ok r /\ state_passed_through r) unused
        /\ Forall (fun r => status_ok r /\ state_passed_through r) longIdle).
Proof.
  split; [|split].
  - intros resources total H.
    apply fetchServiceResources_spec in H.
    apply Forall_record_ok_status.
    exact (Forall_record_ok_of_fetched _ _ _ H).
  - intros resp resources rendered H Hbody.
    apply api_resources_spec in H. unfold resources_response_ok in H.
    rewrite Hbody in H. destruct H as (_ & Hall & _).
    apply Forall_record_ok_status. exact Hall.
  - intros unused longIdle H.
    apply scan_collect_spec in H. destruct H as [Hu Hl]. cbn [fst snd] in *.
    split; apply Forall_record_ok_status; [exact Hu|].
    exact (Forall_fst _ Hl).
Qed.

Lemma usage_status_derived_or_passthrough_witness :
  outcome (fetchServiceResources
             (sample_world None [pending_instance; stopped_instance] [] [] [])
             1 "ec2" "us-east-1")
  = Ok ([resource_of_instance "ec2" "us-east-1" pending_instance;
         set_monthlyCost 0 (set_usageStatus "stopped"
           (resource_of_instance "ec2" "us-east-1" stopped_instance))], 0)
  /\ Forall (fun r => status_ok r /\ state_passed_through r)
       [resource_of_instance "ec2" "us-east-1" pending_instance;
        set_monthlyCost 0 (set_usageStatus "stopped"
          (resource_of_instance "ec2" "us-east-1" stopped_instance))].
Proof.
  split; [vm_compute; reflexivity|].
  destruct (usage_status_derived_or_passthrough
              (sample_world None [pending_instance; stopped_instance] [] [] [])
              1 "ec2" "us-east-1") as [Hfetch _].
  apply (Hfetch _ 0). vm_compute. reflexivity.
Defined.

(** ** Failure of a scan (C4) *)

(** C4 fails as worded: with a long-idle instance and no mail configuration
    the notifier throws after the assignment, so [GET /api/scan] answers an
    error although [lastUnusedResources] has gone from empty to the unused
    list of this scan. *)
Lemma scan_error_after_store :
  exists r,
    api_scan (sample_world None [stopped_instance] [] [] []) 1 []
    = ([EvSendNotification [r] false],
       Ok (mkResponse 500 (JsonError "Missing email configuration in .env")),
       [r])
    /\ is_error (snd (fst (api_scan (sample_world None [stopped_instance]
                                       [] [] []) 1 [])))
    /\ snd (api_scan (sample_world None [stopped_instance] [] [] []) 1 [])
       <> [].
Proof.
  eexists. split; [vm_compute; reflexivity|]. split.
  - eexists. vm_compute. reflexivity.
  - vm_compute. discriminate.
Qed.

(** C4, amended: a rejected region listing, and an error in any region
    once the regions before it are done, end the loops of the scan with that
    error; when an error propagates out of the loops of a scan (the
    region listing, an enumeration or a metric query) [GET /api/scan]
    answers HTTP 500 with that error, hands out none of the accumulated
    records, calls no notifier and leaves [lastUnusedResources] as it was;
    when the loops complete and the notifier throws, it answers HTTP 500 as
    well, but [lastUnusedResources] already holds the unused list of this
    scan.  An error answer arises in these two ways only. *)
Theorem scan_failure_surfaces (w : World) (fuel : nat) (last : list Resource) :
  (forall e,
     ec2_DescribeRegions w = Rejected e ->
     outcome (scan_collect w fuel) = Throw e)
  /\ (forall names before rgn after acc e,
        ec2_DescribeRegions w = Resolved names ->
        sort_strings names = before ++ rgn :: after ->
        outcome (for_each (scan_region w fuel) before ([], [])) = Ok acc ->
        outcome (scan_region w fuel rgn acc) = Throw e ->
        outcome (scan_collect w fuel) = Throw e)
  /\ (forall e,
     outcome (scan_collect w fuel) = Throw e ->
     api_scan w fuel last
     = (trace (scan_collect w fuel),
        Ok (error500 e "Failed to scan resources"), last)
     /\ notifications (fst (fst (api_scan w fuel last))) = [])
  /\ (forall unused longIdle e,
        outcome (scan_collect w fuel) = Ok (unused, longIdle) ->
        longIdle <> [] ->
        outcome (sendNotification w longIdle false) = Throw e ->
        snd (fst (api_scan w fuel last))
        = Ok (error500 e "Failed to scan resources")
        /\ snd (api_scan w fuel last) = unused)
  /\ (is_error (snd (fst (api_scan w fuel last))) ->
      (exists e,
         outcome (scan_collect w fuel) = Throw e
         /\ snd (api_scan w fuel last) = last)
      \/ (exists unused longIdle e,
            outcome (scan_collect w fuel) = Ok (unused, longIdle)
            /\ longIdle <> []
            /\ outcome (sendNotification w longIdle false) = Throw e
            /\ snd (api_scan w fuel last) = unused)).
Proof.
  split.
  { intros e Hreject. unfold scan_collect, getAllRegions.
    rewrite Hreject. reflexivity. }
  split.
  { intros names before rgn after acc e Hnames Hsplit Hbefore Hrgn.
    unfold scan_collect, getAllRegions. rewrite Hnames. cbn [await].
    rewrite !bind_ret_l, Hsplit.
    exact (for_each_aborts _ _ _ _ _ _ _ Hbefore Hrgn). }
  rewrite api_scan_unfold.
  pose proof (quiet_scan_collect w fuel) as Hquiet. unfold quiet in Hquiet.
  destruct (scan_collect w fuel) as [t [[unused longIdle]|e|]];
    cbn [outcome trace fst snd] in *.
  - split; [intros e H; discriminate H|]. split.
    + intros u l e [= <- <-] Hne Hsend.
      destruct longIdle as [|r l]; [contradiction|].
      destruct (sendNotification w (r :: l) false) as [t' [msg|e'|]];
        cbn [outcome snd] in Hsend; try discriminate Hsend.
      injection Hsend as ->. split; reflexivity.
    + intros [msg Herr]. right.
      destruct longIdle as [|r l]; [discriminate Herr|].
      destruct (sendNotification w (r :: l) false) as [t' [m|e'|]] eqn:Es;
        cbn [fst snd] in Herr; try discriminate Herr.
      exists unused, (r :: l), e'.
      split; [reflexivity|]. split; [discriminate|].
      rewrite Es. split; reflexivity.
  - split; [|split].
    + intros e' [= <-]. split; [reflexivity|exact Hquiet].
    + intros u l e' H. discriminate H.
    + intros _. left. exists e. split; reflexivity.
  - split; [intros e H; discriminate H|]. split.
    + intros u l e H. discriminate H.
    + intros [msg Herr]. discriminate Herr.
Qed.

Lemma scan_failure_surfaces_witness :
  outcome (scan_collect
             (without_metrics
                (sample_world None [running_instance] [] [] [])) 1)
  = Throw (Error "Throttling")
  /\ snd (api_scan
            (without_metrics (sample_world None [running_instance] [] [] []))
            1 [resource_of_instance "ec2" "us-east-1" stopped_instance])
     = [resource_of_instance "ec2" "us-east-1" stopped_instance]
  /\ snd (fst (api_scan
                 (without_metrics
                    (sample_world None [running_instance] [] [] []))
                 1 [resource_of_instance "ec2" "us-east-1" stopped_instance]))
     = Ok (mkResponse 500 (JsonError "Throttling")).
Proof.
  destruct (scan_failure_surfaces
              (without_metrics (sample_world None [running_instance] [] [] []))
              1 [resource_of_instance "ec2" "us-east-1" stopped_instance])
    as (_ & _ & Hloops & _).
  destruct (Hloops (Error "Throttling")) as [Hrun _];
    [vm_compute; reflexivity|].
  split; [vm_compute; reflexivity|].
  rewrite Hrun. split; reflexivity.
Defined.

(** ** Notification (C5) *)

(** C5: in [GET /api/scan] and in the scheduled job alike, the notifier is
    not called when the accumulated long-idle list is empty (nor when the
    loops do not complete), and is called exactly once, with that list and
    [isManual = false], when the list is not empty. *)
Theorem notifier_called_once_iff_long_idle (w : World) (fuel : nat)
    (last : list Resource) :
  notifications (fst (fst (api_scan w fuel last)))
  = match outcome (scan_collect w fuel) with
    | Ok (_, []) => []
    | Ok (_, longIdle) => [(longIdle, false)]
    | _ => []
    end
  /\ notifications (fst (fst (scheduled_scan w fuel last)))
     = match outcome (scan_collect w fuel) with
       | Ok (_, []) => []
       | Ok (_, longIdle) => [(longIdle, false)]
       | _ => []
       end.
Proof.
  rewrite api_scan_unfold, scheduled_scan_unfold.
  pose proof (quiet_scan_collect w fuel) as Hquiet. unfold quiet in Hquiet.
  destruct (scan_collect w fuel) as [t [[unused longIdle]|e|]];
    cbn [outcome trace fst snd] in *; auto.
  destruct longIdle as [|r l]; cbn [fst snd]; auto.
  pose proof (sendNotification_notifies w (r :: l) false) as Hsend.
  destruct (sendNotification w (r :: l) false) as [t' [msg|e|]];
    cbn [trace fst snd] in *;
    rewrite notifications_app, Hquiet, Hsend; auto.
Qed.

Lemma notifier_called_once_iff_long_idle_witness :
  notifications
    (fst (fst (api_scan (sample_world (Some "ops@example.com")
                           [stopped_instance; recent_instance] [] [] [])
                 1 [])))
  = [([set_monthlyCost 0 (set_usageStatus "stopped"
         (resource_of_instance "ec2" "us-east-1" stopped_instance))], false)]
  /\ notifications
       (fst (fst (api_scan (sample_world (Some "ops@example.com")
                              [recent_instance] [] [] [])
                    1 [])))
     = [].
Proof.
  split.
  - destruct (notifier_called_once_iff_long_idle
                (sample_world (Some "ops@example.com")
                   [stopped_instance; recent_instance] [] [] []) 1 [])
      as [Hscan _].
    rewrite Hscan. vm_compute. reflexivity.
  - destruct (notifier_called_once_iff_long_idle
                (sample_world (Some "ops@example.com")
                   [recent_instance] [] [] []) 1 [])
      as [Hscan _].
    rewrite Hscan. vm_compute. reflexivity.
Defined.

(** ** Stopped instances and databases (C6) *)

(** C6: an instance or a database whose provider state is [stopped] goes
    through the body of the fetch and of the scan without any remote call
    (so without a price query), whatever its type or engine, and comes out
    labelled [stopped] with [monthlyCost = 0]; every stopped instance or
    database in the result of a fetch, and in either list of a scan, has
    [monthlyCost = 0]. *)
Theorem stopped_costs_nothing (w : World) (fuel : nat)
    (cwRegion svc rgn : string) (inst : Instance) (db : DBInstance)
    (total0 : Q) :
  State_Name inst = "stopped" ->
  DBInstanceStatus db = "stopped" ->
  (exists r,
     fetch_ec2_body w cwRegion rgn (resource_of_instance svc rgn inst) total0
     = ([], Ok (r, total0))
     /\ usageStatus r = "stopped" /\ monthlyCost r = 0)
  /\ (exists r,
        scan_ec2_classify w cwRegion rgn (resource_of_instance svc rgn inst)
        = ([], Ok (r, 0))
        /\ usageStatus r = "stopped" /\ monthlyCost r = 0)
  /\ (exists r,
        fetch_rds_body w cwRegion rgn (resource_of_db svc rgn db) total0
        = ([], Ok (r, total0))
        /\ usageStatus r = "stopped" /\ monthlyCost r = 0)
  /\ (exists r,
        scan_rds_classify w cwRegion rgn (resource_of_db svc rgn db)
        = ([], Ok (r, 0))
        /\ usageStatus r = "stopped" /\ monthlyCost r = 0)
  /\ (forall resources total,
        outcome (fetchServiceResources w fuel svc rgn) = Ok (resources, total) ->
        Forall stopped_is_free resources)
  /\ (forall unused longIdle,
        outcome (scan_collect w fuel) = Ok (unused, longIdle) ->
        Forall stopped_is_free unused /\ Forall stopped_is_free longIdle).
Proof.
  intros Hinst Hdb.
  split; [|split; [|split; [|split; [|split]]]].
  - unfold fetch_ec2_body, state_is. cbn [state resource_of_instance].
    rewrite Hinst. cbn. eexists. split; [reflexivity|]. split; reflexivity.
  - unfold scan_ec2_classify, state_is. cbn [state resource_of_instance].
    rewrite Hinst. cbn. eexists. split; [reflexivity|]. split; reflexivity.
  - unfold fetch_rds_body, state_is. cbn [state resource_of_db].
    rewrite Hdb. cbn. eexists. split; [reflexivity|]. split; reflexivity.
  - unfold scan_rds_classify, state_is. cbn [state resource_of_db].
    rewrite Hdb. cbn. eexists. split; [reflexivity|]. split; reflexivity.
  - intros resources total H.
    apply fetchServiceResources_spec in H.
    apply Forall_record_ok_stopped.
    exact (Forall_record_ok_of_fetched _ _ _ H).
  - intros unused longIdle H.
    apply scan_collect_spec in H. destruct H as [Hu Hl]. cbn [fst snd] in *.
    split; apply Forall_record_ok_stopped; [exact Hu|].
    exact (Forall_fst _ Hl).
Qed.

Lemma stopped_costs_nothing_witness :
  State_Name stopped_instance = "stopped"
  /\ DBInstanceStatus stopped_db = "stopped"
  /\ exists r,
       fetch_ec2_body (sample_world None [stopped_instance] [] [stopped_db] [])
         "us-east-1" "us-east-1"
         (resource_of_instance "ec2" "us-east-1" stopped_instance) 0
       = ([], Ok (r, 0))
       /\ usageStatus r = "stopped" /\ monthlyCost r = 0.
Proof.
  split; [reflexivity|]. split; [reflexivity|].
  apply (stopped_costs_nothing
           (sample_world None [stopped_instance] [] [stopped_db] []) 1
           "us-east-1" "ec2" "us-east-1" stopped_instance stopped_db 0);
    reflexivity.
Defined.

(** ** Function cost (C7) *)

(** C7: for a function whose 1-day invocation sum is [i >= 0], the fetch
    and the scan both leave [monthlyCost = 0] when [i = 0] and
    [(i * 0.0000002 + ((d / 1000) * i * (memory / 1024)) * 0.0000166667) * 30]
    when [i > 0], where [d] is the 1-day average duration in ms, queried only
    then; with a duration and a memory size that are not negative the cost is
    0 exactly when [i = 0].  1000 invocations of 200 ms at 512 MB cost
    0.0560001. *)
Theorem lambda_monthly_cost (w : World) (cwRegion svc rgn : string)
    (fn : LambdaFunction) (i d total0 : Q) :
  outcome (getMetric w cwRegion "AWS/Lambda" "Invocations"
             [mkDimension "FunctionName" (Some (FunctionName fn))] "Sum" 1)
    = Ok i ->
  (0 < i ->
   outcome (getMetric w cwRegion "AWS/Lambda" "Duration"
              [mkDimension "FunctionName" (Some (FunctionName fn))]
              "Average" 1)
   = Ok d) ->
  0 <= i ->
  (exists r t,
     outcome (fetch_lambda_body w cwRegion
                (resource_of_function w svc rgn fn) total0) = Ok (r, t)
     /\ invocations r = Some i
     /\ (i == 0 -> monthlyCost r = 0)
     /\ (0 < i ->
         monthlyCost r
         == (i * 0.0000002
             + ((d / 1000) * i * (MemorySize fn / 1024)) * 0.0000166667) * 30)
     /\ (0 <= d -> 0 <= MemorySize fn -> (monthlyCost r == 0 <-> i == 0)))
  /\ (exists r,
        outcome (scan_lambda_classify w cwRegion
                   (resource_of_function w svc rgn fn)) = Ok r
        /\ invocations r = Some i
        /\ (i == 0 -> monthlyCost r = 0)
        /\ (0 < i ->
            monthlyCost r
            == (i * 0.0000002
                + ((d / 1000) * i * (MemorySize fn / 1024)) * 0.0000166667)
               * 30)
        /\ (0 <= d -> 0 <= MemorySize fn -> (monthlyCost r == 0 <-> i == 0)))
  /\ lambda_cost 1000 200 512 == 0.0560001
  /\ Qabs (lambda_cost 1000 200 512 - 0.0560) < 0.000001.
Proof.
  intros Hinv Hdur Hi.
  split; [|split; [|split]].
  - destruct (fetch_lambda_runs w cwRegion svc rgn fn i d total0 Hinv Hdur)
      as (r & t & Hr & Hcount & Hcost).
    exists r, t. split; [exact Hr|]. split; [exact Hcount|].
    exact (lambda_cost_cases i d (MemorySize fn) _ Hi Hcost).
  - destruct (scan_lambda_runs w cwRegion svc rgn fn i d Hinv Hdur)
      as (r & Hr & Hcount & Hcost).
    exists r. split; [exact Hr|]. split; [exact Hcount|].
    exact (lambda_cost_cases i d (MemorySize fn) _ Hi Hcost).
  - reflexivity.
  - reflexivity.
Qed.

Lemma lambda_monthly_cost_witness :
  exists r t,
    outcome (fetch_lambda_body
               (sample_world None [] [] [] [busy_function]) "us-east-1"
               (resource_of_function
                  (sample_world None [] [] [] [busy_function])
                  "lambda" "us-east-1" busy_function) 0)
    = Ok (r, t)
    /\ invocations r = Some 1000
    /\ monthlyCost r == 0.0560001.
Proof.
  destruct (lambda_monthly_cost
              (sample_world None [] [] [] [busy_function])
              "us-east-1" "lambda" "us-east-1" busy_function 1000 200 0)
    as [(r & t & Hr & Hcount & _ & Hcost & _) _];
    try (vm_compute; reflexivity);
    try (unfold Qle; simpl; lia).
  exists r, t. split; [exact Hr|]. split; [exact Hcount|].
  rewrite Hcost by reflexivity. reflexivity.
Defined.

(** ** Metric gateway (C8) *)

(** C8: [getMetric] sends one query whose period is 3600 s when
    [days <= 1] and 86400 s otherwise; on an answer with a first result it
    returns the arithmetic sum of the samples for the statistic [Sum] and
    their arithmetic mean for [Average], which is 0 in both cases when
    there is no sample. *)
Theorem getMetric_sum_or_mean (w : World) (cwRegion ns mn : string)
    (dims : list Dimension) (stat : string) (days : Z)
    (data : GetMetricDataOutput) (r0 : MetricDataResult)
    (rest : list MetricDataResult) :
  cw_GetMetricData w cwRegion (metric_params w ns mn dims stat days)
    = Resolved data ->
  MetricDataResults data = r0 :: rest ->
  exists v,
    getMetric w cwRegion ns mn dims stat days
      = ([EvGetMetricData cwRegion (metric_params w ns mn dims stat days)],
         Ok v)
    /\ (stat = "Sum" -> v == total (samples r0))
    /\ (stat = "Average" -> v == mean (samples r0))
    /\ (samples r0 = [] -> v == 0)
    /\ ((days <= 1)%Z ->
        map (fun q => Period (query_MetricStat q))
          (MetricDataQueries (metric_params w ns mn dims stat days))
        = [3600%Z])
    /\ ((1 < days)%Z ->
        map (fun q => Period (query_MetricStat q))
          (MetricDataQueries (metric_params w ns mn dims stat days))
        = [86400%Z]).
Proof.
  intros Hsend Hfirst.
  unfold getMetric, bind, emit, await.
  rewrite Hsend. simpl. rewrite Hfirst.
  destruct (stat =? "Sum")%string eqn:Hstat; simpl;
    eexists; (split; [reflexivity|]).
  - split; [intros _; apply sum_values_total|].
    split; [intros ->; discriminate Hstat|].
    split; [intros ->; reflexivity|].
    split; intro Hd.
    + apply Z.leb_le in Hd. rewrite Hd. reflexivity.
    + apply Z.leb_gt in Hd. rewrite Hd. reflexivity.
  - split; [intros ->; discriminate Hstat|].
    split; [intros _; apply mean_of_samples|].
    split; [intros ->; reflexivity|].
    split; intro Hd.
    + apply Z.leb_le in Hd. rewrite Hd. reflexivity.
    + apply Z.leb_gt in Hd. rewrite Hd. reflexivity.
Qed.

Lemma getMetric_sum_or_mean_witness :
  exists v,
    getMetric (sample_world None [] [] [] [busy_function]) "us-east-1"
      "AWS/Lambda" "Invocations"
      [mkDimension "FunctionName" (Some "fn-1")] "Sum" 30
    = ([EvGetMetricData "us-east-1"
          (metric_params (sample_world None [] [] [] [busy_function])
             "AWS/Lambda" "Invocations"
             [mkDimension "FunctionName" (Some "fn-1")] "Sum" 30)],
       Ok v)
    /\ v == 1000
    /\ map (fun q => Period (query_MetricStat q))
         (MetricDataQueries
            (metric_params (sample_world None [] [] [] [busy_function])
               "AWS/Lambda" "Invocations"
               [mkDimension "FunctionName" (Some "fn-1")] "Sum" 30))
       = [86400%Z].
Proof.
  destruct (getMetric_sum_or_mean
              (sample_world None [] [] [] [busy_function]) "us-east-1"
              "AWS/Lambda" "Invocations"
              [mkDimension "FunctionName" (Some "fn-1")] "Sum" 30
              (mkGetMetricDataOutput [mkMetricDataResult (Some [600; 400])])
              (mkMetricDataResult (Some [600; 400])) [] eq_refl eq_refl)
    as (v & Hrun & Hsum & _ & _ & _ & Hdaily).
  exists v. split; [exact Hrun|]. split.
  - rewrite Hsum by reflexivity. reflexivity.
  - apply Hdaily. reflexivity.
Defined.

(** ** Price gateway (C9) *)

(** C9: [getHourlyPrice] always returns a number and sends exactly one
    product query: the price of the first entry when there is one that
    decodes, and 0 when the query is rejected, the list is missing or empty,
    or the entry does not decode; so whatever follows it in the caller
    runs. *)
Theorem getHourlyPrice_never_throws (w : World) (serviceCode : string)
    (filters : list PriceFilter) :
  exists price,
    getHourlyPrice w serviceCode filters
      = ([EvGetProducts (price_params serviceCode filters)], Ok price)
    /\ MaxResults (price_params serviceCode filters) = 1%Z
    /\ match pricing_GetProducts w (price_params serviceCode filters) with
       | Rejected _ => price = 0
       | Resolved data =>
           match PriceList data with
           | Some (PricedEntry usd :: _) => price = usd
           | Some (UndecodableEntry _ :: _) => price = 0
           | Some [] => price = 0
           | None => price = 0
           end
       end
    /\ forall (B : Type) (k : Q -> M B),
         outcome (bind (getHourlyPrice w serviceCode filters) k)
         = outcome (k price).
Proof.
  unfold getHourlyPrice, getHourlyPrice_try, try_catch, bind, emit, await.
  destruct (pricing_GetProducts w (price_params serviceCode filters))
    as [data|e]; simpl.
  - destruct (PriceList data) as [[|[e|usd] l]|]; simpl;
      eexists; (split; [reflexivity|]); (split; [reflexivity|]);
      (split; [reflexivity|]); intros B k; destruct (k _); reflexivity.
  - eexists; (split; [reflexivity|]); (split; [reflexivity|]);
      (split; [reflexivity|]); intros B k; destruct (k _); reflexivity.
Qed.

Lemma getHourlyPrice_never_throws_witness :
  getHourlyPrice
    (without_pricing (sample_world None [running_instance] [] [] []))
    "AmazonEC2" []
  = ([EvGetProducts (price_params "AmazonEC2" [])], Ok 0).
Proof.
  destruct (getHourlyPrice_never_throws
              (without_pricing (sample_world None [running_instance] [] [] []))
              "AmazonEC2" [])
    as (price & Hrun & _ & Hprice & _).
  cbn in Hprice. rewrite Hrun, Hprice. reflexivity.
Defined.

(** ** Total cost (C10) *)




(** * Further properties *)

(** ** Pagination *)

Lemma paginate_loop_collects {X : Type}
    (send : option string -> Result (Page X)) (pages : list (Page X))
    (p : Page X) :
  truthy (continuation p) = false ->
  forall (n : nat) (results : list X) (tok : option string),
    chain send tok pages (Resolved p) ->
    (List.length pages < n)%nat ->
    paginate_loop n send results tok
    = ([], Ok (results ++ flat_map items_of (pages ++ [p]))).
Proof.
  intro Hlast. induction pages as [|q pages IH]; intros n results tok Hchain Hn.
  - destruct n as [|n]; [simpl in Hn; lia|].
    simpl in Hchain. simpl. rewrite Hchain. cbn [await].
    rewrite bind_ret_l. fold (continuation p). rewrite Hlast.
    unfold items_of. destruct (page_items p); rewrite ?app_nil_r; reflexivity.
  - destruct n as [|n]; [simpl in Hn; lia|].
    destruct Hchain as (Hsend & Hmore & Hrest).
    simpl. rewrite Hsend. cbn [await]. rewrite bind_ret_l.
    fold (continuation q). rewrite Hmore.
    rewrite (IH n _ _ Hrest) by (simpl in Hn; lia).
    unfold items_of at 2. destruct (page_items q);
      rewrite ?app_nil_r, <- ?app_assoc; reflexivity.
Qed.

(** X1: when the provider serves a finite chain of pages, each announcing
    the next by [NextToken] or [Marker] and the last announcing none,
    [paginateDescribe] returns the items of all the pages, in order; a page
    without the result key adds nothing. *)
Theorem paginateDescribe_collects {X : Type} (fuel : nat)
    (send : option string -> Result (Page X)) (pages : list (Page X))
    (p : Page X) :
  chain send None pages (Resolved p) ->
  truthy (continuation p) = false ->
  (List.length pages < fuel)%nat ->
  paginateDescribe fuel send = ([], Ok (flat_map items_of (pages ++ [p]))).
Proof.
  intros Hchain Hlast Hfuel. unfold paginateDescribe.
  rewrite (paginate_loop_collects send pages p Hlast fuel [] None Hchain Hfuel).
  reflexivity.
Qed.

Lemma paginateDescribe_collects_witness :
  paginateDescribe 3 three_pages = ([], Ok ["a"; "b"; "c"]).
Proof.
  apply (paginateDescribe_collects 3 three_pages
           [mkPage (Some ["a"; "b"]) (Some "t1") None;
            mkPage None None (Some "t2")]
           (mkPage (Some ["c"]) None None)).
  - simpl. repeat split; reflexivity.
  - reflexivity.
  - simpl. lia.
Defined.

Lemma paginate_loop_rejects {X : Type}
    (send : option string -> Result (Page X)) (pages : list (Page X))
    (e : JsError) :
  forall (n : nat) (results : list X) (tok : option string),
    chain send tok pages (Rejected e) ->
    (List.length pages < n)%nat ->
    paginate_loop n send results tok = ([], Throw e).
Proof.
  induction pages as [|q pages IH]; intros n results tok Hchain Hn.
  - destruct n as [|n]; [simpl in Hn; lia|].
    simpl in Hchain. simpl. rewrite Hchain. reflexivity.
  - destruct n as [|n]; [simpl in Hn; lia|].
    destruct Hchain as (Hsend & Hmore & Hrest).
    simpl. rewrite Hsend. cbn [await]. rewrite bind_ret_l.
    fold (continuation q). rewrite Hmore.
    apply IH; [exact Hrest|simpl in Hn; lia].
Qed.

(** X2: when a page request is rejected, after any number of pages served,
    [paginateDescribe] throws that error, and the items collected so far
    are not returned. *)
Theorem paginateDescribe_rejects {X : Type} (fuel : nat)
    (send : option string -> Result (Page X)) (pages : list (Page X))
    (e : JsError) :
  chain send None pages (Rejected e) ->
  (List.length pages < fuel)%nat ->
  paginateDescribe fuel send = ([], Throw e).
Proof.
  intros Hchain Hfuel. unfold paginateDescribe.
  exact (paginate_loop_rejects send pages e fuel [] None Hchain Hfuel).
Qed.

Lemma paginateDescribe_rejects_witness :
  paginateDescribe 2 broken_pages = ([], Throw (Error "Throttling")).
Proof.
  apply (paginateDescribe_rejects 2 broken_pages
           [mkPage (Some ["a"]) (Some "t1") None] (Error "Throttling")).
  - simpl. repeat split; reflexivity.
  - simpl. lia.
Defined.

(** X3: when every answer of the provider announces a continuation, the
    loop of [paginateDescribe] is still running after any number of pages:
    the call never returns and never throws. *)
Theorem paginateDescribe_never_ends {X : Type}
    (send : option string -> Result (Page X)) :
  (forall tok, exists p,
      send tok = Resolved p /\ truthy (continuation p) = true) ->
  forall fuel, outcome (paginateDescribe fuel send) = Diverge.
Proof.
  intros Hsend fuel. unfold paginateDescribe.
  generalize (@nil X). generalize (@None string).
  induction fuel as [|n IH]; intros tok results.
  - reflexivity.
  - destruct (Hsend tok) as (p & Hp & Hmore).
    simpl. rewrite Hp. cbn [await]. rewrite bind_ret_l.
    fold (continuation p). rewrite Hmore. apply IH.
Qed.

Lemma paginateDescribe_never_ends_witness :
  outcome (paginateDescribe 25 endless_pages) = Diverge.
Proof.
  apply (paginateDescribe_never_ends endless_pages).
  intro tok. eexists. split; reflexivity.
Defined.

(** ** Regions *)

Lemma insert_sorted_perm (s : string) (l : list string) :
  Permutation (s :: l) (insert_sorted s l).
Proof.
  induction l as [|x l IH]; simpl.
  - apply Permutation_refl.
  - destruct (String.leb s x).
    + apply Permutation_refl.
    + eapply perm_trans; [apply perm_swap|].
      apply perm_skip. exact IH.
Qed.

Lemma sort_strings_perm (l : list string) : Permutation l (sort_strings l).
Proof.
  induction l as [|x l IH]; simpl.
  - apply perm_nil.
  - eapply perm_trans; [apply perm_skip; exact IH|].
    apply insert_sorted_perm.
Qed.

Lemma insert_sorted_hd (s a : string) (l : list string) :
  String.leb a s = true ->
  HdRel (fun a b => String.leb a b = true) a l ->
  HdRel (fun a b => String.leb a b = true) a (insert_sorted s l).
Proof.
  intros Has Hhd. destruct l as [|x l]; simpl.
  - constructor. exact Has.
  - destruct (String.leb s x); constructor.
    + exact Has.
    + inversion Hhd. assumption.
Qed.

Lemma insert_sorted_ascending (s : string) (l : list string) :
  ascending l -> ascending (insert_sorted s l).
Proof.
  unfold ascending. induction l as [|x l IH]; intro Hl; simpl.
  - repeat constructor.
  - inversion Hl as [|? ? Hsorted Hhd]; subst.
    destruct (String.leb s x) eqn:E.
    + constructor; [exact Hl|]. constructor. exact E.
    + constructor; [apply IH; exact Hsorted|].
      apply insert_sorted_hd; [|exact Hhd].
      destruct (String.leb_total s x) as [H|H]; [congruence|exact H].
Qed.

Lemma sort_strings_ascending (l : list string) : ascending (sort_strings l).
Proof.
  induction l as [|x l IH]; simpl.
  - constructor.
  - apply insert_sorted_ascending. exact IH.
Qed.

(** X4: [getAllRegions] returns the region names the provider lists, each
    as many times as listed, in ascending order, and makes no metric, price
    or mail call; when the listing is rejected it throws that error. *)
Theorem getAllRegions_sorted (w : World) :
  (forall names,
     ec2_DescribeRegions w = Resolved names ->
     exists regions,
       getAllRegions w = ([], Ok regions)
       /\ Permutation names regions
       /\ ascending regions)
  /\ (forall e,
        ec2_DescribeRegions w = Rejected e ->
        getAllRegions w = ([], Throw e)).
Proof.
  split.
  - intros names H. exists (sort_strings names).
    unfold getAllRegions. rewrite H. cbn [await]. rewrite bind_ret_l.
    split; [reflexivity|]. split.
    + apply sort_strings_perm.
    + apply sort_strings_ascending.
  - intros e H. unfold getAllRegions. rewrite H. reflexivity.
Qed.

Lemma getAllRegions_sorted_witness :
  exists regions,
    getAllRegions
      (with_regions (Resolved ["us-west-2"; "eu-west-1"; "us-east-1"])
         (sample_world None [] [] [] []))
    = ([], Ok regions)
    /\ regions = ["eu-west-1"; "us-east-1"; "us-west-2"]
    /\ ascending regions.
Proof.
  destruct (getAllRegions_sorted
              (with_regions (Resolved ["us-west-2"; "eu-west-1"; "us-east-1"])
                 (sample_world None [] [] [] [])))
    as [Hsorted _].
  destruct (Hsorted ["us-west-2"; "eu-west-1"; "us-east-1"] eq_refl)
    as (regions & Hrun & _ & Hasc).
  exists regions. split; [exact Hrun|]. split; [|exact Hasc].
  vm_compute in Hrun. injection Hrun as <-. reflexivity.
Defined.

(** ** The notifier *)

(** X5: when any of [EMAIL_USER], [EMAIL_PASS], [RECEIVER_EMAIL] is missing
    or empty, [sendNotification] throws 'Missing email configuration in
    .env' and hands nothing to the mail transport. *)
Theorem sendNotification_requires_config (w : World)
    (resources : list Resource) (isManual : bool) :
  ~ mail_configured w ->
  sendNotification w resources isManual
  = ([EvSendNotification resources isManual],
     Throw (Error "Missing email configuration in .env")).
Proof.
  intro Hmissing. unfold sendNotification.
  destruct (truthy (emailUser w)) eqn:Eu;
    destruct (truthy (emailPass w)) eqn:Ep;
    destruct (truthy (receiverEmail w)) eqn:Er;
    try reflexivity.
  exfalso. apply Hmissing. unfold mail_configured. auto.
Qed.

Lemma sendNotification_requires_config_witness :
  sendNotification (sample_world None [] [] [] []) [] true
  = ([EvSendNotification [] true],
     Throw (Error "Missing email configuration in .env")).
Proof.
  apply sendNotification_requires_config.
  intros [H _]. discriminate H.
Defined.

(** X6: with a complete mail configuration [sendNotification] hands exactly
    one message to the transport, from the configured user to the configured
    receiver, with the manual or the automatic subject; it returns 'Email
    sent successfully' when the transport accepts the message and rethrows
    the transport's error otherwise, without a second attempt.  For an empty
    list the text is the test message. *)
Theorem sendNotification_sends_one_mail (w : World)
    (resources : list Resource) (isManual : bool) (user receiver : string) :
  mail_configured w ->
  emailUser w = Some user ->
  receiverEmail w = Some receiver ->
  exists text,
    let options :=
      mkMailOptions ("AWS Resource Monitor <" ++ user ++ ">")%string receiver
        (if isManual then "Manual AWS Resources Notification"
         else "AWS Unused Resources Notification (>30 days)")
        text in
    sendNotification w resources isManual
    = ([EvSendNotification resources isManual; EvSendMail options],
       match transporter_sendMail w options with
       | Resolved _ => Ok "Email sent successfully"
       | Rejected e => Throw e
       end)
    /\ (resources = [] ->
        text = [Lit "No unused resources found. This is a test email."]).
Proof.
  intros (Hu & Hp & Hr) Huser Hreceiver.
  unfold sendNotification. rewrite Hu, Hp, Hr. cbn [negb orb].
  rewrite Huser, Hreceiver. cbn [str].
  match goal with
  | |- context [mkMailOptions _ _ _ ?t] => exists t
  end.
  split.
  - cbv zeta. unfold bind, emit, try_catch, await, throw, ret.
    match goal with
    | |- context [transporter_sendMail w ?o] =>
        destruct (transporter_sendMail w o) as [[]|e]
    end; reflexivity.
  - intros ->. reflexivity.
Qed.

Lemma sendNotification_sends_one_mail_witness :
  mail_configured (sample_world (Some "ops@example.com") [] [] [] [])
  /\ sendNotification (sample_world (Some "ops@example.com") [] [] [] [])
       [] true
     = ([EvSendNotification [] true;
         EvSendMail
           (mkMailOptions "AWS Resource Monitor <ops@example.com>"
              "ops@example.com" "Manual AWS Resources Notification"
              [Lit "No unused resources found. This is a test email."])],
        Ok "Email sent successfully").
Proof.
  assert (Hc : mail_configured
                 (sample_world (Some "ops@example.com") [] [] [] []))
    by (repeat split; reflexivity).
  split; [exact Hc|].
  destruct (sendNotification_sends_one_mail
              (sample_world (Some "ops@example.com") [] [] [] [])
              [] true "ops@example.com" "ops@example.com"
              Hc eq_refl eq_refl)
    as (text & Hrun & Htext).
  rewrite Hrun, (Htext eq_refl). reflexivity.
Defined.

(** ** The HTTP surface *)

Lemma or_else_nonempty (a : option string) (b : string) :
  b <> "" -> or_else a b <> "".
Proof.
  intro Hb. unfold or_else. destruct a as [s|]; [|exact Hb].
  destruct (s =? "")%string eqn:E; [exact Hb|].
  apply String.eqb_neq. exact E.
Qed.

Lemma error500_well_formed (e : JsError) (fallback : string) :
  fallback <> "" -> well_formed_response (error500 e fallback).
Proof.
  intro H. right. split; [reflexivity|].
  eexists. split; [reflexivity|]. apply or_else_nonempty. exact H.
Qed.

Lemma sendNotification_ends (w : World) (resources : list Resource)
    (isManual : bool) :
  outcome (sendNotification w resources isManual) <> Diverge.
Proof.
  unfold sendNotification, bind, emit, try_catch, await, throw, ret.
  destruct (negb (truthy (emailUser w)) || negb (truthy (emailPass w))
            || negb (truthy (receiverEmail w))); [discriminate|].
  destruct (transporter_sendMail w _); discriminate.
Qed.

Lemma api_send_email_unfold (w : World) (last : list Resource) :
  api_send_email w last
  = match sendNotification w last true with
    | (t, Ok message) => (t, Ok (json (JsonMessage message)), last)
    | (t, Throw e) => (t, Ok (error500 e "Failed to send email"), last)
    | (t, Diverge) => (t, Diverge, last)
    end.
Proof.
  cbv beta iota zeta delta [api_send_email htry_catch hbind lift hret
                              get_lastUnusedResources].
  destruct (sendNotification w last true) as [t [message|e|]];
    cbn [fst snd app]; rewrite ?app_nil_r; reflexivity.
Qed.

Lemma sendNotification_unconfigured (w : World) (resources : list Resource)
    (isManual : bool) :
  ~ mail_configured w ->
  outcome (sendNotification w resources isManual)
  = Throw (Error "Missing email configuration in .env").
Proof.
  intro Hmissing. unfold sendNotification.
  destruct (truthy (emailUser w)) eqn:Eu;
    destruct (truthy (emailPass w)) eqn:Ep;
    destruct (truthy (receiverEmail w)) eqn:Er;
    try reflexivity.
  exfalso. apply Hmissing. unfold mail_configured. auto.
Qed.

Lemma api_send_email_calls (w : World) (last : list Resource) :
  notifications (fst (fst (api_send_email w last))) = [(last, true)].
Proof.
  rewrite api_send_email_unfold.
  pose proof (sendNotification_notifies w last true) as Hcalls.
  destruct (sendNotification w last true) as [t [m|e|]]; exact Hcalls.
Qed.

Lemma api_send_email_answers (w : World) (last : list Resource) :
  exists resp,
    snd (fst (api_send_email w last)) = Ok resp /\ well_formed_response resp.
Proof.
  rewrite api_send_email_unfold.
  pose proof (sendNotification_ends w last true) as Hends.
  destruct (sendNotification w last true) as [t [m|e|]];
    cbn [fst snd outcome] in *.
  - eexists. split; [reflexivity|]. left.
    split; [reflexivity|]. intros msg H. discriminate H.
  - eexists. split; [reflexivity|].
    apply error500_well_formed. discriminate.
  - contradiction.
Qed.

(** X7: [GET /api/send-email] calls the notifier once, with the stored
    [lastUnusedResources] and [isManual = true], always answers, and leaves
    [lastUnusedResources] as it was; without a complete mail configuration
    (even before any scan) the answer is HTTP 500 'Missing email
    configuration in .env', never a success. *)
Theorem api_send_email_resends_last (w : World) (last : list Resource) :
  snd (api_send_email w last) = last
  /\ notifications (fst (fst (api_send_email w last))) = [(last, true)]
  /\ (exists resp,
        snd (fst (api_send_email w last)) = Ok resp
        /\ well_formed_response resp)
  /\ (~ mail_configured w ->
      snd (fst (api_send_email w last))
      = Ok (mkResponse 500
              (JsonError "Missing email configuration in .env"))).
Proof.
  split; [|split; [|split]].
  - rewrite api_send_email_unfold.
    destruct (sendNotification w last true) as [t [m|e|]]; reflexivity.
  - apply api_send_email_calls.
  - apply api_send_email_answers.
  - intro Hmissing.
    pose proof (sendNotification_unconfigured w last true Hmissing) as Hthrow.
    rewrite api_send_email_unfold.
    destruct (sendNotification w last true) as [t [m|e|]];
      cbn [outcome snd] in Hthrow; try discriminate Hthrow.
    injection Hthrow as ->. reflexivity.
Qed.

Lemma api_send_email_resends_last_witness :
  ~ mail_configured (sample_world None [] [] [] [])
  /\ snd (fst (api_send_email (sample_world None [] [] [] []) []))
     = Ok (mkResponse 500 (JsonError "Missing email configuration in .env"))
  /\ snd (api_send_email (sample_world None [] [] [] []) []) = [].
Proof.
  assert (Hmissing : ~ mail_configured (sample_world None [] [] [] []))
    by (intros [H _]; discriminate H).
  split; [exact Hmissing|].
  destruct (api_send_email_resends_last (sample_world None [] [] [] []) [])
    as (Hlast & _ & _ & Herror).
  split; [exact (Herror Hmissing)|exact Hlast].
Defined.

Lemma api_scan_stores (w : World) (fuel : nat)
    (last unused longIdle : list Resource) :
  outcome (scan_collect w fuel) = Ok (unused, longIdle) ->
  snd (api_scan w fuel last) = unused.
Proof.
  intro Hscan. rewrite api_scan_unfold.
  destruct (scan_collect w fuel) as [t [lists|e|]];
    cbn [outcome snd] in Hscan; try discriminate Hscan.
  injection Hscan as ->. cbn [fst snd].
  destruct longIdle as [|r l]; [reflexivity|].
  destruct (sendNotification w (r :: l) false) as [t' [m|e|]]; reflexivity.
Qed.

(** X8: once the loops of [GET /api/scan] complete, the list it stores is
    the [unusedResources] it has gathered, whether or not its own
    notification succeeds; a following [GET /api/send-email] notifies
    exactly that list, and a successful scan answers with that same list. *)
Theorem scan_then_send_email (w : World) (fuel : nat)
    (last unused longIdle : list Resource) :
  outcome (scan_collect w fuel) = Ok (unused, longIdle) ->
  snd (api_scan w fuel last) = unused
  /\ notifications
       (fst (fst (api_send_email w (snd (api_scan w fuel last)))))
     = [(unused, true)]
  /\ (forall resp,
        snd (fst (api_scan w fuel last)) = Ok resp ->
        status resp = 200%Z ->
        body resp = JsonScan unused).
Proof.
  intro Hscan.
  pose proof (api_scan_stores w fuel last unused longIdle Hscan) as Hstored.
  split; [exact Hstored|]. split.
  - rewrite Hstored. apply api_send_email_calls.
  - rewrite api_scan_unfold.
    destruct (scan_collect w fuel) as [t [lists|e|]];
      cbn [outcome snd] in Hscan; try discriminate Hscan.
    injection Hscan as ->. cbn [fst snd].
    destruct longIdle as [|r l].
    + intros resp [= <-] _. reflexivity.
    + destruct (sendNotification w (r :: l) false) as [t' [m|e|]];
        cbn [fst snd]; intros resp H Hstatus.
      * injection H as <-. reflexivity.
      * injection H as <-. discriminate Hstatus.
      * discriminate H.
Qed.

Lemma scan_then_send_email_witness :
  exists r,
    outcome (scan_collect (sample_world None [stopped_instance] [] [] []) 1)
    = Ok ([r], [r])
    /\ snd (api_scan (sample_world None [stopped_instance] [] [] []) 1 [])
       = [r]
    /\ notifications
         (fst (fst (api_send_email
                      (sample_world None [stopped_instance] [] [] [])
                      (snd (api_scan
                              (sample_world None [stopped_instance] [] [] [])
                              1 [])))))
       = [([r], true)].
Proof.
  eexists. split; [vm_compute; reflexivity|].
  destruct (scan_then_send_email
              (sample_world None [stopped_instance] [] [] []) 1 []
              [set_monthlyCost 0 (set_usageStatus "stopped"
                 (resource_of_instance "ec2" "us-east-1" stopped_instance))]
              [set_monthlyCost 0 (set_usageStatus "stopped"
                 (resource_of_instance "ec2" "us-east-1" stopped_instance))])
    as (Hstored & Hresend & _).
  - vm_compute. reflexivity.
  - split; [exact Hstored|exact Hresend].
Defined.


Lemma json_well_formed (b : ResponseBody) :
  (forall msg, b <> JsonError msg) -> well_formed_response (json b).
Proof. intro H. left. split; [reflexivity|exact H]. Qed.

Lemma api_scan_well_formed (w : World) (fuel : nat) (last : list Resource)
    (resp : Response) :
  snd (fst (api_scan w fuel last)) = Ok resp -> well_formed_response resp.
Proof.
  intro H. rewrite api_scan_unfold in H.
  destruct (scan_collect w fuel) as [t [lists|e'|]]; cbn [fst snd] in H.
  - destruct (snd lists) as [|r l].
    + injection H as <-. apply json_well_formed. discriminate.
    + destruct (sendNotification w (r :: l) false) as [t' [m|e'|]];
        cbn [fst snd] in H; try discriminate H; injection H as <-.
      * apply json_well_formed. discriminate.
      * apply error500_well_formed. discriminate.
  - injection H as <-. apply error500_well_formed. discriminate.
  - discriminate H.
Qed.



(** X10: the scheduled job performs the same calls and leaves the same
    [lastUnusedResources] as [GET /api/scan] on the same environment, and
    never throws: an error of the loops or of the notifier ends the job
    quietly. *)
Theorem scheduled_scan_like_api_scan (w : World) (fuel : nat)
    (last : list Resource) :
  fst (fst (scheduled_scan w fuel last)) = fst (fst (api_scan w fuel last))
  /\ snd (scheduled_scan w fuel last) = snd (api_scan w fuel last)
  /\ (forall e, snd (fst (scheduled_scan w fuel last)) <> Throw e)
  /\ (snd (fst (scheduled_scan w fuel last)) = Diverge
      <-> snd (fst (api_scan w fuel last)) = Diverge).
Proof.
  rewrite api_scan_unfold, scheduled_scan_unfold.
  destruct (scan_collect w fuel) as [t [lists|e'|]]; cbn [fst snd].
  - destruct (snd lists) as [|r l]; cbn [fst snd].
    + repeat split; try discriminate.
    + destruct (sendNotification w (r :: l) false) as [t' [m|e'|]];
        cbn [fst snd]; repeat split; try discriminate.
  - repeat split; try discriminate.
  - repeat split; discriminate.
Qed.

(** X11: a service name other than [ec2], [ebs], [s3], [rds] and [lambda]
    makes [fetchServiceResources] throw 'Invalid service' before any remote
    call; [GET /api/resources] then answers HTTP 500 with that message,
    unless the name is [all]. *)
Theorem invalid_service_rejected (w : World) (fuel : nat) (svc rgn : string) :
  ~ In svc services ->
  fetchServiceResources w fuel svc rgn = ([], Throw (Error "Invalid service"))
  /\ (svc <> "all" ->
      api_resources w fuel svc rgn
      = ([], Ok (mkResponse 500 (JsonError "Invalid service")))).
Proof.
  intro Hnot.
  assert (Hfetch : fetchServiceResources w fuel svc rgn
                   = ([], Throw (Error "Invalid service"))).
  { unfold fetchServiceResources.
    destruct (svc =? "ec2")%string eqn:E1;
      [apply String.eqb_eq in E1; exfalso; apply Hnot; subst; simpl; tauto|].
    destruct (svc =? "ebs")%string eqn:E2;
      [apply String.eqb_eq in E2; exfalso; apply Hnot; subst; simpl; tauto|].
    destruct (svc =? "s3")%string eqn:E3;
      [apply String.eqb_eq in E3; exfalso; apply Hnot; subst; simpl; tauto|].
    destruct (svc =? "rds")%string eqn:E4;
      [apply String.eqb_eq in E4; exfalso; apply Hnot; subst; simpl; tauto|].
    destruct (svc =? "lambda")%string eqn:E5;
      [apply String.eqb_eq in E5; exfalso; apply Hnot; subst; simpl; tauto|].
    reflexivity. }
  split; [exact Hfetch|].
  intro Hall. unfold api_resources.
  apply String.eqb_neq in Hall. rewrite Hall, Hfetch. reflexivity.
Qed.

Lemma invalid_service_rejected_witness :
  ~ In "dynamodb" services
  /\ api_resources (sample_world None [] [] [] []) 1 "dynamodb" "us-east-1"
     = ([], Ok (mkResponse 500 (JsonError "Invalid service"))).
Proof.
  assert (Hnot : ~ In "dynamodb" services).
  { simpl. intros [H|[H|[H|[H|[H|[]]]]]]; discriminate H. }
  split; [exact Hnot|].
  destruct (invalid_service_rejected (sample_world None [] [] [] []) 1
              "dynamodb" "us-east-1" Hnot) as [_ Hhandler].
  apply Hhandler. discriminate.
Defined.

(** ** Price lookup by region *)

Lemma known_location_nonempty (rgn loc : string) :
  own rgn regionToLocation = Some loc ->
  js_or_else (lookup rgn regionToLocation) "" = Val loc
  /\ js_truthy (Val loc) = true.
Proof.
  intro H. unfold lookup. rewrite H. revert H.
  unfold regionToLocation. cbn [own].
  repeat match goal with
         | |- context [if ?c then _ else _] => destruct c
         end;
    intros [= <-]; split; reflexivity.
Qed.

Lemma inherited_location (rgn : string) :
  In rgn Object_prototype ->
  js_or_else (lookup rgn regionToLocation) "" = Builtin rgn.
Proof.
  intro H. unfold Object_prototype in H. cbn [In] in H.
  repeat (destruct H as [<-|H]; [reflexivity|]). contradiction.
Qed.

Lemma unknown_location (rgn : string) :
  own rgn regionToLocation = None ->
  ~ In rgn Object_prototype ->
  js_or_else (lookup rgn regionToLocation) "" = Val "".
Proof.
  intros Hown Hnot. unfold lookup. rewrite Hown.
  destruct (existsb (String.eqb rgn) Object_prototype) eqn:E; [|reflexivity].
  exfalso. apply Hnot. apply existsb_exists in E as (k & Hin & Hk).
  apply String.eqb_eq in Hk. subst k. exact Hin.
Qed.

(** X12: for a running instance the fetch asks the pricing service when the
    region has an entry in [regionToLocation], with that entry as the
    location, and also when the region is a name that every object inherits
    from [Object.prototype] (such as [constructor]): [regionToLocation[region]]
    is then the inherited member, which is truthy and is sent as the
    location.  In both cases one price query is made, the monthly cost is
    730 times the hourly price and is added to the total.  For any other
    region no price query is made, the cost stays 0 and the total is
    unchanged. *)
Theorem price_lookup_region_gated (w : World) (cwRegion svc rgn : string)
    (inst : Instance) (t : list Event) (p total0 : Q) :
  State_Name inst = "running" ->
  getMetric w cwRegion "AWS/EC2" "CPUUtilization"
    [mkDimension "InstanceId" (Some (InstanceId inst))] "Average" 1
  = (t, Ok p) ->
  let measured :=
    set_usageStatus (cpuUsageStatus p)
      (set_avgCpu p (resource_of_instance svc rgn inst)) in
  let priced_at (location : Js string) :=
    exists hourly,
      getHourlyPrice w "AmazonEC2" (ec2_filters measured location)
      = ([EvGetProducts
            (price_params "AmazonEC2" (ec2_filters measured location))],
         Ok hourly)
      /\ fetch_ec2_body w cwRegion rgn
           (resource_of_instance svc rgn inst) total0
         = (t ++ [EvGetProducts
                    (price_params "AmazonEC2" (ec2_filters measured location))],
            Ok (set_monthlyCost (hourly * 730) measured,
                total0 + hourly * 730)) in
  (forall loc, own rgn regionToLocation = Some loc -> priced_at (Val loc))
  /\ (In rgn Object_prototype -> priced_at (Builtin rgn))
  /\ (own rgn regionToLocation = None ->
      ~ In rgn Object_prototype ->
      fetch_ec2_body w cwRegion rgn (resource_of_instance svc rgn inst) total0
      = (t, Ok (measured, total0))
      /\ monthlyCost measured = 0).
Proof.
  intros Hstate Hmetric measured priced_at.
  assert (Hpriced : forall location,
             js_or_else (lookup rgn regionToLocation) "" = location ->
             js_truthy location = true ->
             priced_at location).
  { intros location Hloc Htrue.
    destruct (getHourlyPrice_runs w "AmazonEC2" (ec2_filters measured location))
      as [hourly Hprice].
    exists hourly. split; [exact Hprice|].
    unfold fetch_ec2_body, state_is. cbn [state resource_of_instance].
    rewrite Hstate, String.eqb_refl. simpl id.
    rewrite Hmetric, Hloc. cbn [bind]. rewrite Htrue.
    fold measured. rewrite Hprice. cbn [bind ret monthlyCost set_monthlyCost].
    rewrite app_nil_r. reflexivity. }
  split; [|split].
  - intros loc Hown.
    destruct (known_location_nonempty rgn loc Hown) as [Hloc Htrue].
    exact (Hpriced _ Hloc Htrue).
  - intro Hin. exact (Hpriced _ (inherited_location rgn Hin) eq_refl).
  - intros Hown Hnot. split; [|reflexivity].
    unfold fetch_ec2_body, state_is. cbn [state resource_of_instance].
    rewrite Hstate, String.eqb_refl. simpl id.
    rewrite Hmetric, (unknown_location rgn Hown Hnot).
    cbn [js_truthy String.eqb negb bind ret].
    rewrite app_nil_r. reflexivity.
Qed.

Lemma price_lookup_region_gated_witness :
  In "constructor" Object_prototype
  /\ exists r hourly,
       fetch_ec2_body (sample_world None [running_instance] [] [] [])
         "constructor" "constructor"
         (resource_of_instance "ec2" "constructor" running_instance) 0
       = ([EvGetMetricData "constructor"
             (metric_params (sample_world None [running_instance] [] [] [])
                "AWS/EC2" "CPUUtilization"
                [mkDimension "InstanceId" (Some "i-running")] "Average" 1);
           EvGetProducts
             (price_params "AmazonEC2"
                (ec2_filters r (Builtin "constructor")))],
          Ok (set_monthlyCost (hourly * 730) r, 0 + hourly * 730)).
Proof.
  assert (Hin : In "constructor" Object_prototype) by (left; reflexivity).
  split; [exact Hin|].
  destruct (price_lookup_region_gated
              (sample_world None [running_instance] [] [] [])
              "constructor" "ec2" "constructor" running_instance
              [EvGetMetricData "constructor"
                 (metric_params (sample_world None [running_instance] [] [] [])
                    "AWS/EC2" "CPUUtilization"
                    [mkDimension "InstanceId" (Some "i-running")] "Average" 1)]
              (12 # 2) 0 eq_refl)
    as (_ & Hinherited & _).
  - vm_compute. reflexivity.
  - destruct (Hinherited Hin) as (hourly & _ & Hrun).
    eexists. exists hourly. exact Hrun.
Defined.

(** ** Volumes *)

Lemma trace_paginate {X : Type} (n : nat)
    (send : option string -> Result (Page X)) (results : list X)
    (tok : option string) :
  trace (paginate_loop n send results tok) = [].
Proof.
  revert results tok. induction n as [|n IH]; intros results tok; simpl.
  - reflexivity.
  - destruct (send tok) as [data|e]; cbn [await]; [|reflexivity].
    rewrite bind_ret_l. destruct (truthy _); [apply IH|reflexivity].
Qed.

Lemma fetch_ebs_volumes_fst (svc rgn : string) (volumes : list Volume) :
  fst (fetch_ebs_volumes svc rgn volumes)
  = map (resource_of_volume svc rgn) volumes.
Proof.
  unfold fetch_ebs_volumes.
  assert (H : forall acc,
             fst (fold_left
                    (fun (acc : list Resource * Q) vol =>
                       (fst acc ++ [resource_of_volume svc rgn vol],
                        snd acc + monthlyCost (resource_of_volume svc rgn vol)))
                    volumes acc)
             = fst acc ++ map (resource_of_volume svc rgn) volumes).
  { induction volumes as [|vol volumes IH]; intro acc; simpl.
    - rewrite app_nil_r. reflexivity.
    - rewrite IH. cbn [fst]. rewrite <- app_assoc. reflexivity. }
  apply (H ([], 0)).
Qed.

Lemma volume_type_not_inherited (volumeType : VolumeTypeName) :
  ~ In (volume_type_name volumeType) Object_prototype.
Proof.
  unfold Object_prototype. cbn [In].
  destruct volumeType; cbn [volume_type_name];
    intros H; repeat (destruct H as [H|H]; [discriminate H|]); exact H.
Qed.

Lemma volume_rate (volumeType : VolumeTypeName) :
  num_or_else (price_of volumeType typePrices) 0.10 = ebs_rate volumeType.
Proof. destruct volumeType; reflexivity. Qed.

(** X13: the fetch of volumes returns one record per volume the provider
    lists, in the provider's order, without any metric or price query; each
    record costs the volume's size times the monthly rate of its type (0.10
    for gp2, 0.08 for gp3, 0.125 for io1, 0.045 for st1, 0.025 for sc1, and
    0.10 for io2 and standard, which the price table does not list) and is
    [used] when the volume is [in-use], [idle] otherwise. *)
Theorem ebs_fetch_by_size_and_type (w : World) (fuel : nat) (rgn : string)
    (volumes : list Volume) :
  outcome (paginateDescribe fuel (ec2_DescribeVolumes w rgn)) = Ok volumes ->
  (exists total,
     fetchServiceResources w fuel "ebs" rgn
     = ([], Ok (map (resource_of_volume "ebs" rgn) volumes, total)))
  /\ (forall vol,
        In vol volumes ->
        monthlyCost (resource_of_volume "ebs" rgn vol)
        = vol_Size vol * ebs_rate (VolumeType vol)
        /\ (vol_State vol = "in-use" ->
            usageStatus (resource_of_volume "ebs" rgn vol) = "used")
        /\ (vol_State vol <> "in-use" ->
            usageStatus (resource_of_volume "ebs" rgn vol) = "idle")).
Proof.
  intro Hpages. split.
  - exists (snd (fetch_ebs_volumes "ebs" rgn volumes)).
    unfold fetchServiceResources. cbn [String.eqb Ascii.eqb Bool.eqb].
    pose proof (trace_paginate fuel (ec2_DescribeVolumes w rgn) [] None)
      as Htrace.
    fold (paginateDescribe fuel (ec2_DescribeVolumes w rgn)) in Htrace.
    destruct (paginateDescribe fuel (ec2_DescribeVolumes w rgn))
      as [t [vs|e|]]; cbn [outcome trace fst snd] in *;
      try discriminate Hpages.
    injection Hpages as ->. subst t. cbn [bind ret app].
    rewrite <- fetch_ebs_volumes_fst.
    destruct (fetch_ebs_volumes "ebs" rgn volumes). reflexivity.
  - intros vol _. cbn [monthlyCost usageStatus resource_of_volume].
    rewrite volume_rate. split; [reflexivity|]. split.
    + intros ->. reflexivity.
    + intro Hne. apply String.eqb_neq in Hne. rewrite Hne. reflexivity.
Qed.

Lemma ebs_fetch_by_size_and_type_witness :
  exists r total,
    fetchServiceResources (sample_world None [] [detached_volume] [] []) 1
      "ebs" "us-east-1"
    = ([], Ok ([r], total))
    /\ monthlyCost r == 8
    /\ usageStatus r = "idle".
Proof.
  destruct (ebs_fetch_by_size_and_type
              (sample_world None [] [detached_volume] [] []) 1 "us-east-1"
              [detached_volume] eq_refl)
    as [(total & Hrun) Hrecords].
  destruct (Hrecords detached_volume (or_introl eq_refl))
    as (Hcost & _ & Hidle).
  exists (resource_of_volume "ebs" "us-east-1" detached_volume), total.
  split; [exact Hrun|]. split.
  - rewrite Hcost. reflexivity.
  - apply Hidle. discriminate.
Defined.

(** ** Buckets *)

Lemma bucket_location_rejected (w : World) (bucket : Bucket) (e : JsError) :
  s3_GetBucketLocation w (bucket_Name bucket) = Rejected e ->
  bucket_location w bucket = ret None.
Proof. intro H. unfold bucket_location. rewrite H. reflexivity. Qed.

Lemma bucket_location_resolved (w : World) (bucket : Bucket)
    (loc : option string) :
  s3_GetBucketLocation w (bucket_Name bucket) = Resolved loc ->
  bucket_location w bucket = ret (Some loc).
Proof. intro H. unfold bucket_location. rewrite H. reflexivity. Qed.

(** X14: a bucket whose location lookup is rejected, and a bucket located in
    another region (a missing or empty [LocationConstraint] counting as
    [us-east-1]), is skipped by the fetch and by the scan: no metric is
    queried for it, nothing is added to the lists or to the total, and the
    loop goes on. *)
Theorem bucket_skipped (w : World) (cwRegion svc rgn : string)
    (bucket : Bucket) (fetched : list Resource * Q) (lists : Lists) :
  (forall e,
     s3_GetBucketLocation w (bucket_Name bucket) = Rejected e ->
     fetch_s3_body w cwRegion svc rgn bucket fetched = ([], Ok fetched)
     /\ scan_s3_body w cwRegion svc rgn bucket lists = ([], Ok lists))
  /\ (forall loc,
        s3_GetBucketLocation w (bucket_Name bucket) = Resolved loc ->
        or_else loc "us-east-1" <> rgn ->
        fetch_s3_body w cwRegion svc rgn bucket fetched = ([], Ok fetched)
        /\ scan_s3_body w cwRegion svc rgn bucket lists = ([], Ok lists)).
Proof.
  split.
  - intros e H. unfold fetch_s3_body, scan_s3_body.
    rewrite (bucket_location_rejected w bucket e H).
    split; reflexivity.
  - intros loc H Hne. unfold fetch_s3_body, scan_s3_body.
    rewrite (bucket_location_resolved w bucket loc H).
    apply String.eqb_neq in Hne.
    rewrite !bind_ret_l, Hne. split; reflexivity.
Qed.

Lemma bucket_skipped_witness :
  fetch_s3_body
    (with_buckets [sample_bucket] (fun _ => Rejected (Error "AccessDenied"))
       (sample_world None [] [] [] []))
    "us-east-1" "s3" "us-east-1" sample_bucket ([], 0)
  = ([], Ok ([], 0))
  /\ fetch_s3_body
       (with_buckets [sample_bucket] (fun _ => Resolved (Some "eu-west-1"))
          (sample_world None [] [] [] []))
       "us-east-1" "s3" "us-east-1" sample_bucket ([], 0)
     = ([], Ok ([], 0)).
Proof.
  split.
  - destruct (bucket_skipped
                (with_buckets [sample_bucket]
                   (fun _ => Rejected (Error "AccessDenied"))
                   (sample_world None [] [] [] []))
                "us-east-1" "s3" "us-east-1" sample_bucket ([], 0) ([], []))
      as [Hrejected _].
    apply (Hrejected (Error "AccessDenied")). reflexivity.
  - destruct (bucket_skipped
                (with_buckets [sample_bucket]
                   (fun _ => Resolved (Some "eu-west-1"))
                   (sample_world None [] [] [] []))
                "us-east-1" "s3" "us-east-1" sample_bucket ([], 0) ([], []))
      as [_ Helsewhere].
    apply (Helsewhere (Some "eu-west-1")); [reflexivity|discriminate].
Defined.

(** X15: for a bucket located in the region asked for, the fetch queries the
    1-day averages of the object count and of the size in bytes, and adds one
    record: [used] when the object count is above 0 and [idle] otherwise,
    with the size in GB (bytes / 1024^3) and a monthly cost of 0.023 per GB,
    which it also adds to the total. *)
Theorem bucket_fetched (w : World) (cwRegion svc rgn : string)
    (bucket : Bucket) (loc : option string) (t1 t2 : list Event)
    (objects bytes : Q) (fetched : list Resource * Q) :
  s3_GetBucketLocation w (bucket_Name bucket) = Resolved loc ->
  or_else loc "us-east-1" = rgn ->
  getMetric w cwRegion "AWS/S3" "NumberOfObjects"
    (s3_dimensions bucket "AllStorageTypes") "Average" 1 = (t1, Ok objects) ->
  getMetric w cwRegion "AWS/S3" "BucketSizeBytes"
    (s3_dimensions bucket "StandardStorage") "Average" 1 = (t2, Ok bytes) ->
  exists r,
    fetch_s3_body w cwRegion svc rgn bucket fetched
    = (t1 ++ t2, Ok (fst fetched ++ [r], snd fetched + monthlyCost r))
    /\ service r = svc /\ region r = rgn
    /\ name r = Some (bucket_Name bucket)
    /\ creation r = Some (CreationDate bucket)
    /\ numObjects r = Some objects
    /\ sizeGB r = Some (bytes / 1073741824)
    /\ monthlyCost r = bytes / 1073741824 * 0.023
    /\ (0 < objects -> usageStatus r = "used")
    /\ (objects <= 0 -> usageStatus r = "idle").
Proof.
  intros Hloc Hrgn Hobjects Hbytes.
  unfold fetch_s3_body.
  rewrite (bucket_location_resolved w bucket loc Hloc), bind_ret_l.
  rewrite Hrgn, String.eqb_refl. cbn [negb].
  rewrite Hobjects. cbn [bind]. rewrite Hbytes. cbn [bind ret].
  rewrite app_nil_r.
  match goal with
  | |- context [fst fetched ++ [?x]] => exists x
  end.
  split; [reflexivity|].
  cbn [service region name creation numObjects sizeGB monthlyCost usageStatus].
  repeat (split; [reflexivity|]).
  split.
  - intro H. apply Qlt_bool_iff in H. rewrite H. reflexivity.
  - intro H. apply Qlt_bool_false_iff in H. rewrite H. reflexivity.
Qed.

Lemma bucket_fetched_witness :
  exists r t,
    fetch_s3_body
      (with_buckets [sample_bucket] (fun _ => Resolved None)
         (sample_world None [] [] [] []))
      "us-east-1" "s3" "us-east-1" sample_bucket ([], 0)
    = (t, Ok ([r], 0 + monthlyCost r))
    /\ name r = Some "logs"
    /\ usageStatus r = "idle".
Proof.
  destruct (bucket_fetched
              (with_buckets [sample_bucket] (fun _ => Resolved None)
                 (sample_world None [] [] [] []))
              "us-east-1" "s3" "us-east-1" sample_bucket None
              (fst (getMetric
                      (with_buckets [sample_bucket] (fun _ => Resolved None)
                         (sample_world None [] [] [] []))
                      "us-east-1" "AWS/S3" "NumberOfObjects"
                      (s3_dimensions sample_bucket "AllStorageTypes")
                      "Average" 1))
              (fst (getMetric
                      (with_buckets [sample_bucket] (fun _ => Resolved None)
                         (sample_world None [] [] [] []))
                      "us-east-1" "AWS/S3" "BucketSizeBytes"
                      (s3_dimensions sample_bucket "StandardStorage")
                      "Average" 1))
              (0 # 1) (0 # 1) ([], 0))
    as (r & Hrun & _ & _ & Hname & _ & _ & _ & _ & _ & Hidle);
    try reflexivity.
  exists r. eexists. split; [exact Hrun|]. split; [exact Hname|].
  apply Hidle. discriminate.
Defined.

(** ** Functions *)

(** X16: a function is [used] when its 1-day invocation sum is above 0 and
    [idle] otherwise, never [underutilized] or [stopped]; the average
    duration is queried only for a used function, and an idle one keeps a
    cost of 0 and adds nothing to the total. *)
Theorem function_used_iff_invoked (w : World) (cwRegion svc rgn : string)
    (fn : LambdaFunction) (t1 : list Event) (i total0 : Q) :
  getMetric w cwRegion "AWS/Lambda" "Invocations"
    [mkDimension "FunctionName" (Some (FunctionName fn))] "Sum" 1
  = (t1, Ok i) ->
  (i <= 0 ->
   exists r,
     fetch_lambda_body w cwRegion (resource_of_function w svc rgn fn) total0
     = (t1, Ok (r, total0))
     /\ usageStatus r = "idle" /\ monthlyCost r = 0
     /\ invocations r = Some i)
  /\ (0 < i ->
      forall t2 d,
        getMetric w cwRegion "AWS/Lambda" "Duration"
          [mkDimension "FunctionName" (Some (FunctionName fn))] "Average" 1
        = (t2, Ok d) ->
        exists r,
          fetch_lambda_body w cwRegion (resource_of_function w svc rgn fn)
            total0
          = (t1 ++ t2, Ok (r, total0 + monthlyCost r))
          /\ usageStatus r = "used"
          /\ invocations r = Some i).
Proof.
  intro Hinv. split.
  - intro Hi. apply Qlt_bool_false_iff in Hi.
    unfold fetch_lambda_body. cbn [name resource_of_function].
    rewrite Hinv. cbn [bind]. rewrite Hi. cbn [ret].
    rewrite app_nil_r. eexists. split; [reflexivity|].
    repeat split; reflexivity.
  - intros Hi t2 d Hdur. apply Qlt_bool_iff in Hi.
    unfold fetch_lambda_body. cbn [name resource_of_function].
    rewrite Hinv. cbn [bind]. rewrite Hi.
    cbn [name set_usageStatus set_invocations resource_of_function].
    rewrite Hdur. cbn [bind ret]. rewrite app_nil_r.
    match goal with
    | |- context [Ok (?x, _)] => exists x
    end.
    split; [reflexivity|]. split; reflexivity.
Qed.

Lemma function_used_iff_invoked_witness :
  exists r t,
    fetch_lambda_body (sample_world None [] [] [] [busy_function]) "us-east-1"
      (resource_of_function (sample_world None [] [] [] [busy_function])
         "lambda" "us-east-1" busy_function) 0
    = (t, Ok (r, 0 + monthlyCost r))
    /\ List.length t = 2%nat
    /\ usageStatus r = "used".
Proof.
  destruct (function_used_iff_invoked
              (sample_world None [] [] [] [busy_function])
              "us-east-1" "lambda" "us-east-1" busy_function
              (fst (getMetric (sample_world None [] [] [] [busy_function])
                      "us-east-1" "AWS/Lambda" "Invocations"
                      [mkDimension "FunctionName" (Some "fn-1")] "Sum" 1))
              1000 0 eq_refl)
    as [_ Hused].
  destruct (Hused eq_refl
              (fst (getMetric (sample_world None [] [] [] [busy_function])
                      "us-east-1" "AWS/Lambda" "Duration"
                      [mkDimension "FunctionName" (Some "fn-1")] "Average" 1))
              200 eq_refl)
    as (r & Hrun & Hstatus & _).
  exists r. eexists. split; [exact Hrun|]. split; [reflexivity|exact Hstatus].
Defined.

(** ** Metric queries that fail *)

Lemma trace_getMetric (w : World) (cwRegion ns mn : string)
    (dims : list Dimension) (stat : string) (days : Z) :
  trace (getMetric w cwRegion ns mn dims stat days)
  = [EvGetMetricData cwRegion (metric_params w ns mn dims stat days)].
Proof.
  unfold getMetric, bind, emit, await, throw, ret.
  destruct (cw_GetMetricData w cwRegion _) as [data|e]; [|reflexivity].
  destruct (MetricDataResults data); [reflexivity|].
  destruct (stat =? "Sum")%string; reflexivity.
Qed.

(** X19: [getMetric] sends exactly one query, over the window that ends now
    and starts [days] days (of 86 400 000 ms) earlier; when the query is
    rejected it throws that error, and when the answer has no result at all
    it throws a [TypeError]; neither is retried or turned into 0. *)
Theorem getMetric_failures (w : World) (cwRegion ns mn : string)
    (dims : list Dimension) (stat : string) (days : Z) :
  trace (getMetric w cwRegion ns mn dims stat days)
  = [EvGetMetricData cwRegion (metric_params w ns mn dims stat days)]
  /\ EndTime (metric_params w ns mn dims stat days) = now w
  /\ (EndTime (metric_params w ns mn dims stat days)
      - StartTime (metric_params w ns mn dims stat days)
      = days * 86400000)%Z
  /\ (forall e,
        cw_GetMetricData w cwRegion (metric_params w ns mn dims stat days)
        = Rejected e ->
        outcome (getMetric w cwRegion ns mn dims stat days) = Throw e)
  /\ (cw_GetMetricData w cwRegion (metric_params w ns mn dims stat days)
      = Resolved (mkGetMetricDataOutput []) ->
      exists msg,
        outcome (getMetric w cwRegion ns mn dims stat days)
        = Throw (TypeError msg)).
Proof.
  split; [|split; [|split; [|split]]].
  - apply trace_getMetric.
  - reflexivity.
  - unfold metric_params. cbn [EndTime StartTime]. lia.
  - intros e H. unfold getMetric. rewrite H. reflexivity.
  - intro H. unfold getMetric. rewrite H. eexists. reflexivity.
Qed.

Lemma getMetric_failures_witness :
  outcome (getMetric
             (without_metrics (sample_world None [running_instance] [] [] []))
             "us-east-1" "AWS/EC2" "CPUUtilization" [] "Average" 1)
  = Throw (Error "Throttling").
Proof.
  destruct (getMetric_failures
              (without_metrics (sample_world None [running_instance] [] [] []))
              "us-east-1" "AWS/EC2" "CPUUtilization" [] "Average" 1)
    as (_ & _ & _ & Hrejected & _).
  apply Hrejected. reflexivity.
Defined.

(** ** The unused list *)

Lemma push_unused (r : Resource) (l : list Resource) :
  Forall (fun r => usageStatus r <> "used") l ->
  Forall (fun r => usageStatus r <> "used")
    (push_if (negb (usageStatus r =? "used")%string) r l).
Proof.
  intro Hl. apply Forall_push_if; [exact Hl|].
  intro Hc. apply negb_true_iff in Hc. apply String.eqb_neq. exact Hc.
Qed.

Lemma scan_service_unused (w : World) (fuel : nat) (rgn svc : string)
    (acc : Lists) :
  unused_only acc ->
  returns (scan_service w fuel rgn svc acc) unused_only.
Proof.
  intro Hacc. unfold scan_service, unused_only in *.
  repeat match goal with
         | |- returns (if ?c then _ else _) _ => destruct c
         end;
    try (apply returns_ret; exact Hacc);
    (eapply returns_bind; [apply returns_any|]); intros found _;
    (apply returns_for_each; [|exact Hacc]); intros x a _ Ha acc' H.
  - unfold scan_ec2_body in H. inv_bind H. inv_ret H.
    cbn [fst]. unfold spread.
    match goal with
    | |- context [push_if _ ?r _] => exact (push_unused r _ Ha)
    end.
  - inv_ret H. unfold scan_ebs_body. cbn [fst]. unfold spread.
    match goal with
    | |- context [push_if _ ?r _] => exact (push_unused r _ Ha)
    end.
  - unfold scan_s3_body in H. inv_bind H. destruct a0 as [locRes|].
    + destruct (negb (or_else locRes "us-east-1" =? rgn)%string).
      * inv_ret H. exact Ha.
      * unbind H as numObjects Hnum. unbind H as sizeBytes Hsize.
        unbind H as longNumObjects Hlong. inv_ret H.
        cbn [fst]. unfold spread.
    match goal with
    | |- context [push_if _ ?r _] => exact (push_unused r _ Ha)
    end.
    + inv_ret H. exact Ha.
  - unfold scan_rds_body in H. inv_bind H. inv_ret H.
    cbn [fst]. unfold spread.
    match goal with
    | |- context [push_if _ ?r _] => exact (push_unused r _ Ha)
    end.
  - unfold scan_lambda_body in H. unbind H as fn Hfn.
    unbind H as longInvocations Hlong. inv_ret H.
    cbn [fst]. unfold spread.
    match goal with
    | |- context [push_if _ ?r _] => exact (push_unused r _ Ha)
    end.
Qed.

Lemma scan_collect_unused (w : World) (fuel : nat) :
  returns (scan_collect w fuel) unused_only.
Proof.
  unfold scan_collect.
  eapply returns_bind; [apply returns_any|]. intros regions _.
  apply returns_for_each; [|constructor].
  intros rgn acc _ Hacc. unfold scan_region.
  apply returns_for_each; [|exact Hacc].
  intros svc a _ Ha. apply scan_service_unused. exact Ha.
Qed.

Lemma api_scan_answer_unused (w : World) (fuel : nat)
    (last : list Resource) (resp : Response) (unused : list Resource) :
  snd (fst (api_scan w fuel last)) = Ok resp ->
  body resp = JsonScan unused ->
  Forall (fun r => usageStatus r <> "used") unused.
Proof.
  intros H Hbody.
  rewrite api_scan_unfold in H.
  pose proof (scan_collect_unused w fuel) as Hinv.
  destruct (scan_collect w fuel) as [t [lists|e|]]; cbn [fst snd] in H.
  - specialize (Hinv lists eq_refl). unfold unused_only in Hinv.
    destruct (snd lists) as [|r l].
    + injection H as <-. cbn [body json] in Hbody.
      injection Hbody as <-. exact Hinv.
    + destruct (sendNotification w (r :: l) false) as [t' [m|e|]];
        cbn [fst snd] in H; try discriminate H; injection H as <-.
      * cbn [body json] in Hbody. injection Hbody as <-. exact Hinv.
      * discriminate Hbody.
  - injection H as <-. discriminate Hbody.
  - discriminate H.
Qed.

(** X17: no record labelled [used] is ever put in [unusedResources]: not in
    the list the scan gathers, hence not in the answer of [GET /api/scan]
    nor in the list it stores for the manual email. *)
Theorem unused_list_has_no_used (w : World) (fuel : nat)
    (last : list Resource) :
  (forall unused longIdle,
     outcome (scan_collect w fuel) = Ok (unused, longIdle) ->
     Forall (fun r => usageStatus r <> "used") unused
     /\ snd (api_scan w fuel last) = unused)
  /\ (forall resp unused,
        snd (fst (api_scan w fuel last)) = Ok resp ->
        body resp = JsonScan unused ->
        Forall (fun r => usageStatus r <> "used") unused).
Proof.
  split.
  - intros unused longIdle H.
    split; [exact (scan_collect_unused w fuel _ H)|].
    exact (api_scan_stores w fuel last unused longIdle H).
  - intros resp unused. apply api_scan_answer_unused.
Qed.

Lemma unused_list_has_no_used_witness :
  exists busy stopped,
    outcome (scan_collect
               (with_metrics bursty_metrics
                  (sample_world None [running_instance; stopped_instance]
                     [] [] [])) 1)
    = Ok ([stopped], [busy; stopped])
    /\ usageStatus busy = "used"
    /\ Forall (fun r => usageStatus r <> "used") [stopped].
Proof.
  eexists. eexists. split; [vm_compute; reflexivity|].
  split; [reflexivity|].
  destruct (unused_list_has_no_used
              (with_metrics bursty_metrics
                 (sample_world None [running_instance; stopped_instance]
                    [] [] [])) 1 [])
    as [Hscan _].
  eapply Hscan. vm_compute. reflexivity.
Defined.

(** ** Long-idle against current status *)

Lemma cpuUsageStatus_not_stopped (p : Q) :
  (cpuUsageStatus p =? "stopped")%string = false.
Proof.
  unfold cpuUsageStatus.
  destruct (Qlt_bool p 1); [reflexivity|].
  destruct (Qlt_bool p 10); reflexivity.
Qed.

(** X18: the long-idle test of a running instance looks at its age and at
    its 30-day CPU average only: an instance launched more than 30 days ago
    whose 30-day average is below 1 is put in [longIdleResources] even when
    its 1-day average is 10 or more, in which case it is labelled [used] and
    is not put in [unusedResources]. *)
Theorem long_idle_ignores_current_status (w : World)
    (cwRegion svc rgn : string) (inst : Instance) (p longMetric : Q)
    (acc : Lists) :
  State_Name inst = "running" ->
  (LaunchTime inst < now w - 30 * day)%Z ->
  outcome (getMetric w cwRegion "AWS/EC2" "CPUUtilization"
             [mkDimension "InstanceId" (Some (InstanceId inst))] "Average" 1)
    = Ok p ->
  outcome (getMetric w cwRegion "AWS/EC2" "CPUUtilization"
             [mkDimension "InstanceId" (Some (InstanceId inst))] "Average" 30)
    = Ok longMetric ->
  10 <= p ->
  longMetric < 1 ->
  exists r,
    outcome (scan_ec2_body w cwRegion svc rgn
               (resource_of_instance svc rgn inst) acc)
    = Ok (fst acc, snd acc ++ [r])
    /\ usageStatus r = "used"
    /\ id r = Some (InstanceId inst).
Proof.
  intros Hstate Hold Hp Hlong Hbusy Hquiet.
  destruct (scan_ec2_running w cwRegion svc rgn inst p longMetric
              Hstate Hp Hlong) as (r & Hr & _ & Hstatus).
  pose proof (scan_ec2_classify_spec w cwRegion rgn _ _ Hr) as [Hcl _].
  destruct Hcl as (_ & _ & Hid & Hst & Hcreation & _). cbn [fst] in *.
  assert (Hused : usageStatus r = "used").
  { rewrite Hstatus. unfold cpuUsageStatus.
    assert (H1 : Qlt_bool p 1 = false) by (apply Qlt_bool_false_iff; lra).
    assert (H10 : Qlt_bool p 10 = false) by (apply Qlt_bool_false_iff; exact Hbusy).
    rewrite H1, H10. reflexivity. }
  exists r. split; [|split; [exact Hused|exact Hid]].
  unfold scan_ec2_body. run_bind Hr. cbn [fst snd ret outcome].
  rewrite Hused. cbn [String.eqb Ascii.eqb Bool.eqb negb push_if].
  unfold created_before, state_is. rewrite Hcreation, Hst.
  cbn [creation state resource_of_instance]. rewrite Hstate.
  assert (Hage : (LaunchTime inst <? thirtyDaysAgo w)%Z = true).
  { apply Z.ltb_lt. unfold thirtyDaysAgo. unfold day in Hold. lia. }
  rewrite Hage.
  assert (Hlt : Qlt_bool longMetric 1 = true) by (apply Qlt_bool_iff; exact Hquiet).
  rewrite Hlt. reflexivity.
Qed.

Lemma long_idle_ignores_current_status_witness :
  exists r,
    outcome (scan_ec2_body
               (with_metrics bursty_metrics
                  (sample_world None [running_instance] [] [] []))
               "us-east-1" "ec2" "us-east-1"
               (resource_of_instance "ec2" "us-east-1" running_instance)
               ([], []))
    = Ok ([], [r])
    /\ usageStatus r = "used".
Proof.
  destruct (long_idle_ignores_current_status
              (with_metrics bursty_metrics
                 (sample_world None [running_instance] [] [] []))
              "us-east-1" "ec2" "us-east-1" running_instance
              (50 # 1) 0.5 ([], []))
    as (r & Hrun & Hused & _);
    try reflexivity.
  - unfold Qle. simpl. lia.
  - exists r. split; [exact Hrun|exact Hused].
Defined.

(** ** Records and their service *)

(** X20: every record returned by [fetchServiceResources] carries the
    service and the region that were asked for. *)
Theorem fetched_records_carry_service (w : World) (fuel : nat)
    (svc rgn : string) (resources : list Resource) (total : Q) :
  outcome (fetchServiceResources w fuel svc rgn) = Ok (resources, total) ->
  Forall (fun r => service r = svc /\ region r = rgn) resources.
Proof.
  intro H. apply fetchServiceResources_spec in H. destruct H as [Hall _].
  cbn [fst] in Hall. eapply Forall_impl; [|exact Hall].
  intros r (_ & Hs & Hr). split; assumption.
Qed.

Lemma fetched_records_carry_service_witness :
  exists r total,
    outcome (fetchServiceResources
               (sample_world None [] [] [available_db] []) 1
               "rds" "us-east-1")
    = Ok ([r], total)
    /\ Forall (fun r => service r = "rds" /\ region r = "us-east-1") [r].
Proof.
  eexists. eexists. split; [vm_compute; reflexivity|].
  eapply (fetched_records_carry_service
            (sample_world None [] [] [available_db] []) 1 "rds" "us-east-1").
  vm_compute. reflexivity.
Defined.

(** ** The fetch and the scan agree *)

Lemma fetch_like_scan_ec2 (w : World) (cwRegion rgn : string)
    (inst r : Resource) (longMetric total0 : Q) :
  outcome (scan_ec2_classify w cwRegion rgn inst) = Ok (r, longMetric) ->
  exists total,
    outcome (fetch_ec2_body w cwRegion rgn inst total0) = Ok (r, total).
Proof.
  intro H. unfold scan_ec2_classify in H. unfold fetch_ec2_body.
  destruct (state_is inst "running").
  - unbind H as avg Havg. unbind H as priced Hpriced.
    unbind H as long Hlong. inv_ret H.
    run_bind Havg.
    cbn [usageStatus set_usageStatus] in Hpriced.
    rewrite cpuUsageStatus_not_stopped, andb_true_r in Hpriced.
    destruct (js_truthy (js_or_else (lookup rgn regionToLocation) "")).
    + unbind Hpriced as hourly Hhourly. inv_ret Hpriced.
      run_bind Hhourly. eexists. reflexivity.
    + inv_ret Hpriced. eexists. reflexivity.
  - destruct (state_is inst "stopped"); inv_ret H; eexists; reflexivity.
Qed.

Lemma fetch_like_scan_rds (w : World) (cwRegion rgn : string)
    (db r : Resource) (longMetric total0 : Q) :
  outcome (scan_rds_classify w cwRegion rgn db) = Ok (r, longMetric) ->
  exists total,
    outcome (fetch_rds_body w cwRegion rgn db total0) = Ok (r, total).
Proof.
  intro H. unfold scan_rds_classify in H. unfold fetch_rds_body.
  destruct (state_is db "available").
  - unbind H as avg Havg. unbind H as priced Hpriced.
    unbind H as long Hlong. inv_ret H.
    run_bind Havg.
    destruct (js_truthy (js_or_else (lookup rgn regionToLocation) "")).
    + unbind Hpriced as engineName Hengine.
      unbind Hpriced as hourly Hhourly. inv_ret Hpriced.
      run_bind Hengine. run_bind Hhourly. eexists. reflexivity.
    + inv_ret Hpriced. eexists. reflexivity.
  - destruct (state_is db "stopped"); inv_ret H; eexists; reflexivity.
Qed.

Lemma fetch_like_scan_lambda (w : World) (cwRegion : string)
    (fn r : Resource) (total0 : Q) :
  outcome (scan_lambda_classify w cwRegion fn) = Ok r ->
  exists total,
    outcome (fetch_lambda_body w cwRegion fn total0) = Ok (r, total).
Proof.
  intro H. unfold scan_lambda_classify in H. unfold fetch_lambda_body.
  unbind H as i Hi. run_bind Hi.
  destruct (Qlt_bool 0 i).
  - unbind H as d Hd. inv_ret H. run_bind Hd. eexists. reflexivity.
  - inv_ret H. eexists. reflexivity.
Qed.

(** X21: whatever record the scan derives for an instance, a database or a
    function (status, CPU average or invocations, monthly cost), the
    on-demand fetch derives the same record from the same resource: the
    extra test on [stopped] in the scan's price lookup changes nothing. *)
Theorem fetch_agrees_with_scan (w : World) (cwRegion rgn : string)
    (x r : Resource) (total0 : Q) :
  (forall longMetric,
     outcome (scan_ec2_classify w cwRegion rgn x) = Ok (r, longMetric) ->
     exists total,
       outcome (fetch_ec2_body w cwRegion rgn x total0) = Ok (r, total))
  /\ (forall longMetric,
        outcome (scan_rds_classify w cwRegion rgn x) = Ok (r, longMetric) ->
        exists total,
          outcome (fetch_rds_body w cwRegion rgn x total0) = Ok (r, total))
  /\ (outcome (scan_lambda_classify w cwRegion x) = Ok r ->
      exists total,
        outcome (fetch_lambda_body w cwRegion x total0) = Ok (r, total)).
Proof.
  split; [|split].
  - intros longMetric. apply fetch_like_scan_ec2.
  - intros longMetric. apply fetch_like_scan_rds.
  - apply fetch_like_scan_lambda.
Qed.

Lemma fetch_agrees_with_scan_witness :
  exists total,
    outcome (scan_ec2_classify
               (sample_world None [running_instance] [] [] [])
               "us-east-1" "us-east-1"
               (resource_of_instance "ec2" "us-east-1" running_instance))
    = Ok (set_monthlyCost (0.0116 * 730)
            (set_usageStatus "underutilized"
               (set_avgCpu (12 # 2)
                  (resource_of_instance "ec2" "us-east-1" running_instance))),
          0.5)
    /\ outcome (fetch_ec2_body
                  (sample_world None [running_instance] [] [] [])
                  "us-east-1" "us-east-1"
                  (resource_of_instance "ec2" "us-east-1" running_instance) 0)
       = Ok (set_monthlyCost (0.0116 * 730)
               (set_usageStatus "underutilized"
                  (set_avgCpu (12 # 2)
                     (resource_of_instance "ec2" "us-east-1"
                        running_instance))),
             total).
Proof.
  destruct (fetch_agrees_with_scan
              (sample_world None [running_instance] [] [] [])
              "us-east-1" "us-east-1"
              (resource_of_instance "ec2" "us-east-1" running_instance)
              (set_monthlyCost (0.0116 * 730)
                 (set_usageStatus "underutilized"
                    (set_avgCpu (12 # 2)
                       (resource_of_instance "ec2" "us-east-1"
                          running_instance))))
              0)
    as [Hec2 _].
  destruct (Hec2 0.5) as [total Hfetch]; [reflexivity|].
  exists total. split; [reflexivity|exact Hfetch].
Defined.

(** ** The CSV export *)

Lemma string_app_assoc (a b c : string) :
  ((a ++ b) ++ c)%string = (a ++ (b ++ c))%string.
Proof.
  induction a as [|x a IH]; simpl; [reflexivity|]. rewrite IH. reflexivity.
Qed.

Lemma string_app_nil_r (a : string) : (a ++ "")%string = a.
Proof.
  induction a as [|x a IH]; simpl; [reflexivity|]. rewrite IH. reflexivity.
Qed.

Lemma read_escaped (text rest cur : string) (fields : list string)
    (rows : list (list string)) :
  read_records (escape_quotes text ++ String dquote rest)%string
    (InField cur) fields rows
  = read_records rest (QuoteSeen (cur ++ text)%string) fields rows.
Proof.
  revert cur. induction text as [|c text IH]; intro cur.
  - simpl. rewrite string_app_nil_r. reflexivity.
  - cbn [escape_quotes]. destruct (Ascii.eqb c dquote) eqn:E.
    + apply Ascii.eqb_eq in E. subst c.
      cbn [String.append read_records].
      replace (Ascii.eqb dquote dquote) with true by reflexivity.
      cbn iota. rewrite IH. unfold snoc_char.
      rewrite string_app_assoc. reflexivity.
    + cbn [String.append read_records]. rewrite E.
      rewrite IH. unfold snoc_char.
      rewrite string_app_assoc. reflexivity.
Qed.

Lemma read_cell (text rest : string) (fields : list string)
    (rows : list (list string)) :
  read_records (csv_cell text ++ rest)%string FieldStart fields rows
  = read_records rest (QuoteSeen text) fields rows.
Proof.
  unfold csv_cell. cbn [String.append read_records].
  replace (Ascii.eqb dquote dquote) with true by reflexivity. cbn iota.
  rewrite string_app_assoc. cbn [String.append].
  rewrite read_escaped. reflexivity.
Qed.

Lemma read_first_cell (text rest : string) (rows : list (list string)) :
  read_records (csv_cell text ++ rest)%string RowStart [] rows
  = read_records (csv_cell text ++ rest)%string FieldStart [] rows.
Proof. reflexivity. Qed.

Lemma join_cons (sep : ascii) (a b : string) (rest : list string) :
  join sep (a :: b :: rest) = (a ++ String sep (join sep (b :: rest)))%string.
Proof. reflexivity. Qed.

(** The fields of a row, read up to the end of the input. *)
Lemma read_fields_end (cells : list string) :
  forall (c : string) (fields : list string) (rows : list (list string)),
    read_records (join comma (map csv_cell (c :: cells))) FieldStart fields rows
    = Some (rows ++ [fields ++ c :: cells]).
Proof.
  induction cells as [|c' cells IH]; intros c fields rows.
  - cbn [map join]. rewrite <- (string_app_nil_r (csv_cell c)).
    rewrite read_cell. reflexivity.
  - cbn [map]. rewrite join_cons, read_cell.
    cbn [read_records].
    replace (Ascii.eqb comma dquote) with false by reflexivity.
    replace (Ascii.eqb comma comma) with true by reflexivity.
    cbn iota. change (csv_cell c' :: map csv_cell cells)
      with (map csv_cell (c' :: cells)).
    rewrite IH. rewrite <- app_assoc. reflexivity.
Qed.

(** The fields of a row, read up to a line break. *)
Lemma read_fields_more (more : string) (cells : list string) :
  forall (c : string) (fields : list string) (rows : list (list string)),
    read_records
      (join comma (map csv_cell (c :: cells)) ++ String newline more)%string
      FieldStart fields rows
    = read_records more RowStart [] (rows ++ [fields ++ c :: cells]).
Proof.
  induction cells as [|c' cells IH]; intros c fields rows.
  - cbn [map join]. rewrite read_cell. cbn [read_records].
    replace (Ascii.eqb newline dquote) with false by reflexivity.
    replace (Ascii.eqb newline comma) with false by reflexivity.
    replace (Ascii.eqb newline newline) with true by reflexivity.
    reflexivity.
  - cbn [map]. rewrite join_cons, string_app_assoc, read_cell.
    cbn [String.append read_records].
    replace (Ascii.eqb comma dquote) with false by reflexivity.
    replace (Ascii.eqb comma comma) with true by reflexivity.
    cbn iota. change (csv_cell c' :: map csv_cell cells)
      with (map csv_cell (c' :: cells)).
    rewrite IH. rewrite <- app_assoc. reflexivity.
Qed.

Lemma read_row_end (cells : list string) (rows : list (list string)) :
  read_records (csv_row cells) RowStart [] rows = Some (rows ++ [cells]).
Proof.
  destruct cells as [|c cells]; [reflexivity|].
  unfold csv_row. destruct cells as [|c' cells].
  - cbn [map join]. rewrite <- (string_app_nil_r (csv_cell c)).
    rewrite read_first_cell, string_app_nil_r.
    apply (read_fields_end [] c [] rows).
  - cbn [map]. rewrite join_cons, read_first_cell, <- join_cons.
    apply (read_fields_end (c' :: cells) c [] rows).
Qed.

Lemma read_row_more (cells : list string) (more : string)
    (rows : list (list string)) :
  read_records (csv_row cells ++ String newline more)%string RowStart [] rows
  = read_records more RowStart [] (rows ++ [cells]).
Proof.
  destruct cells as [|c cells].
  - cbn [csv_row map join String.append read_records].
    replace (Ascii.eqb newline dquote) with false by reflexivity.
    replace (Ascii.eqb newline newline) with true by reflexivity.
    reflexivity.
  - unfold csv_row. destruct cells as [|c' cells].
    + cbn [map join]. rewrite read_first_cell.
      apply (read_fields_more more [] c [] rows).
    + cbn [map]. rewrite join_cons, string_app_assoc, read_first_cell.
      rewrite <- string_app_assoc, <- join_cons.
      apply (read_fields_more more (c' :: cells) c [] rows).
Qed.

Lemma read_rows (table : list (list string)) :
  forall (row : list string) (rows : list (list string)),
    read_records (join newline (map csv_row (row :: table))) RowStart [] rows
    = Some (rows ++ row :: table).
Proof.
  induction table as [|row' table IH]; intros row rows.
  - cbn [map join]. apply read_row_end.
  - cbn [map]. rewrite join_cons, read_row_more.
    change (csv_row row' :: map csv_row table)
      with (map csv_row (row' :: table)).
    rewrite IH, <- app_assoc. reflexivity.
Qed.

Lemma split_header (body : string) :
  split_first_line (csv_header ++ String newline body)%string
  = (csv_header, Some body).
Proof. reflexivity. Qed.

(** X22: the text built by [exportToCSV] reads back, as a CSV file with a
    header line and quoted fields, to exactly the rows and cell texts of the
    table, whatever the cells contain (commas, quotes, line breaks, nothing
    at all), below the fixed header. *)
Theorem exportToCSV_reads_back (table : list (list string)) :
  read_csv (exportToCSV table) = Some (csv_header, table).
Proof.
  unfold exportToCSV, read_csv.
  destruct table as [|row table].
  - reflexivity.
  - cbn [map]. rewrite join_cons, split_header.
    change (csv_row row :: map csv_row table)
      with (map csv_row (row :: table)).
    rewrite read_rows. reflexivity.
Qed.

(** ** The calls of a fetch *)

Lemma all_events_ret {A} (P : Event -> Prop) (a : A) : all_events P (ret a).
Proof. constructor. Qed.

Lemma all_events_throw {A} (P : Event -> Prop) (e : JsError) :
  all_events P (@throw A e).
Proof. constructor. Qed.

Lemma all_events_await {A} (P : Event -> Prop) (p : Result A) :
  all_events P (await p).
Proof. destruct p; constructor. Qed.

Lemma all_events_bind {A B} (P : Event -> Prop) (m : M A) (k : A -> M B) :
  all_events P m -> (forall a, all_events P (k a)) ->
  all_events P (bind m k).
Proof.
  unfold all_events. intros Hm Hk.
  destruct m as [t [a|e|]]; cbn [bind trace fst] in *; try exact Hm.
  specialize (Hk a). destruct (k a) as [t' r]. cbn [trace fst] in *.
  apply Forall_app. split; assumption.
Qed.

Lemma all_events_try_catch {A} (P : Event -> Prop) (m : M A)
    (h : JsError -> M A) :
  all_events P m -> (forall e, all_events P (h e)) ->
  all_events P (try_catch m h).
Proof.
  unfold all_events. intros Hm Hh.
  destruct m as [t [a|e|]]; cbn [try_catch trace fst] in *; try exact Hm.
  specialize (Hh e). destruct (h e) as [t' r]. cbn [trace fst] in *.
  apply Forall_app. split; assumption.
Qed.

Lemma all_events_for_each {A S} (P : Event -> Prop) (body : A -> S -> M S)
    (xs : list A) (acc : S) :
  (forall x a, all_events P (body x a)) ->
  all_events P (for_each body xs acc).
Proof.
  intro Hbody. revert acc.
  induction xs as [|x xs IH]; intro acc; simpl.
  - apply all_events_ret.
  - apply all_events_bind; [apply Hbody|]. intro a. apply IH.
Qed.

Lemma all_events_paginate {X} (P : Event -> Prop) (fuel : nat)
    (send : option string -> Result (Page X)) :
  all_events P (paginateDescribe fuel send).
Proof.
  unfold all_events, paginateDescribe. rewrite trace_paginate. constructor.
Qed.

Lemma all_events_getMetric (w : World) (cwRegion ns mn : string)
    (dims : list Dimension) (stat : string) (days : Z) :
  all_events (lookup_in cwRegion) (getMetric w cwRegion ns mn dims stat days).
Proof.
  unfold all_events.
  rewrite trace_getMetric.
  constructor; [reflexivity|constructor].
Qed.

Lemma all_events_getHourlyPrice (w : World) (cwRegion serviceCode : string)
    (filters : list PriceFilter) :
  all_events (lookup_in cwRegion) (getHourlyPrice w serviceCode filters).
Proof.
  unfold all_events.
  destruct (getHourlyPrice_runs w serviceCode filters) as [price ->].
  constructor; [reflexivity|constructor].
Qed.

Ltac events_step :=
  match goal with
  | |- all_events _ (bind _ _) => apply all_events_bind; [|intro]
  | |- all_events _ (ret _) => apply all_events_ret
  | |- all_events _ (throw _) => apply all_events_throw
  | |- all_events _ (await _) => apply all_events_await
  | |- all_events _ (try_catch _ _) => apply all_events_try_catch; [|intro]
  | |- all_events _ (getMetric _ _ _ _ _ _ _) => apply all_events_getMetric
  | |- all_events _ (getHourlyPrice _ _ _) => apply all_events_getHourlyPrice
  | |- all_events _ (paginateDescribe _ _) => apply all_events_paginate
  | |- all_events _ (for_each _ _ _) => apply all_events_for_each; intros
  | |- all_events _ (if ?c then _ else _) => destruct c
  | |- all_events _ (match ?x with _ => _ end) => destruct x
  end.

(** X23: an on-demand fetch performs metric and price queries only, never a
    notification or a mail; its metric queries all go to the CloudWatch of
    the region asked for, except for buckets, whose metrics are always
    queried in [us-east-1]; each price query asks for one result. *)
Theorem fetch_only_looks_up (w : World) (fuel : nat) (svc rgn : string) :
  all_events
    (lookup_in (if (svc =? "s3")%string then "us-east-1" else rgn))
    (fetchServiceResources w fuel svc rgn)
  /\ notifications (trace (fetchServiceResources w fuel svc rgn)) = [].
Proof.
  assert (H : all_events
                (lookup_in (if (svc =? "s3")%string then "us-east-1" else rgn))
                (fetchServiceResources w fuel svc rgn)).
  { unfold fetchServiceResources.
    generalize (if (svc =? "s3")%string then "us-east-1" else rgn).
    intro cwRegion.
    unfold for_each_update, fetch_ec2_body, fetch_s3_body, fetch_rds_body,
      fetch_lambda_body, bucket_location, engine_name.
    repeat events_step. }
  split; [exact H|].
  unfold all_events in H. induction H as [|ev t Hev _ IH]; [reflexivity|].
  destruct ev; cbn [lookup_in] in Hev; try contradiction; exact IH.
Qed.

(** ** All services of one region *)

(** X24: [GET /api/resources/all/<region>] runs the five fetches of that
    region in the order ec2, ebs, s3, rds, lambda and, when all five return,
    answers HTTP 200 with their records concatenated in that order and, as
    [totalCostEstimate], the text [toFixed(2)] makes of the totals added up
    in that order; the first fetch that throws ends the request with
    HTTP 500 and no record. *)
Theorem all_services_in_order (w : World) (fuel : nat) (rgn : string) :
  rgn <> "all" ->
  (forall t1 t2 t3 t4 t5 r1 r2 r3 r4 r5 c1 c2 c3 c4 c5,
     fetchServiceResources w fuel "ec2" rgn = (t1, Ok (r1, c1)) ->
     fetchServiceResources w fuel "ebs" rgn = (t2, Ok (r2, c2)) ->
     fetchServiceResources w fuel "s3" rgn = (t3, Ok (r3, c3)) ->
     fetchServiceResources w fuel "rds" rgn = (t4, Ok (r4, c4)) ->
     fetchServiceResources w fuel "lambda" rgn = (t5, Ok (r5, c5)) ->
     api_resources w fuel "all" rgn
     = (t1 ++ t2 ++ t3 ++ t4 ++ t5,
        Ok (mkResponse 200
              (JsonResources (r1 ++ r2 ++ r3 ++ r4 ++ r5)
                 (toFixed (0 + c1 + c2 + c3 + c4 + c5) 2)))))
  /\ (forall before svc after acc e,
        services = before ++ svc :: after ->
        outcome
          (for_each
             (fun s (acc : list Resource * Q) =>
                fetched <- fetchServiceResources w fuel s rgn ;;
                ret (fst acc ++ fst fetched, snd acc + snd fetched))
             before ([], 0))
        = Ok acc ->
        outcome (fetchServiceResources w fuel svc rgn) = Throw e ->
        outcome (api_resources w fuel "all" rgn)
        = Ok (error500 e "Failed to fetch resources")).
Proof.
  intro Hrgn. apply String.eqb_neq in Hrgn.
  split.
  - intros t1 t2 t3 t4 t5 r1 r2 r3 r4 r5 c1 c2 c3 c4 c5 H1 H2 H3 H4 H5.
    unfold api_resources. cbn [String.eqb Ascii.eqb Bool.eqb].
    rewrite Hrgn, bind_ret_l. unfold services. cbn [for_each].
    rewrite H1, H2, H3, H4, H5.
    cbn [bind ret try_catch fst snd json app].
    rewrite ?app_nil_r, <- ?app_assoc. cbn [app].
    rewrite ?app_nil_r. reflexivity.
  - intros before svc after acc e Hsplit Hbefore Hthrow.
    unfold api_resources. cbn [String.eqb Ascii.eqb Bool.eqb].
    rewrite Hrgn, bind_ret_l. cbn [for_each].
    rewrite Hsplit.
    assert (Hloop :
              outcome
                (for_each
                   (fun s (acc : list Resource * Q) =>
                      fetched <- fetchServiceResources w fuel s rgn ;;
                      ret (fst acc ++ fst fetched, snd acc + snd fetched))
                   (before ++ svc :: after) ([], 0))
              = Throw e).
    { eapply for_each_aborts; [exact Hbefore|].
      apply outcome_bind_Throw. exact Hthrow. }
    match goal with
    | |- outcome (try_catch (bind (bind ?m _) _) _) = _ =>
        destruct m as [t [res|e'|]] eqn:Em
    end; cbn [outcome snd] in Hloop; try discriminate Hloop.
    injection Hloop as ->. reflexivity.
Qed.

Lemma all_services_in_order_witness :
  api_resources (sample_world None [stopped_instance] [detached_volume] [] [])
    1 "all" "us-east-1"
  = ([],
     Ok (mkResponse 200
           (JsonResources
              [set_monthlyCost 0 (set_usageStatus "stopped"
                 (resource_of_instance "ec2" "us-east-1" stopped_instance));
               resource_of_volume "ebs" "us-east-1" detached_volume]
              (toFixed (0 + 0 + 100 * 0.08 + 0 + 0 + 0) 2)))).
Proof.
  assert (Hne : "us-east-1" <> "all") by discriminate.
  destruct (all_services_in_order
              (sample_world None [stopped_instance] [detached_volume] [] [])
              1 "us-east-1" Hne) as [Hall _].
  rewrite (Hall [] [] [] [] []
             [set_monthlyCost 0 (set_usageStatus "stopped"
                (resource_of_instance "ec2" "us-east-1" stopped_instance))]
             [resource_of_volume "ebs" "us-east-1" detached_volume]
             [] [] []
             0 (100 * 0.08) 0 0 0);
    reflexivity.
Defined.

(** ** Stopped instances and volumes in the scan *)

(** X25: the scan handles a stopped instance without any remote call: it
    puts it, labelled [stopped] and costing 0, in [unusedResources] always,
    and in [longIdleResources] exactly when it was launched more than 30
    days before the scan. *)
Theorem stopped_instance_scanned (w : World) (cwRegion svc rgn : string)
    (inst : Instance) (acc : Lists) :
  State_Name inst = "stopped" ->
  let r :=
    set_monthlyCost 0
      (set_usageStatus "stopped" (resource_of_instance svc rgn inst)) in
  ((LaunchTime inst < now w - 30 * day)%Z ->
   scan_ec2_body w cwRegion svc rgn (resource_of_instance svc rgn inst) acc
   = ([], Ok (fst acc ++ [r], snd acc ++ [r])))
  /\ ((now w - 30 * day <= LaunchTime inst)%Z ->
      scan_ec2_body w cwRegion svc rgn (resource_of_instance svc rgn inst) acc
      = ([], Ok (fst acc ++ [r], snd acc))).
Proof.
  intros Hstate r.
  assert (Hbound : thirtyDaysAgo w = (now w - 30 * day)%Z)
    by (unfold thirtyDaysAgo, day; lia).
  unfold scan_ec2_body, scan_ec2_classify, state_is, created_before.
  cbn [state resource_of_instance]. rewrite Hstate.
  cbn [String.eqb Ascii.eqb Bool.eqb]. rewrite bind_ret_l.
  cbn [fst snd usageStatus set_monthlyCost set_usageStatus state creation
         resource_of_instance String.eqb Ascii.eqb Bool.eqb negb push_if
         spread orb andb].
  rewrite Hbound, Hstate. cbn [String.eqb Ascii.eqb Bool.eqb orb].
  fold r. split; intro Hage.
  - apply Z.ltb_lt in Hage. rewrite Hage. reflexivity.
  - apply Z.ltb_ge in Hage. rewrite Hage. reflexivity.
Qed.

Lemma stopped_instance_scanned_witness :
  scan_ec2_body (sample_world None [recent_instance] [] [] [])
    "us-east-1" "ec2" "us-east-1"
    (resource_of_instance "ec2" "us-east-1" recent_instance) ([], [])
  = ([],
     Ok ([set_monthlyCost 0
            (set_usageStatus "stopped"
               (resource_of_instance "ec2" "us-east-1" recent_instance))],
         [])).
Proof.
  destruct (stopped_instance_scanned
              (sample_world None [recent_instance] [] [] [])
              "us-east-1" "ec2" "us-east-1" recent_instance ([], []) eq_refl)
    as [_ Hrecent].
  apply Hrecent. vm_compute. discriminate.
Defined.

(** X26: the scan puts a volume in [unusedResources] exactly when its state
    is not [in-use], and in [longIdleResources] exactly when its state is
    [available] and it was created more than 30 days before the scan; an
    [in-use] volume is in neither list. *)
Theorem volume_scanned (w : World) (svc rgn : string) (vol : Volume)
    (acc : Lists) :
  let r := resource_of_volume svc rgn vol in
  (vol_State vol = "in-use" -> scan_ebs_body w svc rgn r acc = acc)
  /\ (vol_State vol <> "in-use" ->
      fst (scan_ebs_body w svc rgn r acc) = fst acc ++ [r])
  /\ (vol_State vol = "available" ->
      (CreateTime vol < now w - 30 * day)%Z ->
      snd (scan_ebs_body w svc rgn r acc) = snd acc ++ [r])
  /\ (vol_State vol <> "available"
      \/ (now w - 30 * day <= CreateTime vol)%Z ->
      snd (scan_ebs_body w svc rgn r acc) = snd acc).
Proof.
  intro r.
  assert (Hbound : thirtyDaysAgo w = (now w - 30 * day)%Z)
    by (unfold thirtyDaysAgo, day; lia).
  unfold scan_ebs_body, spread, state_is, created_before.
  cbn [usageStatus state creation resource_of_volume r]. fold r.
  rewrite Hbound.
  split; [|split; [|split]].
  - intros ->. cbn [String.eqb Ascii.eqb Bool.eqb negb push_if andb].
    rewrite andb_false_r. destruct acc. reflexivity.
  - intro Hne. apply String.eqb_neq in Hne. rewrite Hne. reflexivity.
  - intros -> Hage. apply Z.ltb_lt in Hage. rewrite Hage. reflexivity.
  - intros [Hne|Hage].
    + apply String.eqb_neq in Hne. rewrite Hne, andb_false_r. reflexivity.
    + apply Z.ltb_ge in Hage. rewrite Hage. reflexivity.
Qed.

Lemma volume_scanned_witness :
  snd (scan_ebs_body (sample_world None [] [detached_volume] [] [])
         "ebs" "us-east-1"
         (resource_of_volume "ebs" "us-east-1" detached_volume) ([], []))
  = [resource_of_volume "ebs" "us-east-1" detached_volume].
Proof.
  destruct (volume_scanned (sample_world None [] [detached_volume] [] [])
              "ebs" "us-east-1" detached_volume ([], []))
    as (_ & _ & Hlong & _).
  apply Hlong; reflexivity.
Defined.

(** ** The dashboard and the server *)

(** X27: whatever [GET /api/send-email] answers, the dashboard's
    [sendEmail] shows 'Email sent successfully': the HTTP 500 answer of a
    server without mail configuration has no [message], so the fallback text
    is shown; only a request that itself fails is reported as an error. *)
Theorem sendEmail_reports_success (w : World) (last : list Resource) :
  (forall resp,
     snd (fst (api_send_email w last)) = Ok resp ->
     sendEmail (Resolved resp) = "Email sent successfully")
  /\ (forall err,
        sendEmail (Rejected err)
        = ("Error sending email: " ++ err_message err)%string).
Proof.
  split; [|reflexivity].
  intros resp H. rewrite api_send_email_unfold in H.
  pose proof (sendNotification_ends w last true) as Hends.
  destruct (sendNotification w last true) as [t [m|e|]] eqn:Es;
    cbn [fst snd outcome] in *.
  - injection H as <-. cbn [sendEmail body json payload_message].
    assert (Hm : m = "Email sent successfully").
    { unfold sendNotification, bind, emit, try_catch, await, throw, ret in Es.
      destruct (negb (truthy (emailUser w)) || negb (truthy (emailPass w))
                || negb (truthy (receiverEmail w))); [discriminate Es|].
      destruct (transporter_sendMail w _); [|discriminate Es].
      injection Es as _ <-. reflexivity. }
    rewrite Hm. reflexivity.
  - injection H as <-. reflexivity.
  - contradiction.
Qed.

Lemma sendEmail_reports_success_witness :
  snd (fst (api_send_email (sample_world None [] [] [] []) []))
  = Ok (mkResponse 500 (JsonError "Missing email configuration in .env"))
  /\ sendEmail
       (Resolved
          (mkResponse 500 (JsonError "Missing email configuration in .env")))
     = "Email sent successfully".
Proof.
  split; [reflexivity|].
  destruct (sendEmail_reports_success (sample_world None [] [] [] []) [])
    as [Hanswer _].
  apply Hanswer. reflexivity.
Defined.

(** X28: after [scanUnused] the dashboard holds the [unusedResources] of the
    answer when the scan succeeded, and an empty list when
    [GET /api/scan] answers an error, although the server may by then have
    stored the unused list of that scan; the list the dashboard holds never
    has a record labelled [used]. *)
Theorem scanUnused_shows_answer (w : World) (fuel : nat)
    (last shown : list Resource) (resp : Response) :
  snd (fst (api_scan w fuel last)) = Ok resp ->
  (status resp = 200%Z ->
   scanUnused (Resolved resp) shown = snd (api_scan w fuel last))
  /\ (status resp = 500%Z -> scanUnused (Resolved resp) shown = [])
  /\ Forall (fun r => usageStatus r <> "used")
       (scanUnused (Resolved resp) shown).
Proof.
  intro H.
  pose proof (api_scan_well_formed w fuel last resp H) as Hwf.
  split; [|split].
  - intro Hok. rewrite api_scan_unfold in *.
    destruct (scan_collect w fuel) as [t [lists|e|]]; cbn [fst snd] in *.
    + destruct (snd lists) as [|r l].
      * injection H as <-. reflexivity.
      * destruct (sendNotification w (r :: l) false) as [t' [m|e|]];
          cbn [fst snd] in *; try discriminate H; injection H as <-.
        -- reflexivity.
        -- discriminate Hok.
    + injection H as <-. discriminate Hok.
    + discriminate H.
  - intro Herr. destruct Hwf as [[Hok _]|(_ & msg & Hbody & _)].
    + rewrite Hok in Herr. discriminate Herr.
    + unfold scanUnused. rewrite Hbody. reflexivity.
  - unfold scanUnused.
    destruct (body resp) as [| | unused | |] eqn:Hbody; cbn; try constructor.
    exact (api_scan_answer_unused w fuel last resp unused H Hbody).
Qed.

Lemma scanUnused_shows_answer_witness :
  snd (fst (api_scan (sample_world None [stopped_instance] [] [] []) 1 []))
  = Ok (mkResponse 500 (JsonError "Missing email configuration in .env"))
  /\ scanUnused
       (Resolved
          (mkResponse 500 (JsonError "Missing email configuration in .env")))
       [] = []
  /\ snd (api_scan (sample_world None [stopped_instance] [] [] []) 1 [])
     <> [].
Proof.
  split; [vm_compute; reflexivity|].
  destruct (scanUnused_shows_answer
              (sample_world None [stopped_instance] [] [] []) 1 [] []
              (mkResponse 500
                 (JsonError "Missing email configuration in .env")))
    as (_ & Herror & _).
  - vm_compute. reflexivity.
  - split; [apply Herror; reflexivity|]. vm_compute. discriminate.
Defined.
